(** * Feedback aggregation worker: similarity retrieval, backfill and
      the notification workflow

    A shallow embedding of [my-first-worker/src/index.js] (the request
    handlers [handleSimilarFeedback] and [handleBackfillEmbeddings] with
    [generateEmbedding]) and of [src/workflow.js] (the class
    [FeedbackNotificationWorkflow]: [run], [analyzeUrgency],
    [sendSlackNotification]).

    Conventions.
    - An [async] function that may reject is a function into [result];
      [try { .. } catch (error) { .. }] is a [match] on that result.
    - The bindings reached through [env] (the D1 table, the Vectorize index,
      Workers AI, the webhook) are fields of an environment record, so that
      a statement quantified over the record ranges over every behaviour of
      the collaborators.
    - JavaScript numbers are binary64 floats ([PrimFloat.float]); integer
      keys of the [feedback] table are kept in [Z]. The worker reads a key
      as a JavaScript number, which holds it exactly up to 2^53 in absolute
      value; statements on the text of a key say so where it matters.
    - Strings are [String.string], one character per code unit. *)

From Stdlib Require Import ZArith Ascii String DecimalString.
From Stdlib Require Import Floats.PrimFloat Floats.SpecFloat Floats.FloatOps.
From stdpp Require Import base decidable option list strings sorting gmap.
From Equations Require Import Equations.

Set Warnings "-inexact-float,-register-all".
Open Scope string_scope.

(** ** JavaScript prelude *)

Module Js.

(** Outcome of an awaited call: a value, or a thrown [Error] carrying its
    [message]. *)
Inductive result (A : Type) : Type :=
| Ok (value : A)
| Throw (message : string).
Arguments Ok {A} value.
Arguments Throw {A} message.

Definition bind {A B} (r : result A) (k : A -> result B) : result B :=
  match r with
  | Ok a => k a
  | Throw e => Throw e
  end.

(** [Array.prototype.slice(start, stop)] for in-range, non-negative
    arguments. *)
Definition slice {A} (start stop : nat) (l : list A) : list A :=
  take (stop - start) (drop start l).

(** [!x] for a value that is a string, [null] or [undefined]. *)
Definition falsy_string (x : option string) : bool :=
  match x with
  | None => true
  | Some s => bool_decide (s = EmptyString)
  end.

(** [Number.prototype.toString()] on an integer value. *)
Definition toString (n : Z) : string :=
  NilZero.string_of_int (Z.to_int n).

End Js.

Notation "'await' x ':=' r 'in' k" := (Js.bind r (fun x => k))
  (at level 10, x name, r at level 100, k at level 200).

(** ** The worker: [my-first-worker/src/index.js] *)

Module Worker.
Import Js.

(** A row of the [feedback] table ([id INTEGER PRIMARY KEY], two
    [NOT NULL] text columns, the others nullable). *)
Record feedback : Type := {
  row_id : Z;
  row_source : string;
  row_message : string;
  row_timestamp : string;
  row_sentiment : option string;
  row_category : option string;
  row_author : option string;
  row_metadata : option string
}.

(** The D1 binding [env.DB]. [table] lists the rows in the order in which
    a scan of the table yields them. The handlers bind the text of a URL
    parameter or of a vector id against the integer column [id];
    [integer_of_text] is the engine's conversion of such a bound text to
    an integer key ([None]: the text compares equal to no key). The
    engine is taken to answer every statement. *)
Record D1Database : Type := {
  table : list feedback;
  integer_of_text : string -> option Z
}.

(** [id = ?] with [?] bound to the text [key]. *)
Definition id_equals (db : D1Database) (key : string) (r : feedback) : bool :=
  bool_decide (integer_of_text db key = Some (row_id r)).

(** [SELECT * FROM feedback WHERE id = ?] *)
Definition select_where_id (db : D1Database) (key : string) : list feedback :=
  List.filter (id_equals db key) (table db).

(** [SELECT * FROM feedback WHERE id IN (?,..,?)] *)
Definition select_where_id_in (db : D1Database) (keys : list string)
  : list feedback :=
  List.filter (fun r => existsb (fun key => id_equals db key r) keys) (table db).

Definition id_le (a b : feedback) : Prop := (row_id a <= row_id b)%Z.

#[export] Instance id_le_dec (a b : feedback) : Decision (id_le a b).
Proof. unfold id_le. apply _. Defined.

(** [SELECT id, message, source, sentiment FROM feedback ORDER BY id]
    (the rows keep their other columns, which the handler does not read). *)
Definition select_order_by_id (db : D1Database) : list feedback :=
  merge_sort id_le (table db).

(** The vector of floats answered by the embedding model. *)
Definition embedding : Type := list float.

(** The metadata stored with a vector. *)
Record vector_metadata : Type := {
  meta_source : string;
  meta_sentiment : option string;
  meta_timestamp : string
}.

(** One ranked match of [env.VECTORIZE.query]; [match_metadata] is [None]
    when the index returns none. *)
Record vector_match : Type := {
  match_id : string;
  match_score : float;
  match_metadata : option vector_metadata
}.

(** An entry [{id, score}] of the [scores] list of an answer. *)
Record score_entry : Type := {
  entry_id : string;
  entry_score : float
}.

Record query_options : Type := {
  topK : nat;
  returnValues : bool;
  returnMetadata : bool
}.

(** A vector handed to [env.VECTORIZE.insert]; [vector_values] is [None]
    when the embedding is [undefined]. *)
Record vector : Type := {
  vector_id : string;
  vector_values : option embedding;
  vector_metadata_of : vector_metadata
}.

(** The bindings of the worker. [AI_run_embedding text] is the [data]
    array answered by the embedding model for [{text: [text]}];
    [VECTORIZE_insert index v] tells whether inserting [v] into an index
    that holds [index] succeeds; [now] is the clock read by [new Date()]. *)
Record Env : Type := {
  DB : D1Database;
  AI_run_embedding : string -> result (list embedding);
  VECTORIZE_query : option embedding -> query_options -> result (list vector_match);
  VECTORIZE_insert : list vector -> vector -> result unit;
  now : string
}.

(** [generateEmbedding]: [response.data[0]], rethrowing any error. *)
Definition generateEmbedding (text : string) (env : Env) : result (option embedding) :=
  match AI_run_embedding env text with
  | Ok data => Ok (head data)
  | Throw error => Throw error
  end.

(** The value of one key of a JSON body. *)
Inductive field : Type :=
| FString (s : string)
| FNumber (n : Z)
| FBool (b : bool)
| FRow (r : feedback)
| FRows (rs : list feedback)
| FScores (ss : list score_entry).

(** The object given to [JSON.stringify], keys in source order. *)
Definition json : Type := list (string * field).

Fixpoint get (key : string) (o : json) : option field :=
  match o with
  | [] => None
  | (k, v) :: rest => if bool_decide (k = key) then Some v else get key rest
  end.

Record Response : Type := {
  status : nat;
  headers : list (string * string);
  body : json
}.

Definition json_response (corsHeaders : list (string * string))
    (code : nat) (o : json) : Response :=
  {| status := code;
     headers := (corsHeaders ++ [("Content-Type", "application/json")])%list;
     body := o |}.

(** The parsed request URL. *)
Record URL : Type := {
  pathname : string;
  searchParams : list (string * string)
}.

(** [url.searchParams.get(name)] *)
Fixpoint searchParams_get (params : list (string * string)) (name : string)
  : option string :=
  match params with
  | [] => None
  | (k, v) :: rest =>
      if bool_decide (k = name) then Some v else searchParams_get rest name
  end.

(** The predicate of both [filter] calls:
    [match.id !== feedbackId && match.score >= 0.6]. *)
Definition surfaced (feedbackId : string) (m : vector_match) : bool :=
  bool_decide (match_id m <> feedbackId) && PrimFloat.leb 0.6 (match_score m).

(** [matches.filter(..).slice(0, 5)] *)
Definition top_matches (feedbackId : string) (matches : list vector_match)
  : list vector_match :=
  slice 0 5 (List.filter (surfaced feedbackId) matches).

Definition handleSimilarFeedback (url : URL)
    (env : Env) (corsHeaders : list (string * string)) : Response :=
  let attempt : result Response :=
    let feedbackId := searchParams_get (searchParams url) "id" in
    if falsy_string feedbackId then
      Ok (json_response corsHeaders 400
            [("error", FString "id parameter is required")])
    else
      let feedbackId := default EmptyString feedbackId in
      let results := select_where_id (DB env) feedbackId in
      match results with
      | [] =>
          Ok (json_response corsHeaders 404
                [("error", FString "Feedback not found")])
      | originalFeedback :: _ =>
          await embedding := generateEmbedding (row_message originalFeedback) env in
          await matches := VECTORIZE_query env embedding
                       {| topK := 6; returnValues := false; returnMetadata := true |} in
          let similarIds := map match_id (top_matches feedbackId matches) in
          if (length similarIds =? 0)%nat then
            Ok (json_response corsHeaders 200
                  [("original", FRow originalFeedback);
                   ("similar", FRows []);
                   ("message", FString
                      "No similar feedback found (minimum 60% similarity required)")])
          else
            let similarFeedback := select_where_id_in (DB env) similarIds in
            Ok (json_response corsHeaders 200
                  [("original", FRow originalFeedback);
                   ("similar", FRows similarFeedback);
                   ("scores", FScores
                      (map (fun m => {| entry_id := match_id m;
                                        entry_score := match_score m |})
                           (top_matches feedbackId matches)))])
      end
  in
  match attempt with
  | Ok response => response
  | Throw message =>
      json_response corsHeaders 500
        [("error", FString "Failed to find similar feedback");
         ("details", FString message)]
  end.

(** *** Backfill *)

(** What one callback of [batch.map] resolves to. *)
Record item_result : Type := {
  item_id : Z;
  item_success : bool;
  item_error : option string
}.

(** The two counters of [handleBackfillEmbeddings], the content of the
    vector index, and the values the callbacks resolved to so far (the
    arrays awaited through [Promise.all], which the handler drops). *)
Record progress : Type := {
  processed : nat;
  errors : nat;
  index : list vector;
  settled : list item_result
}.

Definition start (ix : list vector) : progress :=
  {| processed := 0; errors := 0; index := ix; settled := [] |}.

(** The body of the callback: embed the message, insert the vector. *)
Definition embed_and_insert (env : Env) (fb : feedback) (ix : list vector)
  : result (list vector) :=
  await embedding := generateEmbedding (row_message fb) env in
  let v := {| vector_id := toString (row_id fb);
              vector_values := embedding;
              vector_metadata_of :=
                {| meta_source := row_source fb;
                   meta_sentiment := row_sentiment fb;
                   meta_timestamp := now env |} |} in
  await _ := VECTORIZE_insert env ix v in
  Ok (ix ++ [v])%list.

(** One callback with its [try]/[catch]. *)
Definition backfill_item (env : Env) (st : progress) (fb : feedback) : progress :=
  match embed_and_insert env fb (index st) with
  | Ok ix =>
      {| processed := S (processed st);
         errors := errors st;
         index := ix;
         settled := (settled st ++
           [{| item_id := row_id fb; item_success := true;
               item_error := None |}])%list |}
  | Throw message =>
      {| processed := processed st;
         errors := S (errors st);
         index := index st;
         settled := (settled st ++
           [{| item_id := row_id fb; item_success := false;
               item_error := Some message |}])%list |}
  end.

(** [await Promise.all(batch.map(..))]. The callbacks of a batch share
    one event loop and each increment runs without interruption; they are
    run here to completion in array order. Whether an insert succeeds is
    left to [VECTORIZE_insert], so that every pattern of successes and
    failures within a batch is covered. The order in which the inserts of
    a batch reach the index is the order in which the embeddings complete,
    which this run in array order does not give: the statements below rely
    on the counters and on which vectors are inserted, not on their order. *)
Definition backfill_batch (env : Env) (st : progress) (batch : list feedback)
  : progress :=
  fold_left (backfill_item env) batch st.

Definition batchSize : nat := 5.

(** [for (let i = 0; i < allFeedback.length; i += batchSize)] entered
    with the given [i]. *)
Equations? backfill_loop (env : Env) (allFeedback : list feedback)
    (i : nat) (st : progress) : progress
  by wf (length allFeedback - i) lt :=
  backfill_loop env allFeedback i st with decide (i < length allFeedback) => {
    | left _ =>
        let batch := slice i (i + batchSize) allFeedback in
        backfill_loop env allFeedback (i + batchSize) (backfill_batch env st batch);
    | right _ => st }.
Proof. unfold batchSize. lia. Qed.

(** The handler, from an index holding [ix]; it returns the answer and
    the index it leaves. With a store that answers, no error escapes the
    callbacks, and the outer [catch] (status 500) is not reached. *)
Definition handleBackfillEmbeddings (env : Env) (ix : list vector)
    (corsHeaders : list (string * string)) : Response * list vector :=
  let allFeedback := select_order_by_id (DB env) in
  if (length allFeedback =? 0)%nat then
    (json_response corsHeaders 200
       [("success", FBool true);
        ("message", FString "No feedback to backfill");
        ("processed", FNumber 0)],
     ix)
  else
    let st := backfill_loop env allFeedback 0 (start ix) in
    (json_response corsHeaders 200
       [("success", FBool true);
        ("message", FString
           ("Backfill complete: " ++ toString (Z.of_nat (processed st))
            ++ " embeddings created, " ++ toString (Z.of_nat (errors st))
            ++ " errors"));
        ("processed", FNumber (Z.of_nat (processed st)));
        ("errors", FNumber (Z.of_nat (errors st)));
        ("total", FNumber (Z.of_nat (length allFeedback)))],
     index st).

End Worker.

(** ** The notification workflow: [src/workflow.js] *)

Module Workflow.
Import Js.

(** A value produced by [JSON.parse]. An object lists its own properties,
    one entry per key. *)
Inductive jsval : Type :=
| JNull
| JBool (b : bool)
| JNumber (x : float)
| JString (s : string)
| JArray (items : list jsval)
| JObject (members : list (string * jsval)).

(** [ToBoolean]. *)
Definition truthy (v : jsval) : bool :=
  match v with
  | JNull => false
  | JBool b => b
  | JNumber x => negb (PrimFloat.eqb x 0 || PrimFloat.is_nan x)
  | JString s => negb (bool_decide (s = EmptyString))
  | JArray _ | JObject _ => true
  end.

Fixpoint own (key : string) (members : list (string * jsval)) : option jsval :=
  match members with
  | [] => None
  | (k, v) :: rest => if bool_decide (k = key) then Some v else own key rest
  end.

(** [v.key] for one of the keys [level], [confidence], [reason],
    [category], which no prototype defines: a [TypeError] on [null],
    [undefined] ([None]) on a missing key and on a primitive or array. *)
Definition member (v : jsval) (key : string) : result (option jsval) :=
  match v with
  | JNull => Throw ("Cannot read properties of null (reading '" ++ key ++ "')")
  | JObject members => Ok (own key members)
  | _ => Ok None
  end.

(** [v || d] *)
Definition or_else (v : option jsval) (d : jsval) : jsval :=
  match v with
  | Some x => if truthy x then x else d
  | None => d
  end.

(** [v === s] for a string literal [s]. *)
Definition is_string (v : option jsval) (s : string) : bool :=
  match v with
  | Some (JString t) => bool_decide (t = s)
  | _ => false
  end.

(** White space and line terminators among the code units below 256. *)
Definition is_space (c : ascii) : bool :=
  match nat_of_ascii c with
  | 9 | 10 | 11 | 12 | 13 | 32 | 160 => true
  | _ => false
  end.

Fixpoint trim_start (s : string) : string :=
  match s with
  | EmptyString => EmptyString
  | String c rest => if is_space c then trim_start rest else s
  end.

Fixpoint trim_end (s : string) : string :=
  match s with
  | EmptyString => EmptyString
  | String c rest =>
      let rest' := trim_end rest in
      if is_space c && bool_decide (rest' = EmptyString) then EmptyString
      else String c rest'
  end.

(** [String.prototype.trim] *)
Definition trim (s : string) : string := trim_end (trim_start s).

Definition newline : string := String (ascii_of_nat 10) EmptyString.

(** Length of the match of [/```json\n?|```\n?/] anchored at the start of
    [s]; 0 when there is none. *)
Definition fence_length (s : string) : nat :=
  let after n := if String.prefix newline (String.substring n 1 s) then S n else n in
  if String.prefix "```json" s then after 7
  else if String.prefix "```" s then after 3
  else 0.

(** [s.replace(/```json\n?|```\n?/g, '')]; [skip] counts the code units
    of the current match that are still to be dropped. *)
Fixpoint replace_fences (skip : nat) (s : string) : string :=
  match s with
  | EmptyString => EmptyString
  | String c rest =>
      match skip with
      | S k => replace_fences k rest
      | 0 =>
          match fence_length s with
          | 0 => String c (replace_fences 0 rest)
          | S k => replace_fences k rest
          end
      end
  end.

(** The [UrgencyAssessment] object. *)
Record assessment : Type := {
  level : jsval;
  confidence : jsval;
  reason : jsval;
  category : jsval
}.

Record chat_message : Type := {
  role : string;
  content : string
}.

Definition dq : string := String (ascii_of_nat 34) EmptyString.

Definition urgency_prompt (message sentiment : string) : string :=
  "Analyze this customer feedback for urgency. Classify as CRITICAL, HIGH, or NORMAL.

CRITICAL = Security issues, complete service failures, data loss, payment errors, legal threats
HIGH = Major bugs, broken features, workflow blockers, angry customers
NORMAL = Feature requests, minor bugs, general feedback

Feedback: " ++ dq ++ message ++ dq ++ "
Sentiment: " ++ sentiment ++ "

Respond ONLY with JSON: {" ++ dq ++ "level" ++ dq ++ ": " ++ dq ++ "CRITICAL|HIGH|NORMAL" ++ dq
  ++ ", " ++ dq ++ "confidence" ++ dq ++ ": 0.0-1.0, " ++ dq ++ "reason" ++ dq ++ ": "
  ++ dq ++ "brief explanation" ++ dq ++ ", " ++ dq ++ "category" ++ dq ++ ": " ++ dq
  ++ "issue type" ++ dq ++ "}".

Record fetch_response : Type := {
  ok : bool;
  http_status : nat
}.

Record event : Type := {
  feedbackId : Z;
  message : string;
  source : string;
  author : option string;
  sentiment : string
}.

(** What [sendSlackNotification] resolves to. *)
Record slack_result : Type := {
  slack_success : bool;
  slack_reason : option string;
  slack_timestamp : option string
}.

(** The checkpointed output of a step. *)
Inductive step_output : Type :=
| UrgencyOutput (u : assessment)
| SlackOutput (r : slack_result).

(** [urgency.level] on the output of the first step. *)
Definition level_of (o : step_output) : option jsval :=
  match o with
  | UrgencyOutput u => Some (level u)
  | SlackOutput _ => None
  end.

(** The argument of [sendSlackNotification]. *)
Record slack_data : Type := {
  data_feedbackId : Z;
  data_message : string;
  data_source : string;
  data_author : option string;
  data_sentiment : string;
  data_urgency : step_output
}.

(** The state of the workflow engine behind [step.do]: the outputs
    checkpointed by completed steps, the names passed to [step.do] during
    this run, and the names whose callback was run. *)
Record engine : Type := {
  saved : gmap string step_output;
  entered : list string;
  executed : list string
}.

(** [step.do(name, callback)]: a step with a checkpointed output is not
    run again; the output of a callback that resolves is checkpointed; a
    callback that rejects fails the step. *)
Definition step_do (name : string) (callback : unit -> result step_output)
    (st : engine) : result step_output * engine :=
  match saved st !! name with
  | Some output =>
      (Ok output,
       {| saved := saved st;
          entered := (entered st ++ [name])%list;
          executed := executed st |})
  | None =>
      match callback tt with
      | Ok output =>
          (Ok output,
           {| saved := <[name := output]> (saved st);
              entered := (entered st ++ [name])%list;
              executed := (executed st ++ [name])%list |})
      | Throw error =>
          (Throw error,
           {| saved := saved st;
              entered := (entered st ++ [name])%list;
              executed := (executed st ++ [name])%list |})
      end
  end.

(** The value [run] resolves to. *)
Record run_result : Type := {
  success : bool;
  urgency : option jsval;
  notified : bool
}.

Section Entrypoint.

(** [JSON.parse] of the platform; the Slack payload and its layout
    ([formatSlackMessage]), which no branch inspects. *)
Variable JSON_parse : string -> result jsval.
Variable payload : Type.
Variable formatSlackMessage : slack_data -> payload.

(** [this.env]: the chat model ([response.response] of its answer, [None]
    when absent; a call that rejects or resolves to no object at all is a
    [Throw]), the webhook URL, [fetch] and the clock. *)
Record Env : Type := {
  AI_run : string -> list chat_message -> result (option string);
  SLACK_WEBHOOK_URL : option string;
  fetch : string -> payload -> result fetch_response;
  now : string
}.

(** The messages sent to the chat model. *)
Definition urgency_messages (message sentiment : string) : list chat_message :=
  [ {| role := "system";
       content := "You are an urgency classifier. Return only valid JSON with no markdown." |};
    {| role := "user"; content := urgency_prompt message sentiment |} ].

(** [response.response?.trim() || '{}'] followed by
    [.replace(/```json\n?|```\n?/g, '').trim()]. *)
Definition cleaned (response : option string) : string :=
  let responseText :=
    match option_map trim response with
    | Some t => if bool_decide (t = EmptyString) then "{}" else t
    | None => "{}"
    end in
  trim (replace_fences 0 responseText).

(** The [try] block of [analyzeUrgency]. *)
Definition classify (env : Env) (message sentiment : string)
  : result assessment :=
  await response := AI_run env "@cf/meta/llama-3-8b-instruct"
    (urgency_messages message sentiment) in
  let cleanedResponse := cleaned response in
  await analysis := JSON_parse cleanedResponse in
  await level := member analysis "level" in
  await confidence := member analysis "confidence" in
  await reason := member analysis "reason" in
  await category := member analysis "category" in
  Ok {| level := or_else level (JString "NORMAL");
        confidence := or_else confidence (JNumber 0.5);
        reason := or_else reason (JString "No specific reason provided");
        category := or_else category (JString "General") |}.

(** The [catch] block of [analyzeUrgency]. *)
Definition fallback (sentiment : string) : assessment :=
  {| level := JString (if bool_decide (sentiment = "negative") then "HIGH" else "NORMAL");
     confidence := JNumber 0.5;
     reason := JString "Fallback classification based on sentiment";
     category := JString "General" |}.

Definition analyzeUrgency (env : Env) (message sentiment : string) : assessment :=
  match classify env message sentiment with
  | Ok a => a
  | Throw _ => fallback sentiment
  end.

Definition sendSlackNotification (env : Env) (data : slack_data)
  : result slack_result :=
  if falsy_string (SLACK_WEBHOOK_URL env) then
    Ok {| slack_success := false;
          slack_reason := Some "No webhook configured";
          slack_timestamp := None |}
  else
    let webhookUrl := default EmptyString (SLACK_WEBHOOK_URL env) in
    let slackMessage := formatSlackMessage data in
    await response := fetch env webhookUrl slackMessage in
    if negb (ok response) then
      Throw ("Slack API error: " ++ toString (Z.of_nat (http_status response)))
    else
      Ok {| slack_success := true;
            slack_reason := None;
            slack_timestamp := Some (now env) |}.

Definition run (env : Env) (ev : event) (st : engine)
  : result run_result * engine :=
  let '(urgency, st) :=
    step_do "analyze-urgency"
      (fun _ => Ok (UrgencyOutput (analyzeUrgency env (message ev) (sentiment ev))))
      st in
  match urgency with
  | Throw error => (Throw error, st)
  | Ok urgency =>
      let urgent := is_string (level_of urgency) "CRITICAL"
                    || is_string (level_of urgency) "HIGH" in
      let '(sent, st) :=
        if urgent then
          step_do "send-slack-notification"
            (fun _ =>
               await r := sendSlackNotification env
                 {| data_feedbackId := feedbackId ev;
                    data_message := message ev;
                    data_source := source ev;
                    data_author := author ev;
                    data_sentiment := sentiment ev;
                    data_urgency := urgency |} in
               Ok (SlackOutput r))
            st
        else (Ok urgency, st) in
      match sent with
      | Throw error => (Throw error, st)
      | Ok _ =>
          (Ok {| success := true;
                 urgency := level_of urgency;
                 notified := urgent |},
           st)
      end
  end.

End Entrypoint.

Arguments AI_run {payload} _ _ _.
Arguments SLACK_WEBHOOK_URL {payload} _.
Arguments fetch {payload} _ _ _.
Arguments now {payload} _.
Arguments classify JSON_parse {payload} env message sentiment.
Arguments analyzeUrgency JSON_parse {payload} env message sentiment.
Arguments sendSlackNotification {payload} formatSlackMessage env data.
Arguments run JSON_parse {payload} formatSlackMessage env ev st.

End Workflow.

(** ** A reference [JSON.parse]

    The grammar of RFC 8259 on texts whose strings hold code units below
    256 (an escape [\uXXXX] above that is refused). Numbers are rounded to
    the nearest binary64 value, ties to even. The properties below are
    stated for an arbitrary parser; this one serves the examples. *)

Module Json.
Import Js Workflow.

Definition code (c : ascii) : N := N_of_ascii c.

Definition is_ws (c : ascii) : bool :=
  ((code c =? 32) || (code c =? 9) || (code c =? 10) || (code c =? 13))%N.

Fixpoint skip_ws (s : string) : string :=
  match s with
  | EmptyString => EmptyString
  | String c rest => if is_ws c then skip_ws rest else s
  end.

Fixpoint strip_prefix (p s : string) : option string :=
  match p, s with
  | EmptyString, _ => Some s
  | String a p', String b s' => if Ascii.eqb a b then strip_prefix p' s' else None
  | String _ _, EmptyString => None
  end.

Definition digit (c : ascii) : option N :=
  if ((48 <=? code c) && (code c <=? 57))%N then Some (code c - 48)%N else None.

Definition hex_digit (c : ascii) : option N :=
  if ((48 <=? code c) && (code c <=? 57))%N then Some (code c - 48)%N
  else if ((65 <=? code c) && (code c <=? 70))%N then Some (code c - 55)%N
  else if ((97 <=? code c) && (code c <=? 102))%N then Some (code c - 87)%N
  else None.

(** A maximal run of decimal digits appended to [acc]; the number of
    digits read is added to [count]. *)
Fixpoint digits (acc : N) (count : nat) (s : string) : N * nat * string :=
  match s with
  | EmptyString => (acc, count, s)
  | String c rest =>
      match digit c with
      | Some d => digits (acc * 10 + d) (S count) rest
      | None => (acc, count, s)
      end
  end.

(** The binary64 value nearest to [m * 10 ^ e]. *)
Definition float_of_decimal (m : N) (e : Z) : float :=
  match m with
  | N0 => 0%float
  | Npos p =>
      let num := if (0 <=? e)%Z then (Z.pos p * 10 ^ e)%Z else Z.pos p in
      let den := if (0 <=? e)%Z then 1%Z else (10 ^ (- e))%Z in
      FloatOps.SF2Prim
        (SpecFloat.SFdiv FloatOps.prec FloatOps.emax
           (SpecFloat.S754_finite false (Z.to_pos num) 0)
           (SpecFloat.S754_finite false (Z.to_pos den) 0))
  end.

Definition syntax_error {A} : result A := Throw "Unexpected token in JSON".

(** An optional minus sign; a zero or a run of digits that does not start
    with zero; optionally a dot and at least one digit; optionally [e] or
    [E], a sign and at least one digit. *)
Definition parse_number (s : string) : result (float * string) :=
  let '(negative, s) :=
    match s with
    | String c rest => if (code c =? 45)%N then (true, rest) else (false, s)
    | EmptyString => (false, s)
    end in
  match s with
  | EmptyString => syntax_error
  | String c rest =>
      match digit c with
      | None => syntax_error
      | Some d =>
          let '(int, _, s) := if (d =? 0)%N then (0%N, 1, rest) else digits 0 0 s in
          let fraction :=
            match s with
            | String c rest =>
                if (code c =? 46)%N then
                  let '(m, k, s') := digits int 0 rest in
                  match k with 0 => None | S _ => Some (m, k, s') end
                else Some (int, 0, s)
            | EmptyString => Some (int, 0, s)
            end in
          match fraction with
          | None => syntax_error
          | Some (m, k, s) =>
              let exponent :=
                match s with
                | String c rest =>
                    if ((code c =? 101) || (code c =? 69))%N then
                      let '(minus, rest) :=
                        match rest with
                        | String c' rest' =>
                            if (code c' =? 45)%N then (true, rest')
                            else if (code c' =? 43)%N then (false, rest')
                            else (false, rest)
                        | EmptyString => (false, rest)
                        end in
                      let '(x, n, s') := digits 0 0 rest in
                      match n with
                      | 0 => None
                      | S _ => Some (if minus then (- Z.of_N x)%Z else Z.of_N x, s')
                      end
                    else Some (0%Z, s)
                | EmptyString => Some (0%Z, s)
                end in
              match exponent with
              | None => syntax_error
              | Some (x, s) =>
                  let magnitude := float_of_decimal m (x - Z.of_nat k) in
                  Ok (if negative then PrimFloat.opp magnitude else magnitude, s)
              end
          end
      end
  end.

(** The content of a string, the opening quote already read. *)
Fixpoint parse_string (s : string) : result (string * string) :=
  match s with
  | EmptyString => syntax_error
  | String c rest =>
      if (code c =? 34)%N then Ok (EmptyString, rest)
      else if (code c <? 32)%N then syntax_error
      else if (code c =? 92)%N then
        match rest with
        | EmptyString => syntax_error
        | String e rest =>
            let escaped (unit : N) (rest : string) (tail : result (string * string)) :=
              match tail with
              | Ok (text, rest') => Ok (String (ascii_of_N unit) text, rest')
              | Throw error => Throw error
              end in
            if (code e =? 34)%N then escaped 34%N rest (parse_string rest)
            else if (code e =? 92)%N then escaped 92%N rest (parse_string rest)
            else if (code e =? 47)%N then escaped 47%N rest (parse_string rest)
            else if (code e =? 98)%N then escaped 8%N rest (parse_string rest)
            else if (code e =? 102)%N then escaped 12%N rest (parse_string rest)
            else if (code e =? 110)%N then escaped 10%N rest (parse_string rest)
            else if (code e =? 114)%N then escaped 13%N rest (parse_string rest)
            else if (code e =? 116)%N then escaped 9%N rest (parse_string rest)
            else if (code e =? 117)%N then
              match rest with
              | String h1 (String h2 (String h3 (String h4 rest))) =>
                  match hex_digit h1, hex_digit h2, hex_digit h3, hex_digit h4 with
                  | Some a, Some b, Some c, Some d =>
                      let unit := (((a * 16 + b) * 16 + c) * 16 + d)%N in
                      if (unit <? 256)%N then escaped unit rest (parse_string rest)
                      else Throw "code unit outside the modelled strings"
                  | _, _, _, _ => syntax_error
                  end
              | _ => syntax_error
              end
            else syntax_error
        end
      else
        match parse_string rest with
        | Ok (text, rest') => Ok (String c text, rest')
        | Throw error => Throw error
        end
  end.

(** Defining a property of an object: a later duplicate replaces the
    value of an earlier one. *)
Fixpoint define (key : string) (v : jsval) (members : list (string * jsval))
  : list (string * jsval) :=
  match members with
  | [] => [(key, v)]
  | (k, w) :: rest =>
      if bool_decide (k = key) then (k, v) :: rest else (k, w) :: define key v rest
  end.

(** A value, the rest of an array after its opening bracket or a comma,
    and the rest of an object likewise. Every call uses up one unit of
    [fuel]. *)
Fixpoint parse_value (fuel : nat) (s : string) {struct fuel}
  : result (jsval * string) :=
  match fuel with
  | 0 => syntax_error
  | S fuel =>
      match skip_ws s with
      | EmptyString => Throw "Unexpected end of JSON input"
      | String c rest as s =>
          if (code c =? 123)%N then
            match skip_ws rest with
            | String c' rest' =>
                if (code c' =? 125)%N then Ok (JObject [], rest')
                else parse_members fuel [] rest
            | EmptyString => Throw "Unexpected end of JSON input"
            end
          else if (code c =? 91)%N then
            match skip_ws rest with
            | String c' rest' =>
                if (code c' =? 93)%N then Ok (JArray [], rest')
                else parse_elements fuel [] rest
            | EmptyString => Throw "Unexpected end of JSON input"
            end
          else if (code c =? 34)%N then
            match parse_string rest with
            | Ok (text, rest') => Ok (JString text, rest')
            | Throw error => Throw error
            end
          else
            match strip_prefix "true" s, strip_prefix "false" s, strip_prefix "null" s with
            | Some rest', _, _ => Ok (JBool true, rest')
            | _, Some rest', _ => Ok (JBool false, rest')
            | _, _, Some rest' => Ok (JNull, rest')
            | None, None, None =>
                match parse_number s with
                | Ok (x, rest') => Ok (JNumber x, rest')
                | Throw error => Throw error
                end
            end
      end
  end
with parse_elements (fuel : nat) (acc : list jsval) (s : string) {struct fuel}
  : result (jsval * string) :=
  match fuel with
  | 0 => syntax_error
  | S fuel =>
      match parse_value fuel s with
      | Throw error => Throw error
      | Ok (v, rest) =>
          match skip_ws rest with
          | String c rest' =>
              if (code c =? 44)%N then parse_elements fuel (acc ++ [v])%list rest'
              else if (code c =? 93)%N then Ok (JArray (acc ++ [v])%list, rest')
              else syntax_error
          | EmptyString => Throw "Unexpected end of JSON input"
          end
      end
  end
with parse_members (fuel : nat) (acc : list (string * jsval)) (s : string)
    {struct fuel} : result (jsval * string) :=
  match fuel with
  | 0 => syntax_error
  | S fuel =>
      match skip_ws s with
      | EmptyString => Throw "Unexpected end of JSON input"
      | String q rest =>
          if negb (code q =? 34)%N then syntax_error
          else
            match parse_string rest with
            | Throw error => Throw error
            | Ok (key, rest) =>
                match skip_ws rest with
                | EmptyString => Throw "Unexpected end of JSON input"
                | String colon rest =>
                    if negb (code colon =? 58)%N then syntax_error
                    else
                      match parse_value fuel rest with
                      | Throw error => Throw error
                      | Ok (v, rest) =>
                          match skip_ws rest with
                          | String c rest' =>
                              if (code c =? 44)%N then
                                parse_members fuel (define key v acc) rest'
                              else if (code c =? 125)%N then
                                Ok (JObject (define key v acc), rest')
                              else syntax_error
                          | EmptyString => Throw "Unexpected end of JSON input"
                          end
                      end
                end
            end
      end
  end.

(** [JSON.parse(text)]: one value, then nothing but white space. Two
    units of fuel per character cover every chain of calls. *)
Definition parse (text : string) : result jsval :=
  match parse_value (2 * String.length text + 2) text with
  | Throw error => Throw error
  | Ok (v, rest) =>
      match skip_ws rest with
      | EmptyString => Ok v
      | String _ _ => Throw "Unexpected non-whitespace character after JSON"
      end
  end.

End Json.

(** ** Sample environments *)

Module Sample.
Import Js Worker.

(** The conversion of a bound text made of decimal digits, with an
    optional minus sign and leading zeros allowed, to the integer it
    denotes: what the numeric affinity of SQLite, the engine of D1, does on
    such texts when they are compared with an [INTEGER] column. *)
Definition decimal_key (text : string) : option Z :=
  option_map Z.of_int (NilZero.int_of_string text).

Definition row (n : Z) (text : string) : feedback :=
  {| row_id := n; row_source := "Discord"; row_message := text;
     row_timestamp := "2025-01-01 00:00:00"; row_sentiment := Some "negative";
     row_category := None; row_author := None; row_metadata := None |}.

(** A store of four rows. *)
Definition store : D1Database :=
  {| table := [row 1 "The app keeps crashing";
               row 2 "App freezes on startup";
               row 3 "Crash when saving";
               row 5 "Love the new dashboard"];
     integer_of_text := decimal_key |}.

(** Seven rows: two batches of the backfill. *)
Definition long_store : D1Database :=
  {| table := [row 1 "a"; row 2 "b"; row 3 "c"; row 4 "d"; row 5 "e";
               row 6 "f"; row 7 "g"];
     integer_of_text := decimal_key |}.

Definition hit (name : string) (score : float) : vector_match :=
  {| match_id := name; match_score := score; match_metadata := None |}.

Definition entry (name : string) (score : float) : score_entry :=
  {| entry_id := name; entry_score := score |}.

(** An environment whose index answers every query with [matches] and
    refuses to insert an id it already holds. *)
Definition env_with (db : D1Database) (matches : list vector_match) : Env :=
  {| DB := db;
     AI_run_embedding := fun _ => Ok [[0.25%float; 0.5%float]];
     VECTORIZE_query := fun _ _ => Ok matches;
     VECTORIZE_insert := fun ix v =>
       if existsb (fun w => bool_decide (vector_id w = vector_id v)) ix
       then Throw "duplicate id" else Ok tt;
     now := "2025-01-02T00:00:00.000Z" |}.

End Sample.

(** ** Notions used in the statements *)

Import Js Worker.

(** The options of the handler's only query. *)
Definition query6 : query_options :=
  {| topK := 6; returnValues := false; returnMetadata := true |}.

(** The entry of a match in [scores]; the body of the answer when no match
    is surfaced, and the body otherwise. *)
Definition score_of (m : vector_match) : score_entry :=
  {| entry_id := match_id m; entry_score := match_score m |}.

Definition empty_body (original : feedback) : json :=
  [("original", FRow original);
   ("similar", FRows []);
   ("message", FString "No similar feedback found (minimum 60% similarity required)")].

Definition found_body (db : D1Database) (feedbackId : string) (original : feedback)
    (matches : list vector_match) : json :=
  [("original", FRow original);
   ("similar", FRows (select_where_id_in db
                        (map match_id (top_matches feedbackId matches))));
   ("scores", FScores (map score_of (top_matches feedbackId matches)))].

(** The keys of a JSON body, in order. *)
Definition keys (o : json) : list string := map fst o.

(** The score [a] is at least the score [b]. *)
Definition outranks (a b : float) : Prop := PrimFloat.leb b a = true.

(** Scores in non-increasing order: each one is at least every later one. *)
Definition non_increasing (l : list float) : Prop :=
  StronglySorted outranks l.

(** The request [GET /api/similar-feedback?id=..], and an answer of the
    index used in the examples: the vector of row 1 itself, three
    neighbours, one of them without a row in [Sample.store], and a match
    below the threshold. *)
Definition request (id : string) : URL :=
  {| pathname := "/api/similar-feedback"; searchParams := [("id", id)] |}.

Definition ranked : list vector_match :=
  [Sample.hit "1" 1%float; Sample.hit "3" 0.9%float; Sample.hit "2" 0.8%float;
   Sample.hit "9" 0.7%float; Sample.hit "5" 0.3%float].



(** An index that already holds the vectors of rows 2 and 6: inserting
    them again fails. *)
Definition stored (name : string) : vector :=
  {| vector_id := name; vector_values := None;
     vector_metadata_of :=
       {| meta_source := "Discord"; meta_sentiment := None;
          meta_timestamp := "2025-01-01T00:00:00.000Z" |} |}.

Definition stale_index : list vector := [stored "2"; stored "6"].

(** A store without rows. *)
Definition empty_store : D1Database :=
  {| table := []; integer_of_text := Sample.decimal_key |}.

(** ** Notions used in the statements on the workflow *)

Import Workflow.

(** [level] in the closed set, [confidence] a number of [[0, 1]]. *)
Definition level_in_set (v : jsval) : Prop :=
  v = JString "CRITICAL" \/ v = JString "HIGH" \/ v = JString "NORMAL".

Definition in_unit_interval (v : jsval) : Prop :=
  exists x, v = JNumber x /\ PrimFloat.leb 0 x = true /\ PrimFloat.leb x 1 = true.

Definition well_formed (a : assessment) : Prop :=
  level_in_set (level a) /\ in_unit_interval (confidence a).

(** The level read from the output of the first step is [CRITICAL] or
    [HIGH]. *)
Definition urgent (o : step_output) : Prop :=
  level_of o = Some (JString "CRITICAL") \/ level_of o = Some (JString "HIGH").

(** A run starts with the checkpoints of earlier attempts and empty logs. *)
Definition started (checkpoints : gmap string step_output) : engine :=
  {| saved := checkpoints; entered := []; executed := [] |}.

(** An environment whose chat model gives one [answer]; the payload is not
    looked at. *)
Definition chat_env (answer : result (option string)) (webhook : option string)
  : Workflow.Env unit :=
  {| AI_run := fun _ _ => answer;
     SLACK_WEBHOOK_URL := webhook;
     fetch := fun _ _ => Ok {| ok := true; http_status := 200 |};
     Workflow.now := "2025-01-02T00:00:00.000Z" |}.

(** Three answers of the chat model: prose, a well-formed object in a code
    fence, and an object with a level and a confidence of its own making. *)
Definition prose_answer : string := "Sure! This feedback looks urgent.".

Definition fenced_answer : string :=
  "```json
{" ++ dq ++ "level" ++ dq ++ ": " ++ dq ++ "CRITICAL" ++ dq ++ ", "
   ++ dq ++ "confidence" ++ dq ++ ": 0.95, "
   ++ dq ++ "reason" ++ dq ++ ": " ++ dq ++ "Payment failure" ++ dq ++ ", "
   ++ dq ++ "category" ++ dq ++ ": " ++ dq ++ "Billing" ++ dq ++ "}
```".

Definition unchecked_answer : string :=
  "{" ++ dq ++ "level" ++ dq ++ ": " ++ dq ++ "URGENT" ++ dq ++ ", "
      ++ dq ++ "confidence" ++ dq ++ ": 7}".

Definition sample_event : event :=
  {| feedbackId := 7; message := "Checkout charges my card twice";
     source := "Support"; author := Some "Bob"; sentiment := "negative" |}.

(** ** Notions used in the statements on retries *)

(** The argument that [run] hands to [sendSlackNotification]. *)
Definition slack_data_of (ev : event) (u : step_output) : slack_data :=
  {| data_feedbackId := feedbackId ev;
     data_message := message ev;
     data_source := source ev;
     data_author := author ev;
     data_sentiment := sentiment ev;
     data_urgency := u |}.

(** The assessment built from an answer that carries none of the four
    fields. *)
Definition default_assessment : assessment :=
  {| level := JString "NORMAL";
     confidence := JNumber 0.5;
     reason := JString "No specific reason provided";
     category := JString "General" |}.

(** A webhook that answers with the given status. *)
Definition hook_env (answer : result (option string)) (reply : result fetch_response)
  : Workflow.Env unit :=
  {| AI_run := fun _ _ => answer;
     SLACK_WEBHOOK_URL := Some "https://hooks.example/T";
     fetch := fun _ _ => reply;
     Workflow.now := "2025-01-02T00:00:00.000Z" |}.

(** ** The rest of the worker: sentiment, submission, feature analysis *)

Module Intake.
Import Js Worker Workflow.

(** [String.prototype.toLowerCase] on code units below 256: the letters
    [A]-[Z], and the capital letters of the range 192-222 (215, the
    multiplication sign, is not one). *)
Definition lower (c : ascii) : ascii :=
  let n := nat_of_ascii c in
  if ((65 <=? n) && (n <=? 90))%nat then ascii_of_nat (n + 32)
  else if ((192 <=? n) && (n <=? 222) && negb (n =? 215))%nat then ascii_of_nat (n + 32)
  else c.

Fixpoint toLowerCase (s : string) : string :=
  match s with
  | EmptyString => EmptyString
  | String c rest => String (lower c) (toLowerCase rest)
  end.

(** [hay.includes(needle)] *)
Fixpoint includes (needle hay : string) : bool :=
  String.prefix needle hay
  || match hay with
     | EmptyString => false
     | String _ rest => includes needle rest
     end.

(** The chat model of [env.AI]: [response.response] of its answer, [None]
    when absent. *)
Definition chat : Type := string -> list chat_message -> result (option string).

Definition sentiment_messages (message : string) : list chat_message :=
  [ {| role := "system";
       content := "You are a sentiment analyzer. Analyze the sentiment of the following text and respond with ONLY one word: "
                  ++ dq ++ "positive" ++ dq ++ ", " ++ dq ++ "negative" ++ dq ++ ", or "
                  ++ dq ++ "neutral" ++ dq ++ ". No explanation needed." |};
    {| role := "user"; content := message |} ].

Definition analyzeSentiment (AI_run : chat) (message : string) : string :=
  match AI_run "@cf/meta/llama-3-8b-instruct" (sentiment_messages message) with
  | Ok response =>
      let sentiment :=
        match option_map (fun r => trim (toLowerCase r)) response with
        | Some t => if bool_decide (t = EmptyString) then "neutral" else t
        | None => "neutral"
        end in
      if includes "positive" sentiment then "positive"
      else if includes "negative" sentiment then "negative"
      else "neutral"
  | Throw _ => "neutral"
  end.

(** *** Keyword extraction *)

(** A value of the [mentions] field, and a count kept in the [keywords]
    object: a counter (an integer below 2^53, kept in [nat]), a number read
    from the model's JSON, or a text. *)
Inductive mentions : Type :=
| MNumber (n : nat)
| MFloat (x : float)
| MText (s : string).

(** An entry [{feature, mentions}]. *)
Record feature : Type := {
  feature_name : string;
  feature_mentions : mentions
}.

Definition commonWords : list string :=
  ["the"; "a"; "an"; "and"; "or"; "but"; "is"; "are"; "was"; "were"; "be";
   "been"; "being"; "have"; "has"; "had"; "do"; "does"; "did"; "will";
   "would"; "could"; "should"; "this"; "that"; "these"; "those"; "i";
   "you"; "he"; "she"; "it"; "we"; "they"; "my"; "your"; "his"; "her";
   "its"; "our"; "their"; "me"; "him"; "them"; "us"; "so"; "than"; "too";
   "very"; "just"; "can"; "to"; "of"; "in"; "for"; "on"; "with"; "as";
   "by"; "at"; "from"].

(** [\w] and [[a-z]]. *)
Definition is_word_char (c : ascii) : bool :=
  let n := nat_of_ascii c in
  ((48 <=? n) && (n <=? 57) || (65 <=? n) && (n <=? 90)
   || (97 <=? n) && (n <=? 122) || (n =? 95))%nat.

Definition is_lower_letter (c : ascii) : bool :=
  let n := nat_of_ascii c in ((97 <=? n) && (n <=? 122))%nat.

Fixpoint all_chars (p : ascii -> bool) (s : string) : bool :=
  match s with
  | EmptyString => true
  | String c rest => p c && all_chars p rest
  end.

(** The maximal runs of word characters of [s], [current] being the run
    that precedes [s]. *)
Fixpoint word_runs (current : string) (s : string) : list string :=
  match s with
  | EmptyString => [current]
  | String c rest =>
      if is_word_char c then word_runs (current ++ String c EmptyString) rest
      else current :: word_runs EmptyString rest
  end.

(** [s.match(/\b[a-z]{3,}\b/g) || []]: between two word boundaries the
    pattern matches a whole run of word characters or nothing, so the
    matches are the runs made of at least three letters [a]-[z]. *)
Definition match_words (s : string) : list string :=
  List.filter (fun w => (3 <=? String.length w)%nat && all_chars is_lower_letter w)
    (word_runs EmptyString s).

(** [keywords[word]] on an object that does not own [word]: the property
    inherited from [Object.prototype]. Among the words matched above only
    [constructor] names one, the function [Object]. *)
Definition inherited (word : string) : option string :=
  if bool_decide (word = "constructor") then Some "function Object() { [native code] }"
  else None.

(** [(c || 0) + 1] on an own count [c]: a number is incremented, a text
    gets the digit appended. *)
Definition increment (c : mentions) : mentions :=
  match c with
  | MNumber n => MNumber (n + 1)
  | MFloat x => MFloat (x + 1)
  | MText s => MText (s ++ "1")
  end.

(** [keywords[word] = (keywords[word] || 0) + 1]; the object lists its own
    properties in the order of their creation. *)
Fixpoint bump (word : string) (keywords : list (string * mentions))
  : list (string * mentions) :=
  match keywords with
  | [] =>
      [(word, match inherited word with
              | Some text => MText (text ++ "1")
              | None => MNumber 1
              end)]
  | (k, c) :: rest =>
      if bool_decide (k = word) then (k, increment c) :: rest
      else (k, c) :: bump word rest
  end.

(** The body of the inner [forEach]. *)
Definition count_word (keywords : list (string * mentions)) (word : string)
  : list (string * mentions) :=
  if existsb (fun w => bool_decide (w = word)) commonWords then keywords
  else bump word keywords.

(** The two nested [forEach] loops. *)
Definition count_words (feedbackList : list string) : list (string * mentions) :=
  fold_left
    (fun keywords feedback =>
       fold_left count_word (match_words (toLowerCase feedback)) keywords)
    feedbackList [].

(** [b[1] - a[1] > 0]: the comparator asks for [b] before [a]. With a count
    that is a text the difference is [NaN], which [sort] takes for 0. *)
Definition ranks_above (b a : string * mentions) : bool :=
  match snd b, snd a with
  | MNumber m, MNumber n => (n <? m)%nat
  | _, _ => false
  end.

(** [entries.sort((a, b) => b[1] - a[1])]: the sort is stable, and for
    counts that are all numbers the comparator is a consistent order, for
    which every stable sort gives the result of this insertion sort. *)
Fixpoint place (a : string * mentions) (sorted : list (string * mentions))
  : list (string * mentions) :=
  match sorted with
  | [] => [a]
  | b :: rest => if ranks_above b a then b :: place a rest else a :: b :: rest
  end.

Fixpoint sort_entries (entries : list (string * mentions)) : list (string * mentions) :=
  match entries with
  | [] => []
  | a :: rest => place a (sort_entries rest)
  end.

Definition extractKeywords (feedbackList : list string) (sentimentType : string)
  : list feature :=
  map (fun e => {| feature_name := fst e; feature_mentions := snd e |})
    (slice 0 3 (sort_entries (count_words feedbackList))).

(** *** Feature extraction with the model *)

(** [parts.join(separator)] *)
Fixpoint join (separator : string) (parts : list string) : string :=
  match parts with
  | [] => EmptyString
  | p :: rest =>
      match rest with
      | [] => p
      | _ :: _ => p ++ separator ++ join separator rest
      end
  end.

Definition feature_prompt (sentimentType combinedFeedback : string) : string :=
  if bool_decide (sentimentType = "positive") then
    "Analyze the following positive customer feedback and extract the TOP 3 most praised features, products, or aspects. Return ONLY a JSON array of objects with "
    ++ dq ++ "feature" ++ dq ++ " and " ++ dq ++ "mentions" ++ dq ++ " (count) fields. Feedback:
- " ++ combinedFeedback
  else
    "Analyze the following negative customer feedback and extract the TOP 3 most criticized features, products, or aspects. Return ONLY a JSON array of objects with "
    ++ dq ++ "feature" ++ dq ++ " and " ++ dq ++ "mentions" ++ dq ++ " (count) fields. Feedback:
- " ++ combinedFeedback.

Definition feature_messages (feedbackList : list string) (sentimentType : string)
  : list chat_message :=
  let combinedFeedback := join (newline ++ "- ") (slice 0 20 feedbackList) in
  [ {| role := "system";
       content := "You are a feature extraction expert. Analyze customer feedback and identify specific features, products, or aspects mentioned. Return ONLY valid JSON array format with no markdown or explanation. Each object must have "
                  ++ dq ++ "feature" ++ dq ++ " (string) and " ++ dq ++ "mentions" ++ dq
                  ++ " (number) fields." |};
    {| role := "user"; content := feature_prompt sentimentType combinedFeedback |} ].

(** [features.filter((f) => f.feature && typeof f.feature === 'string')]:
    reading [f.feature] throws on a [null] element. *)
Fixpoint filter_features (items : list jsval) : result (list jsval) :=
  match items with
  | [] => Ok []
  | f :: rest =>
      await v := member f "feature" in
      await kept := filter_features rest in
      Ok (match v with
          | Some (JString s) =>
              if bool_decide (s = EmptyString) then kept else f :: kept
          | _ => kept
          end)
  end.

(** The callback of [map], on an element that passed the filter. *)
Definition to_feature (f : jsval) : feature :=
  {| feature_name :=
       match member f "feature" with
       | Ok (Some (JString s)) => s
       | _ => EmptyString
       end;
     feature_mentions :=
       match member f "mentions" with
       | Ok (Some (JNumber x)) => MFloat x
       | _ => MNumber 1
       end |}.

(** The inner [try] block of [extractFeatures]. *)
Definition parse_features (JSON_parse : string -> result jsval)
    (response : option string) : result (list feature) :=
  let responseText :=
    match option_map trim response with
    | Some t => if bool_decide (t = EmptyString) then "[]" else t
    | None => "[]"
    end in
  let cleanedResponse := trim (replace_fences 0 responseText) in
  await parsed := JSON_parse cleanedResponse in
  let features := match parsed with JArray items => items | _ => [] end in
  await kept := filter_features features in
  Ok (slice 0 3 (map to_feature kept)).

Definition extractFeatures (JSON_parse : string -> result jsval) (AI_run : chat)
    (feedbackList : list string) (sentimentType : string) : list feature :=
  if (length feedbackList =? 0)%nat then []
  else
    match AI_run "@cf/meta/llama-3-8b-instruct"
            (feature_messages feedbackList sentimentType) with
    | Throw _ => []
    | Ok response =>
        match parse_features JSON_parse response with
        | Ok features => features
        | Throw _ => extractKeywords feedbackList sentimentType
        end
    end.

(** The value of a key of the body of [GET /api/analyze-features]. *)
Inductive analysis_field : Type :=
| AFeatures (l : list feature)
| ANumber (n : nat)
| AString (s : string).

Record AnalysisResponse : Type := {
  analysis_status : nat;
  analysis_headers : list (string * string);
  analysis_body : list (string * analysis_field)
}.

Fixpoint analysis_get (key : string) (o : list (string * analysis_field))
  : option analysis_field :=
  match o with
  | [] => None
  | (k, v) :: rest => if bool_decide (k = key) then Some v else analysis_get key rest
  end.

(** [SELECT message, sentiment FROM feedback], then the handler. The store
    answers, and [extractFeatures] throws nothing, so that the [catch] of
    the handler (status 500) is not reached. *)
Definition handleFeatureAnalysis (JSON_parse : string -> result jsval)
    (AI_run : chat) (db : D1Database) (corsHeaders : list (string * string))
  : AnalysisResponse :=
  let results := table db in
  let headers := (corsHeaders ++ [("Content-Type", "application/json")])%list in
  if (length results =? 0)%nat then
    {| analysis_status := 200;
       analysis_headers := headers;
       analysis_body :=
         [("bestFeatures", AFeatures []);
          ("worstFeatures", AFeatures []);
          ("message", AString "No feedback available for analysis")] |}
  else
    let positiveFeedback :=
      map row_message
        (List.filter (fun f => bool_decide (row_sentiment f = Some "positive")) results) in
    let negativeFeedback :=
      map row_message
        (List.filter (fun f => bool_decide (row_sentiment f = Some "negative")) results) in
    let bestFeatures := extractFeatures JSON_parse AI_run positiveFeedback "positive" in
    let worstFeatures := extractFeatures JSON_parse AI_run negativeFeedback "negative" in
    {| analysis_status := 200;
       analysis_headers := headers;
       analysis_body :=
         [("bestFeatures", AFeatures bestFeatures);
          ("worstFeatures", AFeatures worstFeatures);
          ("analyzedCount", ANumber (length results));
          ("positiveCount", ANumber (length positiveFeedback));
          ("negativeCount", ANumber (length negativeFeedback))] |}.

(** *** Submission *)

(** The property [key] that [const { source, message, author, category }
    = body] reads from a body other than [null]: the own property of an
    object, [undefined] ([None]) on a missing key and on a primitive or an
    array. *)
Definition property (body : jsval) (key : string) : option jsval :=
  match body with
  | JObject members => own key members
  | _ => None
  end.

(** [!v] on a value that may be [undefined]. *)
Definition falsy (v : option jsval) : bool :=
  match v with
  | Some x => negb (truthy x)
  | None => true
  end.

(** A field as the text that the bindings take: a non-empty string is
    itself, and a falsy value is no text ([v || null] is [null]). A truthy
    value that is not a string (a number, [true], an array, an object) has
    no text; the bindings below are typed on strings, and a body with such
    a field is outside this embedding. *)
Definition text (v : option jsval) : option (option string) :=
  match v with
  | Some (JString s) => Some (if bool_decide (s = EmptyString) then None else Some s)
  | Some x => if truthy x then None else Some None
  | None => Some None
  end.

(** The five values bound to
    [INSERT INTO feedback (source, message, sentiment, category, author)]. *)
Record insertion : Type := {
  ins_source : string;
  ins_message : string;
  ins_sentiment : string;
  ins_category : option string;
  ins_author : option string
}.

(** The bindings that [handlePostFeedback] uses beside those of
    [Worker.Env]: the chat model; the [run()] of the [INSERT] on a store,
    which gives the store it leaves together with
    [result.meta.last_row_id], the number that the engine reports to
    JavaScript, or throws; and the workflow binding (the id of the instance
    created, or an error). The id that the engine chooses, the place of
    the new row and the value of its [timestamp] are the engine's. *)
Record Services : Type := {
  AI_run_chat : chat;
  DB_insert : D1Database -> insertion -> result (D1Database * Z);
  FEEDBACK_WORKFLOW_create : event -> result string
}.

(** What a request can change: the table behind [env.DB], the content of
    the vector index and the workflow instances created. *)
Record state : Type := {
  bindings : Worker.Env;
  vectors : list vector;
  instances : list event
}.

(** [x || d] on a text that may be absent. *)
Definition or_text (x : option string) (d : string) : string :=
  if falsy_string x then d else default EmptyString x.

(** The bindings once the store has become [db]. *)
Definition with_db (env : Worker.Env) (db : D1Database) : Worker.Env :=
  {| DB := db;
     AI_run_embedding := AI_run_embedding env;
     VECTORIZE_query := VECTORIZE_query env;
     VECTORIZE_insert := VECTORIZE_insert env;
     Worker.now := Worker.now env |}.

(** The first inner [try]: embed the message and insert its vector; an
    error is logged and dropped. *)
Definition store_embedding (env : Worker.Env) (feedbackId : Z)
    (source message sentiment : string) (ix : list vector) : list vector :=
  let attempt : result (list vector) :=
    await embedding := generateEmbedding message env in
    let v := {| vector_id := toString feedbackId;
                vector_values := embedding;
                vector_metadata_of :=
                  {| meta_source := source;
                     meta_sentiment := Some sentiment;
                     meta_timestamp := Worker.now env |} |} in
    await _ := VECTORIZE_insert env ix v in
    Ok (ix ++ [v])%list in
  match attempt with
  | Ok ix' => ix'
  | Throw _ => ix
  end.

(** The second inner [try]: create the workflow instance. *)
Definition trigger_workflow (services : Services) (params : event)
    (created : list event) : list event :=
  match FEEDBACK_WORKFLOW_create services params with
  | Ok _ => (created ++ [params])%list
  | Throw _ => created
  end.

(** [request_json] is the outcome of [await request.json()]. The answer
    and the state left, or [None] for a body outside the embedding: one
    that passes the validation with a field that has no [text]. *)
Definition handlePostFeedback (request_json : result jsval)
    (services : Services) (corsHeaders : list (string * string)) (st : state)
  : option (Response * state) :=
  let failed message :=
    Some (json_response corsHeaders 500
            [("error", FString "Failed to create feedback");
             ("details", FString message)],
          st) in
  match request_json with
  | Throw message => failed message
  | Ok JNull => failed "Cannot destructure property 'source' of 'body' as it is null."
  | Ok body =>
      let source := property body "source" in
      let message := property body "message" in
      let author := property body "author" in
      let category := property body "category" in
      if falsy source || falsy message then
        Some (json_response corsHeaders 400
                [("error", FString "source and message are required")],
              st)
      else
        match text source, text message, text category, text author with
        | Some (Some source), Some (Some message), Some category, Some author =>
            let sentiment := analyzeSentiment (AI_run_chat services) message in
            match DB_insert services (DB (bindings st))
                    {| ins_source := source;
                       ins_message := message;
                       ins_sentiment := sentiment;
                       ins_category := category;
                       ins_author := author |} with
            | Throw message => failed message
            | Ok (db, feedbackId) =>
                let env := with_db (bindings st) db in
                let vectors' := store_embedding env feedbackId source message sentiment
                                  (vectors st) in
                let instances' :=
                  trigger_workflow services
                    {| feedbackId := feedbackId;
                       Workflow.message := message;
                       source := source;
                       author := Some (or_text author "Anonymous");
                       sentiment := sentiment |}
                    (instances st) in
                Some (json_response corsHeaders 201
                        [("success", FBool true);
                         ("id", FNumber feedbackId);
                         ("sentiment", FString sentiment)],
                      {| bindings := env; vectors := vectors'; instances := instances' |})
            end
        | _, _, _, _ => None
        end
  end.

End Intake.

(** ** Notions used in the statements on keywords *)

Import Intake.

(** The words matched in the feedback texts, in order, and those of them
    that are counted. *)
Definition matched (feedbackList : list string) : list string :=
  concat (map (fun feedback => match_words (toLowerCase feedback)) feedbackList).

Definition is_common (word : string) : bool :=
  existsb (fun w => bool_decide (w = word)) commonWords.

Definition counted (feedbackList : list string) : list string :=
  List.filter (fun word => negb (is_common word)) (matched feedbackList).

(** How many times a word is matched in the feedback texts. *)
Definition occurrences (word : string) (feedbackList : list string) : nat :=
  length (List.filter (fun w => bool_decide (w = word)) (matched feedbackList)).

(** The count an object holds for a word. *)
Fixpoint held (word : string) (keywords : list (string * mentions)) : option mentions :=
  match keywords with
  | [] => None
  | (k, c) :: rest => if bool_decide (k = word) then Some c else held word rest
  end.

(** A count that is a number at least [n]. *)
Definition at_least (n : nat) (c : mentions) : Prop :=
  exists m, c = MNumber m /\ n <= m.

(** Feedback texts used in the examples. *)
Definition sample_feedback : list string :=
  ["The app crashes a lot"; "App is slow, crashes daily"; "slow slow app"; "dashboard"].

(** The text that [extractFeatures] hands to [JSON.parse]. *)
Definition cleaned_array (response : option string) : string :=
  trim (replace_fences 0
          match option_map trim response with
          | Some t => if bool_decide (t = EmptyString) then "[]" else t
          | None => "[]"
          end).

(** An element of the model's array that [extractFeatures] keeps: its
    [feature] is a non-empty string. *)
Definition keeps (f : jsval) : bool :=
  match member f "feature" with
  | Ok (Some (JString s)) => negb (bool_decide (s = EmptyString))
  | _ => false
  end.

(** An answer of the model with a usable entry, an entry without name, a
    number and an entry without count. *)
Definition feature_answer : string :=
  "[{" ++ dq ++ "feature" ++ dq ++ ": " ++ dq ++ "Dashboard" ++ dq ++ ", "
       ++ dq ++ "mentions" ++ dq ++ ": 4}, {" ++ dq ++ "mentions" ++ dq ++ ": 3}, 7, {"
       ++ dq ++ "feature" ++ dq ++ ": " ++ dq ++ "Speed" ++ dq ++ "}]".

(** ** Notions used in the statements on the submission *)

(** A text is canonical for a store when it is the decimal writing of the
    key the store converts it to. *)
Definition canonical (db : D1Database) (text : string) : Prop :=
  exists k, text = toString k /\ integer_of_text db text = Some k.

(** The vector [v] was made from the row [r]. *)
Definition vector_of (v : vector) (r : feedback) : Prop :=
  vector_id v = toString (row_id r)
  /\ meta_source (vector_metadata_of v) = row_source r
  /\ meta_sentiment (vector_metadata_of v) = row_sentiment r.

(** An integer that a JavaScript number holds exactly. *)
Definition safe_integer (k : Z) : Prop := (Z.abs k <= 2 ^ 53)%Z.

(** What the answer and the client can see of an outcome: the response
    and the store. *)
Definition visible (outcome : option (Response * state))
  : option (Response * D1Database) :=
  option_map (fun o => (fst o, DB (bindings (snd o)))) outcome.

(** [generateEmbedding] followed by the query of the index, for a row. *)
Definition search (env : Worker.Env) (r : feedback) : result (list vector_match) :=
  await embedding := generateEmbedding (row_message r) env in
  VECTORIZE_query env embedding query6.

(** An engine for the examples: the row is appended under the id that
    follows the largest one in use (1 in an empty table), with a fixed
    timestamp, and that id is reported. *)
Definition sample_insert (db : D1Database) (values : insertion)
  : result (D1Database * Z) :=
  let k := match map row_id (table db) with
           | [] => 1%Z
           | k :: ks => (1 + fold_left Z.max ks k)%Z
           end in
  Ok ({| table := table db ++
                  [{| row_id := k;
                      row_source := ins_source values;
                      row_message := ins_message values;
                      row_timestamp := "2025-01-03 00:00:00";
                      row_sentiment := Some (ins_sentiment values);
                      row_category := ins_category values;
                      row_author := ins_author values;
                      row_metadata := None |}];
         integer_of_text := integer_of_text db |},
      k).

(** Services whose model answers with a padded capitalised label and whose
    workflow binding fails; and services that differ in the workflow
    binding only. *)
Definition sample_services : Services :=
  {| AI_run_chat := fun _ _ => Ok (Some " Negative. ");
     DB_insert := sample_insert;
     FEEDBACK_WORKFLOW_create := fun _ => Throw "workflow binding missing" |}.

Definition working_services : Services :=
  {| AI_run_chat := fun _ _ => Ok (Some " Negative. ");
     DB_insert := sample_insert;
     FEEDBACK_WORKFLOW_create := fun _ => Ok "instance-1" |}.

Definition sample_state : state :=
  {| bindings := Sample.env_with Sample.store ranked;
     vectors := stale_index;
     instances := [] |}.

(** The same store behind an embedding model that fails. *)
Definition deaf_state : state :=
  {| bindings :=
       {| DB := Sample.store;
          AI_run_embedding := fun _ => Throw "model unavailable";
          VECTORIZE_query := fun _ _ => Ok [];
          VECTORIZE_insert := fun _ _ => Ok tt;
          Worker.now := "2025-01-02T00:00:00.000Z" |};
     vectors := [];
     instances := [] |}.

(** A body with an empty category, no author and a field that is not
    read. *)
Definition sample_body : jsval :=
  JObject [("source", JString "Email");
           ("message", JString "Checkout fails");
           ("category", JString EmptyString);
           ("priority", JNumber 1)].

(** The state left by the sample submission, and the row it adds. *)
Definition posted_state : state :=
  default sample_state
    (option_map snd (handlePostFeedback (Ok sample_body) sample_services [] sample_state)).

Definition posted_row : feedback :=
  {| row_id := 6;
     row_source := "Email";
     row_message := "Checkout fails";
     row_timestamp := "2025-01-03 00:00:00";
     row_sentiment := Some "negative";
     row_category := None;
     row_author := None;
     row_metadata := None |}.

(** ** Notions used in the statement on ties *)

(** The words in the order of their first mention, each once. *)
Definition first_mentions (words : list string) : list string :=
  fold_left (fun seen w => if bool_decide (w ∈ seen) then seen else (seen ++ [w])%list)
    words [].

(** The feature's count is the number [n]. *)
Definition mentioned (n : nat) (f : feature) : bool :=
  match feature_mentions f with
  | MNumber m => (m =? n)%nat
  | _ => false
  end.

(** ** The router *)

Module Router.

(** What [fetch] returns: the preflight answer, the answer of one of the
    handlers, or the 404 answer. *)
Inductive route : Type :=
| Preflight
| PostFeedback
| GetFeedback
| FeatureAnalysis
| SimilarFeedback
| BackfillEmbeddings
| Dashboard
| NotFound.

(** The cascade of [if] of [fetch], on [request.method] and
    [url.pathname]. *)
Definition fetch (method pathname : string) : route :=
  if bool_decide (method = "OPTIONS") then Preflight
  else if bool_decide (pathname = "/api/feedback") && bool_decide (method = "POST")
  then PostFeedback
  else if bool_decide (pathname = "/api/feedback") && bool_decide (method = "GET")
  then GetFeedback
  else if bool_decide (pathname = "/api/analyze-features") && bool_decide (method = "GET")
  then FeatureAnalysis
  else if bool_decide (pathname = "/api/similar-feedback") && bool_decide (method = "GET")
  then SimilarFeedback
  else if bool_decide (pathname = "/api/backfill-embeddings")
          && bool_decide (method = "POST")
  then BackfillEmbeddings
  else if bool_decide (pathname = "/") then Dashboard
  else NotFound.

(** The handlers that write to the table or to the vector index. *)
Definition writes (r : route) : bool :=
  match r with
  | PostFeedback | BackfillEmbeddings => true
  | _ => false
  end.

End Router.

Open Scope list_scope.

(** * Checks of the prelude on sample inputs *)

Example trim_both_ends : trim "  urgent
 " = "urgent".
Proof. reflexivity. Qed.

Example fences_removed :
  cleaned (Some fenced_answer)
  = ("{" ++ dq ++ "level" ++ dq ++ ": " ++ dq ++ "CRITICAL" ++ dq ++ ", "
         ++ dq ++ "confidence" ++ dq ++ ": 0.95, "
         ++ dq ++ "reason" ++ dq ++ ": " ++ dq ++ "Payment failure" ++ dq ++ ", "
         ++ dq ++ "category" ++ dq ++ ": " ++ dq ++ "Billing" ++ dq ++ "}")%string.
Proof. reflexivity. Qed.

Example absent_answer_is_empty_object : cleaned None = "{}".
Proof. reflexivity. Qed.

Example parse_fenced_answer :
  Json.parse (cleaned (Some fenced_answer))
  = Ok (JObject [("level", JString "CRITICAL"); ("confidence", JNumber 0.95);
                 ("reason", JString "Payment failure");
                 ("category", JString "Billing")]).
Proof. reflexivity. Qed.

Example parse_prose_fails :
  Json.parse (cleaned (Some prose_answer)) = Throw "Unexpected token in JSON".
Proof. reflexivity. Qed.

Example parse_nested :
  Json.parse "[1, -2.5e1, true, null, {}]"
  = Ok (JArray [JNumber 1; JNumber (-25); JBool true; JNull; JObject []]).
Proof. reflexivity. Qed.

Example padded_text_is_key_5 :
  Sample.decimal_key "05" = Some 5%Z /\ Sample.decimal_key "5" = Some 5%Z
  /\ toString 5 = "5".
Proof. repeat split; reflexivity. Qed.

Example two_batches :
  map item_success
    (settled (backfill_loop (Sample.env_with Sample.long_store [])
                (select_order_by_id Sample.long_store) 0 (start stale_index)))
  = [true; false; true; true; true; false; true].
Proof. reflexivity. Qed.

(** * Properties of the similarity lookup *)

Section SimilarFeedback.

Variable env : Worker.Env.
Variable corsHeaders : list (string * string).

(** The handler answers 200 exactly when the parameter is present, the
    row is found and both the embedding and the query succeed; the body
    is then one of the two above. *)
Lemma similar_answer (url : URL) :
  let response := handleSimilarFeedback url env corsHeaders in
  (exists feedbackId original others emb matches,
      searchParams_get (searchParams url) "id" = Some feedbackId
      /\ feedbackId <> EmptyString
      /\ select_where_id (DB env) feedbackId = original :: others
      /\ generateEmbedding (row_message original) env = Ok emb
      /\ VECTORIZE_query env emb query6 = Ok matches
      /\ status response = 200
      /\ body response =
           match top_matches feedbackId matches with
           | [] => empty_body original
           | _ :: _ => found_body (DB env) feedbackId original matches
           end)
  \/ (status response <> 200
      /\ get "original" (body response) = None
      /\ get "similar" (body response) = None
      /\ get "scores" (body response) = None).
Proof.
  unfold handleSimilarFeedback.
  destruct (searchParams_get (searchParams url) "id") as [feedbackId|] eqn:Hid; simpl;
    [|right; repeat split; discriminate].
  destruct (bool_decide (feedbackId = EmptyString)) eqn:Hempty; simpl;
    [right; repeat split; discriminate|].
  apply bool_decide_eq_false in Hempty.
  destruct (select_where_id (DB env) feedbackId) as [|original others] eqn:Hrow;
    [right; repeat split; discriminate|].
  destruct (generateEmbedding (row_message original) env) as [emb|e] eqn:Hemb; simpl;
    [|right; repeat split; discriminate].
  fold query6.
  destruct (VECTORIZE_query env emb query6) as [matches|e] eqn:Hq; simpl;
    [|right; repeat split; discriminate].
  left. exists feedbackId, original, others, emb, matches.
  rewrite length_map.
  repeat (split; [assumption || reflexivity|]).
  unfold found_body.
  destruct (top_matches feedbackId matches) eqn:Htop; simpl; split; reflexivity.
Qed.

Lemma top_matches_length feedbackId matches :
  length (top_matches feedbackId matches) <= 5.
Proof. unfold top_matches, slice. rewrite length_take. lia. Qed.

Lemma top_matches_sublist feedbackId matches :
  top_matches feedbackId matches `sublist_of` matches.
Proof.
  unfold top_matches, slice. simpl.
  transitivity (List.filter (surfaced feedbackId) matches).
  - apply sublist_take.
  - induction matches as [|m ms IH]; simpl; [constructor|].
    destruct (surfaced feedbackId m); now constructor.
Qed.

Lemma top_matches_surfaced feedbackId matches m :
  m ∈ top_matches feedbackId matches ->
  m ∈ matches /\ match_id m <> feedbackId /\ PrimFloat.leb 0.6 (match_score m) = true.
Proof.
  unfold top_matches, slice. simpl. intros Hin.
  apply (fun H => elem_of_sublist _ _ _ H (sublist_take _ _)) in Hin.
  apply list_elem_of_In, filter_In in Hin. destruct Hin as [Hin Hs].
  apply list_elem_of_In in Hin.
  unfold surfaced in Hs. apply andb_true_iff in Hs. destruct Hs as [Hne Hge].
  apply bool_decide_eq_true in Hne. auto.
Qed.

(** No surfaced match exactly when the filter leaves nothing. *)
Lemma top_matches_nil feedbackId matches :
  top_matches feedbackId matches = [] <->
  List.filter (surfaced feedbackId) matches = [].
Proof.
  unfold top_matches, slice. simpl.
  destruct (List.filter (surfaced feedbackId) matches); simpl; split; congruence.
Qed.

(** The scores carried by an answer are the surfaced matches of the index's
    answer, and the answer is then the non-empty one. *)
Lemma scores_of_answer url scores :
  get "scores" (body (handleSimilarFeedback url env corsHeaders))
    = Some (FScores scores) ->
  exists feedbackId original others emb matches,
    searchParams_get (searchParams url) "id" = Some feedbackId
    /\ select_where_id (DB env) feedbackId = original :: others
    /\ VECTORIZE_query env emb query6 = Ok matches
    /\ scores = map score_of (top_matches feedbackId matches)
    /\ scores <> []
    /\ status (handleSimilarFeedback url env corsHeaders) = 200
    /\ body (handleSimilarFeedback url env corsHeaders)
         = found_body (DB env) feedbackId original matches.
Proof.
  intros Hscores.
  destruct (similar_answer url)
    as [(feedbackId & original & others & emb & matches & Hid & _ & Hrow & _ & Hq & Hst & Hbody)
       |(_ & _ & _ & Hnone)]; [|congruence].
  exists feedbackId, original, others, emb, matches.
  rewrite Hbody in Hscores |- *.
  destruct (top_matches feedbackId matches) eqn:Htop; [discriminate|].
  unfold found_body in Hscores. rewrite Htop in Hscores. simpl in Hscores.
  injection Hscores as <-. repeat split; try assumption; congruence.
Qed.

End SimilarFeedback.

(** A hydrated row is a row of the table whose key is the conversion of one
    of the bound texts. *)
Lemma hydrated_row db texts r :
  r ∈ select_where_id_in db texts <->
  r ∈ table db /\ exists text, text ∈ texts /\ integer_of_text db text = Some (row_id r).
Proof.
  unfold select_where_id_in.
  rewrite list_elem_of_In, filter_In, <- list_elem_of_In, existsb_exists.
  split; intros [Hr (text & Ht & Hk)]; split; try assumption; exists text.
  - apply list_elem_of_In in Ht. apply bool_decide_eq_true in Hk. auto.
  - apply list_elem_of_In in Ht. split; [assumption|].
    now apply bool_decide_eq_true.
Qed.

Lemma selected_row db text r :
  r ∈ select_where_id db text <->
  r ∈ table db /\ integer_of_text db text = Some (row_id r).
Proof.
  unfold select_where_id, id_equals.
  rewrite list_elem_of_In, filter_In, <- list_elem_of_In, bool_decide_eq_true.
  reflexivity.
Qed.

(** C2. Every entry of the [scores] list of an answer of
    [GET /api/similar-feedback] has a score of at least 0.6, whatever
    matches the vector index returned; and every row of [similar] was
    selected by the id of one of these entries, so that a match below the
    threshold surfaces in neither list. *)
Theorem scores_reach_threshold url env corsHeaders scores :
  let response := handleSimilarFeedback url env corsHeaders in
  get "scores" (body response) = Some (FScores scores) ->
  Forall (fun s => PrimFloat.leb 0.6 (entry_score s) = true) scores
  /\ forall similar, get "similar" (body response) = Some (FRows similar) ->
       forall r, r ∈ similar ->
         exists s, s ∈ scores
                   /\ PrimFloat.leb 0.6 (entry_score s) = true
                   /\ integer_of_text (DB env) (entry_id s) = Some (row_id r).
Proof.
  intros response Hscores. subst response.
  destruct (scores_of_answer _ _ _ _ Hscores)
    as (feedbackId & original & _ & _ & matches & _ & _ & _ & -> & _ & _ & Hbody).
  assert (forall s, s ∈ map score_of (top_matches feedbackId matches) ->
                    PrimFloat.leb 0.6 (entry_score s) = true) as Hge.
  { intros s Hs. apply list_elem_of_fmap in Hs. destruct Hs as (m & -> & Hm).
    now apply top_matches_surfaced in Hm. }
  split; [now apply Forall_forall|].
  rewrite Hbody. simpl. intros similar [= <-] r Hr.
  apply hydrated_row in Hr. destruct Hr as [_ (text & Ht & Hk)].
  apply list_elem_of_fmap in Ht. destruct Ht as (m & -> & Hm).
  assert (score_of m ∈ map score_of (top_matches feedbackId matches)) as Hs
    by (apply list_elem_of_fmap; eauto).
  exists (score_of m). auto.
Qed.

Lemma scores_reach_threshold_witness :
  get "scores" (body (handleSimilarFeedback (request "1")
                        (Sample.env_with Sample.store ranked) []))
    = Some (FScores [Sample.entry "3" 0.9%float; Sample.entry "2" 0.8%float;
                     Sample.entry "9" 0.7%float])
  /\ Forall (fun s => PrimFloat.leb 0.6 (entry_score s) = true)
       [Sample.entry "3" 0.9%float; Sample.entry "2" 0.8%float;
        Sample.entry "9" 0.7%float].
Proof.
  split; [reflexivity|].
  exact (proj1 (scores_reach_threshold (request "1")
                  (Sample.env_with Sample.store ranked) [] _ eq_refl)).
Defined.

(** ** Self-exclusion *)

(** Whatever the index answers, no entry of [scores] carries the text of the
    request's [id] parameter, and every row of [similar] was selected by a
    surfaced match whose id differs from that text. *)
Lemma requested_text_excluded url env corsHeaders feedbackId :
  searchParams_get (searchParams url) "id" = Some feedbackId ->
  let response := handleSimilarFeedback url env corsHeaders in
  (forall scores, get "scores" (body response) = Some (FScores scores) ->
     forall s, s ∈ scores -> entry_id s <> feedbackId)
  /\ (forall similar, get "similar" (body response) = Some (FRows similar) ->
        forall r, r ∈ similar ->
          exists text, text <> feedbackId
                       /\ integer_of_text (DB env) text = Some (row_id r)).
Proof.
  intros Hid response. subst response.
  destruct (similar_answer env corsHeaders url)
    as [(fid & original & others & emb & matches & Hid' & _ & Hrow & _ & Hq & _ & Hbody)
       |(_ & _ & Hsim & Hsc)].
  2:{ split; intros ? H; congruence. }
  assert (fid = feedbackId) as -> by congruence.
  rewrite Hbody. split.
  - intros scores Hs s Hin.
    destruct (top_matches feedbackId matches) eqn:Htop; [discriminate|].
    unfold found_body in Hs. simpl in Hs. injection Hs as <-.
    rewrite Htop in Hin. rewrite <- Htop in Hin.
    apply list_elem_of_fmap in Hin. destruct Hin as (m & -> & Hm).
    now apply top_matches_surfaced in Hm.
  - intros similar Hs r Hr.
    destruct (top_matches feedbackId matches) eqn:Htop.
    + simpl in Hs. injection Hs as <-. inversion Hr.
    + unfold found_body in Hs. simpl in Hs. injection Hs as <-.
      apply hydrated_row in Hr. destruct Hr as [_ (text & Ht & Hk)].
      apply list_elem_of_fmap in Ht. destruct Ht as (m & -> & Hm).
      rewrite Htop in Hm. rewrite <- Htop in Hm.
      apply top_matches_surfaced in Hm. exists (match_id m). tauto.
Qed.

(** When the texts at hand are told apart by the engine (two of them that
    convert to the same key are equal), the original row is not among the
    similar ones. *)
Lemma original_absent_when_texts_faithful url env corsHeaders
    feedbackId original similar :
  searchParams_get (searchParams url) "id" = Some feedbackId ->
  (forall text, integer_of_text (DB env) text = integer_of_text (DB env) feedbackId ->
                text = feedbackId) ->
  let response := handleSimilarFeedback url env corsHeaders in
  get "original" (body response) = Some (FRow original) ->
  get "similar" (body response) = Some (FRows similar) ->
  forall r, r ∈ similar -> row_id r <> row_id original.
Proof.
  intros Hid Hinj response Ho Hs r Hr Heq.
  destruct (requested_text_excluded url env corsHeaders feedbackId Hid)
    as [_ Hsim].
  destruct (Hsim similar Hs r Hr) as (text & Hne & Hk).
  apply Hne, Hinj. rewrite Hk, Heq. subst response.
  destruct (similar_answer env corsHeaders url)
    as [(fid & orig & others & emb & matches & Hid' & _ & Hrow & _ & _ & _ & Hbody)
       |(_ & Hnone & _ & _)]; [|congruence].
  assert (fid = feedbackId) as -> by congruence.
  assert (orig = original) as ->.
  { rewrite Hbody in Ho. destruct (top_matches feedbackId matches); simpl in Ho; congruence. }
  assert (original ∈ select_where_id (DB env) feedbackId) as Hin
    by (rewrite Hrow; left).
  apply selected_row in Hin. symmetry. tauto.
Qed.

(** C1. The request [?id=05] names row 5 of the store, the index returns
    the vector of that row under its id [5], and the answer lists row 5
    among the similar rows and its id among the scores: the comparison with
    the raw text of the parameter lets the original through. *)
Theorem padded_id_returns_original :
  let response :=
    handleSimilarFeedback (request "05")
      (Sample.env_with Sample.store [Sample.hit "5" 1%float; Sample.hit "2" 0.8%float]) [] in
  status response = 200
  /\ get "original" (body response) = Some (FRow (Sample.row 5 "Love the new dashboard"))
  /\ get "similar" (body response)
       = Some (FRows [Sample.row 2 "App freezes on startup";
                      Sample.row 5 "Love the new dashboard"])
  /\ get "scores" (body response)
       = Some (FScores [Sample.entry "5" 1%float; Sample.entry "2" 0.8%float]).
Proof. repeat split; reflexivity. Qed.

(** ** Sizes of the two lists *)

Lemma filter_sublist {A} (f : A -> bool) (l : list A) :
  List.filter f l `sublist_of` l.
Proof.
  induction l as [|x l IH]; simpl; [constructor|].
  destruct (f x); now constructor.
Qed.

(** With unique keys in the table, an [IN] query returns at most one row
    per bound text. *)
Lemma hydrated_length db texts :
  NoDup (map row_id (table db)) ->
  length (select_where_id_in db texts) <= length texts.
Proof.
  intros Hkeys.
  assert (NoDup (map row_id (select_where_id_in db texts))) as Hnd.
  { eapply sublist_NoDup; [exact Hkeys|].
    apply (fmap_sublist row_id), filter_sublist. }
  assert (map row_id (select_where_id_in db texts)
            ⊆+ omap (integer_of_text db) texts) as Hsub.
  { apply NoDup_submseteq; [exact Hnd|].
    intros k Hk. apply list_elem_of_fmap in Hk. destruct Hk as (r & -> & Hr).
    apply hydrated_row in Hr. destruct Hr as [_ (text & Ht & Hc)].
    apply list_elem_of_omap. eauto. }
  apply submseteq_length in Hsub.
  rewrite length_map in Hsub.
  etransitivity; [exact Hsub|].
  clear. induction texts as [|t ts IH]; [reflexivity|].
  cbn. destruct (integer_of_text db t); cbn; lia.
Qed.

(** When, moreover, the bound texts convert to pairwise distinct keys that
    all belong to rows of the table, there is exactly one row per text. *)
Lemma hydrated_length_exact db texts :
  NoDup (map row_id (table db)) ->
  NoDup (map (integer_of_text db) texts) ->
  (forall text, text ∈ texts ->
     exists r, r ∈ table db /\ integer_of_text db text = Some (row_id r)) ->
  length (select_where_id_in db texts) = length texts.
Proof.
  intros Hkeys Hdistinct Hrows.
  apply Nat.le_antisymm; [now apply hydrated_length|].
  assert (map (integer_of_text db) texts
            ⊆+ map (fun r => Some (row_id r)) (select_where_id_in db texts)) as Hsub.
  { apply NoDup_submseteq; [exact Hdistinct|].
    intros k Hk. apply list_elem_of_fmap in Hk. destruct Hk as (text & -> & Ht).
    destruct (Hrows text Ht) as (r & Hr & Hc).
    apply list_elem_of_fmap. exists r. split; [assumption|].
    apply hydrated_row. eauto. }
  apply submseteq_length in Hsub. now rewrite !length_map in Hsub.
Qed.

(** A bound text that converts to the key of no row selects nothing: the
    query returns fewer rows than there are texts. *)
Lemma hydrated_length_strict db texts text :
  NoDup (map row_id (table db)) ->
  text ∈ texts ->
  (forall r, r ∈ table db -> integer_of_text db text <> Some (row_id r)) ->
  length (select_where_id_in db texts) < length texts.
Proof.
  intros Hkeys Hin Hnone.
  apply list_elem_of_split in Hin. destruct Hin as (l1 & l2 & ->).
  assert (select_where_id_in db (l1 ++ text :: l2) = select_where_id_in db (l1 ++ l2))
    as ->.
  { unfold select_where_id_in. apply filter_ext_in. intros r Hr.
    apply list_elem_of_In in Hr.
    rewrite !existsb_app. cbn [existsb]. unfold id_equals at 2.
    rewrite bool_decide_eq_false_2 by now apply Hnone. reflexivity. }
  pose proof (hydrated_length db (l1 ++ l2) Hkeys) as Hle.
  rewrite !length_app in *. simpl. lia.
Qed.

(** C3, as amended. With unique keys in the table, every answer has at
    most 5 similar rows; when it carries scores, there are at most as many
    rows as scores and at most 5 scores; exactly as many rows as scores
    once every score's id converts to the key of a stored row and no two of
    them convert to the same key; and fewer rows than scores once the id of
    some score converts to the key of no stored row. *)
Theorem similar_within_scores url env corsHeaders similar :
  NoDup (map row_id (table (DB env))) ->
  let response := handleSimilarFeedback url env corsHeaders in
  get "similar" (body response) = Some (FRows similar) ->
  length similar <= 5
  /\ forall scores, get "scores" (body response) = Some (FScores scores) ->
       length similar <= length scores <= 5
       /\ (NoDup (map (fun s => integer_of_text (DB env) (entry_id s)) scores) ->
           (forall s, s ∈ scores ->
              exists r, r ∈ table (DB env)
                        /\ integer_of_text (DB env) (entry_id s) = Some (row_id r)) ->
           length similar = length scores)
       /\ ((exists s, s ∈ scores
                      /\ forall r, r ∈ table (DB env) ->
                           integer_of_text (DB env) (entry_id s) <> Some (row_id r)) ->
           length similar < length scores).
Proof.
  intros Hkeys response Hsim. subst response.
  destruct (similar_answer env corsHeaders url)
    as [(fid & original & others & emb & matches & _ & _ & _ & _ & _ & _ & Hbody)
       |(_ & _ & Hnone & _)]; [|congruence].
  rewrite Hbody in Hsim |- *.
  destruct (top_matches fid matches) as [|m0 ms] eqn:Htop.
  - simpl in Hsim. injection Hsim as <-. simpl. split; [lia|]. discriminate.
  - unfold found_body in Hsim |- *. simpl in Hsim. injection Hsim as <-.
    rewrite Htop. rewrite <- Htop.
    pose proof (hydrated_length (DB env) (map match_id (top_matches fid matches)) Hkeys) as Hle.
    rewrite length_map in Hle.
    pose proof (top_matches_length fid matches) as H5.
    split; [lia|]. simpl. intros scores [= <-]. rewrite length_map. split; [lia|].
    split.
    + intros Hdistinct Hrows. rewrite map_map in Hdistinct.
      rewrite hydrated_length_exact, length_map; try assumption; [reflexivity| |].
      * now rewrite map_map.
      * intros text Ht. apply list_elem_of_fmap in Ht. destruct Ht as (m & -> & Hm).
        apply (Hrows (score_of m)), list_elem_of_fmap. eauto.
    + intros (s & Hs & Hnone).
      apply list_elem_of_fmap in Hs. destruct Hs as (m & -> & Hm).
      rewrite <- (length_map match_id (top_matches fid matches)).
      apply (hydrated_length_strict (DB env) _ (match_id m)); [assumption| |exact Hnone].
      apply list_elem_of_fmap. eauto.
Qed.

Lemma similar_within_scores_witness :
  NoDup (map row_id (table Sample.store))
  /\ get "similar" (body (handleSimilarFeedback (request "1")
                            (Sample.env_with Sample.store ranked) []))
       = Some (FRows [Sample.row 2 "App freezes on startup"; Sample.row 3 "Crash when saving"])
  /\ 2 <= 5
  /\ 2 < 3.
Proof.
  assert (NoDup (map row_id (table Sample.store))) as Hkeys.
  { simpl. repeat constructor; rewrite ?list_elem_of_In; simpl; intuition discriminate. }
  destruct (similar_within_scores (request "1")
              (Sample.env_with Sample.store ranked) [] _ Hkeys eq_refl)
    as [Hfive Hscores].
  split; [exact Hkeys|]. split; [reflexivity|]. split; [exact Hfive|].
  destruct (Hscores [Sample.entry "3" 0.9%float; Sample.entry "2" 0.8%float;
                     Sample.entry "9" 0.7%float] eq_refl) as (_ & _ & Hstrict).
  apply Hstrict. exists (Sample.entry "9" 0.7%float). split.
  - right. right. left.
  - intros r Hr. apply list_elem_of_In in Hr. simpl in Hr.
    destruct Hr as [<-|[<-|[<-|[<-|[]]]]]; discriminate.
Defined.

(** The index returns the id [9], for which the store has no row: the
    answer carries three scores and two similar rows. *)
Lemma scores_longer_than_similar :
  ~ (forall url env corsHeaders similar scores,
       let response := handleSimilarFeedback url env corsHeaders in
       status response = 200 ->
       get "similar" (body response) = Some (FRows similar) ->
       get "scores" (body response) = Some (FScores scores) ->
       length similar <= 5 /\ length scores = length similar).
Proof.
  intros H.
  specialize (H (request "1") (Sample.env_with Sample.store ranked) []
                _ _ eq_refl eq_refl eq_refl).
  destruct H as [_ H]. discriminate H.
Qed.

(** ** The answer without surfaced matches *)

(** C4, as amended. When the lookup succeeds and no match of the index
    passes the filter, the answer is a 200 whose body is
    [{original, similar: [], message}]: it has an empty [similar] list, a
    [message] and no [scores] key. *)
Theorem no_match_answer url env corsHeaders feedbackId original others
    emb matches :
  searchParams_get (searchParams url) "id" = Some feedbackId ->
  feedbackId <> EmptyString ->
  select_where_id (DB env) feedbackId = original :: others ->
  generateEmbedding (row_message original) env = Ok emb ->
  VECTORIZE_query env emb query6 = Ok matches ->
  List.filter (surfaced feedbackId) matches = [] ->
  let response := handleSimilarFeedback url env corsHeaders in
  status response = 200
  /\ body response = empty_body original
  /\ keys (body response) = ["original"; "similar"; "message"]
  /\ get "similar" (body response) = Some (FRows [])
  /\ get "scores" (body response) = None.
Proof.
  intros Hid Hne Hrow Hemb Hq Hnone response. subst response.
  destruct (similar_answer env corsHeaders url)
    as [(fid & orig & others' & emb' & matches' & Hid' & _ & Hrow' & Hemb' & Hq' & Hst & Hbody)
       |(Hst & _)].
  - assert (fid = feedbackId) as -> by congruence.
    assert (orig = original) as -> by congruence.
    assert (emb' = emb) as -> by congruence.
    assert (matches' = matches) as -> by congruence.
    apply top_matches_nil in Hnone. rewrite Hnone in Hbody.
    rewrite Hbody. repeat split; assumption || reflexivity.
  - exfalso. apply Hst. unfold handleSimilarFeedback.
    rewrite Hid. simpl. rewrite bool_decide_eq_false_2 by assumption.
    rewrite Hrow, Hemb. simpl. fold query6. rewrite Hq. simpl.
    destruct (length _ =? 0)%nat; reflexivity.
Qed.

Lemma no_match_answer_witness :
  let matches := [Sample.hit "1" 1%float; Sample.hit "5" 0.3%float] in
  get "scores"
    (body (handleSimilarFeedback (request "1") (Sample.env_with Sample.store matches) []))
  = None.
Proof.
  intros matches.
  refine (proj2 (proj2 (proj2 (proj2
    (no_match_answer (request "1") (Sample.env_with Sample.store matches) []
       "1" (Sample.row 1 "The app keeps crashing") [] (Some [0.25%float; 0.5%float]) matches
       eq_refl _ eq_refl eq_refl eq_refl eq_refl))))).
  discriminate.
Defined.

(** Only the original itself and a match below the threshold come back:
    nothing is surfaced, and the 200 answer has no [scores] key. *)
Lemma empty_answer_lacks_scores :
  let matches := [Sample.hit "1" 1%float; Sample.hit "5" 0.3%float] in
  let response :=
    handleSimilarFeedback (request "1") (Sample.env_with Sample.store matches) [] in
  List.filter (surfaced "1") matches = []
  /\ status response = 200
  /\ keys (body response) = ["original"; "similar"; "message"]
  /\ get "scores" (body response) = None.
Proof. repeat split; reflexivity. Qed.

(** ** Order of the two lists *)

Lemma sublist_strongly_sorted {A} (R : A -> A -> Prop) (l k : list A) :
  l `sublist_of` k -> StronglySorted R k -> StronglySorted R l.
Proof.
  induction 1 as [|x l k Hsub IH|x l k Hsub IH]; intros Hk.
  - constructor.
  - apply StronglySorted_inv in Hk. destruct Hk as [Hk Hx].
    constructor; [auto|].
    rewrite Forall_forall in Hx |- *. intros y Hy.
    apply Hx. eapply elem_of_sublist; eassumption.
  - apply StronglySorted_inv in Hk. tauto.
Qed.

(** C10. The [scores] of an answer are a sublist, in order, of the matches
    returned by the index, hence non-increasing when those are; the
    [similar] rows are the rows of the table, in the order of the table,
    whose key is the conversion of one of the scores' ids. For some store
    and index the first row of [similar] is not the row of the first
    score. *)
Theorem scores_keep_rank_rows_keep_table_order :
  (forall url env corsHeaders scores,
      let response := handleSimilarFeedback url env corsHeaders in
      get "scores" (body response) = Some (FScores scores) ->
      exists emb matches similar,
        VECTORIZE_query env emb query6 = Ok matches
        /\ scores `sublist_of` map score_of matches
        /\ (non_increasing (map match_score matches) ->
            non_increasing (map entry_score scores))
        /\ get "similar" (body response) = Some (FRows similar)
        /\ similar `sublist_of` table (DB env)
        /\ forall r, r ∈ similar <->
             r ∈ table (DB env)
             /\ exists s, s ∈ scores
                          /\ integer_of_text (DB env) (entry_id s) = Some (row_id r))
  /\ (exists url env corsHeaders scores similar s r,
        let response := handleSimilarFeedback url env corsHeaders in
        get "scores" (body response) = Some (FScores scores)
        /\ get "similar" (body response) = Some (FRows similar)
        /\ scores !! 0 = Some s
        /\ similar !! 0 = Some r
        /\ entry_id s <> toString (row_id r)
        /\ integer_of_text (DB env) (entry_id s) <> Some (row_id r)).
Proof.
  split.
  - intros url env corsHeaders scores response Hscores. subst response.
    destruct (scores_of_answer _ _ _ _ Hscores)
      as (fid & original & others & emb & matches & _ & _ & Hq & -> & _ & _ & Hbody).
    exists emb, matches,
      (select_where_id_in (DB env) (map match_id (top_matches fid matches))).
    rewrite Hbody.
    split; [assumption|].
    split; [apply (fmap_sublist score_of), top_matches_sublist|].
    split.
    { rewrite map_map. apply sublist_strongly_sorted.
      apply (fmap_sublist match_score), top_matches_sublist. }
    split; [reflexivity|].
    split; [apply filter_sublist|].
    intros r. rewrite hydrated_row. split; intros [Hr Hex]; (split; [assumption|]).
    + destruct Hex as (text & Ht & Hk).
      apply list_elem_of_fmap in Ht. destruct Ht as (m & -> & Hm).
      exists (score_of m). split; [|assumption]. apply list_elem_of_fmap. eauto.
    + destruct Hex as (s & Hs & Hk).
      apply list_elem_of_fmap in Hs. destruct Hs as (m & -> & Hm).
      exists (match_id m). split; [|assumption]. apply list_elem_of_fmap. eauto.
  - exists (request "1"), (Sample.env_with Sample.store ranked), [],
      [Sample.entry "3" 0.9%float; Sample.entry "2" 0.8%float; Sample.entry "9" 0.7%float],
      [Sample.row 2 "App freezes on startup"; Sample.row 3 "Crash when saving"],
      (Sample.entry "3" 0.9%float), (Sample.row 2 "App freezes on startup").
    repeat split; try reflexivity; discriminate.
Qed.

Lemma scores_keep_rank_rows_keep_table_order_witness :
  exists emb matches similar,
    VECTORIZE_query (Sample.env_with Sample.store ranked) emb query6 = Ok matches
    /\ [Sample.entry "3" 0.9%float; Sample.entry "2" 0.8%float;
        Sample.entry "9" 0.7%float] `sublist_of` map score_of matches
    /\ (non_increasing (map match_score matches) ->
        non_increasing [0.9%float; 0.8%float; 0.7%float])
    /\ get "similar" (body (handleSimilarFeedback (request "1")
                              (Sample.env_with Sample.store ranked) []))
         = Some (FRows similar)
    /\ similar `sublist_of` table Sample.store
    /\ forall r, r ∈ similar <->
         r ∈ table Sample.store
         /\ exists s, s ∈ [Sample.entry "3" 0.9%float; Sample.entry "2" 0.8%float;
                           Sample.entry "9" 0.7%float]
                      /\ Sample.decimal_key (entry_id s) = Some (row_id r).
Proof.
  exact (proj1 scores_keep_rank_rows_keep_table_order (request "1")
           (Sample.env_with Sample.store ranked) [] _ eq_refl).
Defined.

(** * Properties of the backfill *)

Section Backfill.

Variable env : Worker.Env.

(** The loop entered at [i] runs the callback on the rows from position [i]
    on, in order: batching does not change what is run. *)
Lemma backfill_loop_fold allFeedback i st :
  backfill_loop env allFeedback i st
  = fold_left (backfill_item env) (drop i allFeedback) st.
Proof.
  funelim (backfill_loop env allFeedback i st).
  - rewrite H. unfold backfill_batch, slice, batchSize.
    rewrite <- fold_left_app. f_equal.
    replace (i + 5 - i) with 5 by lia.
    rewrite <- (drop_drop allFeedback 5 i).
    apply take_drop.
  - rewrite drop_ge by lia. reflexivity.
Qed.



End Backfill.

Lemma select_order_by_id_length db :
  length (select_order_by_id db) = length (table db).
Proof.
  unfold select_order_by_id.
  apply Permutation_length, merge_sort_Permutation.
Qed.



(** C6, as amended. On an empty store the backfill answers 200 with the
    body [{success: true, message: "No feedback to backfill",
    processed: 0}]: it has no [errors] and no [total] key, and the index is
    left as it was. *)
Theorem backfill_of_empty_store env ix corsHeaders :
  table (DB env) = [] ->
  handleBackfillEmbeddings env ix corsHeaders
  = (json_response corsHeaders 200
       [("success", FBool true);
        ("message", FString "No feedback to backfill");
        ("processed", FNumber 0)],
     ix).
Proof.
  intros Hempty. unfold handleBackfillEmbeddings.
  pose proof (select_order_by_id_length (DB env)) as Hlen.
  rewrite Hempty in Hlen. simpl in Hlen. rewrite Hlen. reflexivity.
Qed.

Lemma backfill_of_empty_store_witness :
  get "processed"
    (body (fst (handleBackfillEmbeddings (Sample.env_with empty_store []) [] [])))
  = Some (FNumber 0).
Proof.
  rewrite (backfill_of_empty_store (Sample.env_with empty_store []) [] [] eq_refl).
  reflexivity.
Defined.

(** On an empty store the answer has neither an [errors] nor a [total]
    key. *)
Lemma empty_backfill_lacks_counters :
  let response := fst (handleBackfillEmbeddings (Sample.env_with empty_store []) [] []) in
  table empty_store = []
  /\ status response = 200
  /\ get "processed" (body response) = Some (FNumber 0)
  /\ get "errors" (body response) = None
  /\ get "total" (body response) = None.
Proof. repeat split; reflexivity. Qed.

(** * Properties of the urgency classifier *)

Section Urgency.

Variable JSON_parse : string -> result jsval.
Variable payload : Type.
Variable env : Workflow.Env payload.
Variables message sentiment : string.

Let model : string := "@cf/meta/llama-3-8b-instruct".

(** The [try] block throws exactly when the call to the model throws, the
    cleaned answer does not parse, or it parses to [null]. *)
Lemma classify_throws :
  (exists e, classify JSON_parse env message sentiment = Throw e) <->
  (exists e, AI_run env model (urgency_messages message sentiment) = Throw e)
  \/ (exists response,
        AI_run env model (urgency_messages message sentiment) = Ok response
        /\ ((exists e, JSON_parse (cleaned response) = Throw e)
            \/ JSON_parse (cleaned response) = Ok JNull)).
Proof.
  unfold classify, model.
  destruct (AI_run env "@cf/meta/llama-3-8b-instruct"
              (urgency_messages message sentiment)) as [response|e]; simpl.
  2:{ split; [intros _; left; eauto | intros _; eauto]. }
  destruct (JSON_parse (cleaned response)) as [analysis|e] eqn:Hparse; simpl.
  2:{ split; [intros _; right; exists response; eauto | intros _; eauto]. }
  split.
  - intros [e He]. right. exists response. split; [reflexivity|]. right.
    destruct analysis; simpl in He; try discriminate He. assumption.
  - intros [[e He]|(r & Hr & [[e He]|He])]; try discriminate;
      injection Hr as <-; rewrite Hparse in He; try discriminate He.
    injection He as ->. simpl. eauto.
Qed.

(** When the [try] block completes, each field is the one of the parsed
    answer if that is truthy and the default otherwise. *)
Lemma classify_completes a :
  classify JSON_parse env message sentiment = Ok a ->
  exists response analysis lv cf rs ct,
    AI_run env model (urgency_messages message sentiment) = Ok response
    /\ JSON_parse (cleaned response) = Ok analysis
    /\ member analysis "level" = Ok lv
    /\ member analysis "confidence" = Ok cf
    /\ member analysis "reason" = Ok rs
    /\ member analysis "category" = Ok ct
    /\ a = {| level := or_else lv (JString "NORMAL");
              confidence := or_else cf (JNumber 0.5);
              reason := or_else rs (JString "No specific reason provided");
              category := or_else ct (JString "General") |}.
Proof.
  unfold classify, model.
  destruct (AI_run env "@cf/meta/llama-3-8b-instruct"
              (urgency_messages message sentiment)) as [response|e] eqn:Hai;
    simpl; [|discriminate].
  destruct (JSON_parse (cleaned response)) as [analysis|e] eqn:Hparse;
    simpl; [|discriminate].
  destruct (member analysis "level") as [lv|] eqn:Hl; simpl; [|discriminate].
  destruct (member analysis "confidence") as [cf|] eqn:Hc; simpl; [|discriminate].
  destruct (member analysis "reason") as [rs|] eqn:Hr; simpl; [|discriminate].
  destruct (member analysis "category") as [ct|] eqn:Hg; simpl; [|discriminate].
  intros [= <-]. exists response, analysis, lv, cf, rs, ct.
  repeat split; assumption || reflexivity.
Qed.

End Urgency.

(** C7. When the classification throws (the call to the model fails, the
    cleaned answer is not valid JSON, or it is [null]), [analyzeUrgency]
    returns the fallback: level [HIGH] for the sentiment [negative] and
    [NORMAL] for any other, confidence 0.5; and the first step of the
    workflow then still resolves. *)
Theorem urgency_falls_back JSON_parse payload (env : Workflow.Env payload)
    message sentiment :
  (exists e, AI_run env "@cf/meta/llama-3-8b-instruct"
               (urgency_messages message sentiment) = Throw e)
  \/ (exists response,
        AI_run env "@cf/meta/llama-3-8b-instruct"
          (urgency_messages message sentiment) = Ok response
        /\ ((exists e, JSON_parse (cleaned response) = Throw e)
            \/ JSON_parse (cleaned response) = Ok JNull)) ->
  let a := analyzeUrgency JSON_parse env message sentiment in
  (sentiment = "negative" -> level a = JString "HIGH")
  /\ (sentiment <> "negative" -> level a = JString "NORMAL")
  /\ confidence a = JNumber 0.5
  /\ reason a = JString "Fallback classification based on sentiment"
  /\ category a = JString "General"
  /\ forall st, fst (step_do "analyze-urgency" (fun _ => Ok (UrgencyOutput a)) st)
                = Ok (default (UrgencyOutput a) (saved st !! "analyze-urgency")).
Proof.
  intros Hthrows a.
  apply classify_throws in Hthrows. destruct Hthrows as [e He].
  subst a. unfold analyzeUrgency. rewrite He. unfold fallback. simpl.
  split; [intros ->; reflexivity|].
  split; [intros Hne; now rewrite bool_decide_eq_false_2|].
  repeat (split; [reflexivity|]).
  intros st. unfold step_do.
  destruct (saved st !! "analyze-urgency"); reflexivity.
Qed.

Lemma urgency_falls_back_witness :
  level (analyzeUrgency Json.parse (chat_env (Ok (Some prose_answer)) None)
           "Checkout charges my card twice" "negative")
  = JString "HIGH".
Proof.
  refine (proj1 (urgency_falls_back Json.parse unit
                   (chat_env (Ok (Some prose_answer)) None)
                   "Checkout charges my card twice" "negative" _) eq_refl).
  right. exists (Some prose_answer). split; [reflexivity|].
  left. eexists. vm_compute. reflexivity.
Defined.

(** C8, as amended. The assessment has its level in the closed set and
    its confidence in [[0, 1]] provided that, when the answer of the model
    parses, its [level], if truthy, is in the set and its [confidence], if
    truthy, is in the range. *)
Theorem urgency_well_formed JSON_parse payload (env : Workflow.Env payload)
    message sentiment :
  (forall response analysis,
      AI_run env "@cf/meta/llama-3-8b-instruct"
        (urgency_messages message sentiment) = Ok response ->
      JSON_parse (cleaned response) = Ok analysis ->
      (forall v, member analysis "level" = Ok (Some v) -> truthy v = true ->
                 level_in_set v)
      /\ (forall v, member analysis "confidence" = Ok (Some v) -> truthy v = true ->
                    in_unit_interval v)) ->
  well_formed (analyzeUrgency JSON_parse env message sentiment).
Proof.
  intros Hanswer. unfold analyzeUrgency.
  assert (in_unit_interval (JNumber 0.5)) as Hhalf
    by (exists 0.5%float; repeat split; reflexivity).
  destruct (classify JSON_parse env message sentiment) as [a|e] eqn:Hc.
  - apply classify_completes in Hc.
    destruct Hc as (response & analysis & lv & cf & rs & ct & Hai & Hp & Hl & Hcf & _ & _ & ->).
    destruct (Hanswer response analysis Hai Hp) as [Hlevel Hconf].
    split; simpl.
    + destruct lv as [v|]; simpl; [|right; right; reflexivity].
      destruct (truthy v) eqn:Ht; [auto | right; right; reflexivity].
    + destruct cf as [v|]; simpl; [|assumption].
      destruct (truthy v) eqn:Ht; [auto | assumption].
  - split; simpl; [|assumption].
    destruct (bool_decide (sentiment = "negative")); [right; left | right; right];
      reflexivity.
Qed.

Lemma urgency_well_formed_witness :
  well_formed (analyzeUrgency Json.parse (chat_env (Ok (Some fenced_answer)) None)
                 "Checkout charges my card twice" "negative").
Proof.
  apply (urgency_well_formed Json.parse unit (chat_env (Ok (Some fenced_answer)) None)).
  intros response analysis Hai Hparse.
  injection Hai as <-. vm_compute in Hparse. injection Hparse as <-.
  split; intros v Hv _; vm_compute in Hv; injection Hv as <-.
  - left. reflexivity.
  - eexists. repeat split; reflexivity.
Defined.

(** The model answers a well-formed object whose level is [URGENT] and whose
    confidence is 7: both are passed on. *)
Lemma unchecked_answer_passes_through :
  let a := analyzeUrgency Json.parse (chat_env (Ok (Some unchecked_answer)) None)
             "Checkout charges my card twice" "negative" in
  Json.parse (cleaned (Some unchecked_answer))
    = Ok (JObject [("level", JString "URGENT"); ("confidence", JNumber 7)])
  /\ level a = JString "URGENT"
  /\ confidence a = JNumber 7
  /\ ~ level_in_set (level a)
  /\ ~ in_unit_interval (confidence a).
Proof.
  repeat split; try (vm_compute; reflexivity).
  - vm_compute. intros [H|[H|H]]; discriminate H.
  - vm_compute. intros (x & Hx & _ & Hle). injection Hx as <-. discriminate Hle.
Qed.

(** * Properties of the workflow *)

Lemma is_string_spec v s :
  is_string v s = true <-> v = Some (JString s).
Proof.
  unfold is_string. destruct v as [[| | |t| |]|]; try (split; congruence).
  rewrite bool_decide_eq_true. split; congruence.
Qed.

Lemma urgent_spec o :
  is_string (level_of o) "CRITICAL" || is_string (level_of o) "HIGH" = true
  <-> urgent o.
Proof.
  unfold urgent. rewrite orb_true_iff, !is_string_spec. reflexivity.
Qed.

Section Runs.

Variable JSON_parse : string -> result jsval.
Variable payload : Type.
Variable formatSlackMessage : slack_data -> payload.
Variable env : Workflow.Env payload.
Variable ev : event.

(** The outcome of a run, by cases on the checkpoints it starts from. *)
Lemma run_from_checkpoints (checkpoints : gmap string step_output) :
  let a := analyzeUrgency JSON_parse env (message ev) (sentiment ev) in
  let u := default (UrgencyOutput a) (checkpoints !! "analyze-urgency") in
  let saved1 := match checkpoints !! "analyze-urgency" with
                | Some _ => checkpoints
                | None => <["analyze-urgency" := u]> checkpoints
                end in
  let executed1 := match checkpoints !! "analyze-urgency" with
                   | Some _ => []
                   | None => ["analyze-urgency"]
                   end in
  run JSON_parse formatSlackMessage env ev (started checkpoints)
  = if is_string (level_of u) "CRITICAL" || is_string (level_of u) "HIGH" then
      match checkpoints !! "send-slack-notification" with
      | Some _ =>
          (Ok {| success := true; Workflow.urgency := level_of u; notified := true |},
           {| saved := saved1;
              entered := ["analyze-urgency"; "send-slack-notification"];
              executed := executed1 |})
      | None =>
          match sendSlackNotification formatSlackMessage env (slack_data_of ev u) with
          | Ok r =>
              (Ok {| success := true; Workflow.urgency := level_of u; notified := true |},
               {| saved := <["send-slack-notification" := SlackOutput r]> saved1;
                  entered := ["analyze-urgency"; "send-slack-notification"];
                  executed := executed1 ++ ["send-slack-notification"] |})
          | Throw e =>
              (Throw e,
               {| saved := saved1;
                  entered := ["analyze-urgency"; "send-slack-notification"];
                  executed := executed1 ++ ["send-slack-notification"] |})
          end
      end
    else
      (Ok {| success := true; Workflow.urgency := level_of u; notified := false |},
       {| saved := saved1; entered := ["analyze-urgency"]; executed := executed1 |}).
Proof.
  intros a u saved1 executed1. subst u saved1 executed1.
  unfold run, started, step_do, slack_data_of. cbn -[is_string]. fold a.
  destruct (checkpoints !! "analyze-urgency") as [o|] eqn:Hfirst; cbn -[is_string].
  - destruct (is_string (level_of o) "CRITICAL" || is_string (level_of o) "HIGH");
      [|reflexivity].
    cbn. destruct (checkpoints !! "send-slack-notification"); [reflexivity|].
    destruct (sendSlackNotification _ _ _); reflexivity.
  - destruct (is_string (Some (level a)) "CRITICAL" || is_string (Some (level a)) "HIGH");
      [|reflexivity].
    cbn. rewrite lookup_insert_ne by discriminate.
    destruct (checkpoints !! "send-slack-notification"); [reflexivity|].
    destruct (sendSlackNotification _ _ _); reflexivity.
Qed.

End Runs.

(** C9. A run started from any checkpoints works on the urgency that an
    earlier attempt checkpointed, or else on the one [analyzeUrgency]
    returns, and leaves it checkpointed; the analysis is run exactly when
    no urgency was checkpointed. [step.do("send-slack-notification", ..)]
    is reached exactly when the level of this urgency is [CRITICAL] or
    [HIGH]. For any other level the callback is never run, the checkpoint
    of the step is left as it was and the run resolves with
    [notified = false]. For such a level the callback, which is
    [sendSlackNotification] on the data of the event and this urgency, is
    run exactly when no earlier attempt has checkpointed the step; its
    result is checkpointed, or its error fails the run; and a run that
    resolves reports [notified = true]. *)
Theorem slack_step_iff_urgent JSON_parse payload
    (formatSlackMessage : slack_data -> payload) (env : Workflow.Env payload)
    (ev : event) (checkpoints : gmap string step_output) :
  let outcome := fst (run JSON_parse formatSlackMessage env ev (started checkpoints)) in
  let st := snd (run JSON_parse formatSlackMessage env ev (started checkpoints)) in
  let urgency :=
    default (UrgencyOutput (analyzeUrgency JSON_parse env (message ev) (sentiment ev)))
      (checkpoints !! "analyze-urgency") in
  saved st !! "analyze-urgency" = Some urgency
  /\ ("analyze-urgency" ∈ executed st <-> checkpoints !! "analyze-urgency" = None)
  /\ ("send-slack-notification" ∈ entered st <-> urgent urgency)
  /\ (~ urgent urgency ->
      ("send-slack-notification" ∉ executed st)
      /\ saved st !! "send-slack-notification" = checkpoints !! "send-slack-notification"
      /\ outcome = Ok {| success := true;
                         Workflow.urgency := level_of urgency;
                         notified := false |})
  /\ (urgent urgency ->
      ("send-slack-notification" ∈ executed st
       <-> checkpoints !! "send-slack-notification" = None)
      /\ (checkpoints !! "send-slack-notification" = None ->
          match sendSlackNotification formatSlackMessage env (slack_data_of ev urgency) with
          | Ok r =>
              outcome = Ok {| success := true;
                              Workflow.urgency := level_of urgency;
                              notified := true |}
              /\ saved st !! "send-slack-notification" = Some (SlackOutput r)
          | Throw e =>
              outcome = Throw e /\ saved st !! "send-slack-notification" = None
          end)
      /\ (forall o, checkpoints !! "send-slack-notification" = Some o ->
            outcome = Ok {| success := true;
                            Workflow.urgency := level_of urgency;
                            notified := true |}
            /\ saved st !! "send-slack-notification" = Some o)
      /\ forall r, outcome = Ok r -> notified r = true).
Proof.
  intros outcome st urgency. subst outcome st.
  rewrite run_from_checkpoints. fold urgency.
  set (saved1 := match checkpoints !! "analyze-urgency" with
                 | Some _ => checkpoints
                 | None => <["analyze-urgency" := urgency]> checkpoints
                 end).
  set (executed1 := match checkpoints !! "analyze-urgency" with
                    | Some _ => []
                    | None => ["analyze-urgency"]
                    end).
  assert (saved1 !! "analyze-urgency" = Some urgency) as Hfirst.
  { subst saved1 urgency. destruct (checkpoints !! "analyze-urgency") eqn:H; simpl;
      [assumption | apply lookup_insert_eq]. }
  assert (saved1 !! "send-slack-notification"
          = checkpoints !! "send-slack-notification") as Hsecond.
  { subst saved1. destruct (checkpoints !! "analyze-urgency"); [reflexivity|].
    now rewrite lookup_insert_ne. }
  assert ("analyze-urgency" ∈ executed1 <-> checkpoints !! "analyze-urgency" = None)
    as Hanalysis.
  { subst executed1. destruct (checkpoints !! "analyze-urgency").
    - split; [intros H; inversion H | discriminate].
    - split; [reflexivity | intros _; left]. }
  assert ("send-slack-notification" ∉ executed1) as Hnot1.
  { subst executed1. destruct (checkpoints !! "analyze-urgency");
      [apply not_elem_of_nil|]. rewrite list_elem_of_singleton. discriminate. }
  pose proof (urgent_spec urgency) as Hspec.
  destruct (is_string (level_of urgency) "CRITICAL"
            || is_string (level_of urgency) "HIGH").
  - assert (urgent urgency) as Hurgent by now apply Hspec.
    clear Hspec.
    destruct (checkpoints !! "send-slack-notification") as [o|] eqn:Hsaved.
    + cbn [fst snd saved entered executed].
      split; [assumption|]. split; [assumption|].
      split; [split; [auto|]; intros _; right; left|].
      split; [tauto|]. intros _.
      split; [split; [tauto | discriminate]|].
      split; [discriminate|].
      split; [intros o' [= <-]; split; [reflexivity|]; now rewrite Hsecond|].
      intros r [= <-]. reflexivity.
    + destruct (sendSlackNotification formatSlackMessage env (slack_data_of ev urgency))
        as [r|e]; cbn [fst snd saved entered executed].
      * split; [now rewrite lookup_insert_ne|]. split.
        { rewrite elem_of_app, list_elem_of_singleton, Hanalysis.
          split; [intros [H|H]; [assumption | discriminate] | auto]. }
        split; [split; [auto|]; intros _; right; left|].
        split; [tauto|]. intros _.
        split; [split; [reflexivity|]; intros _; apply elem_of_app; right; left|].
        split; [intros _; split; [reflexivity | apply lookup_insert_eq]|].
        split; [discriminate|]. intros r' [= <-]. reflexivity.
      * split; [assumption|]. split.
        { rewrite elem_of_app, list_elem_of_singleton, Hanalysis.
          split; [intros [H|H]; [assumption | discriminate] | auto]. }
        split; [split; [auto|]; intros _; right; left|].
        split; [tauto|]. intros _.
        split; [split; [reflexivity|]; intros _; apply elem_of_app; right; left|].
        split; [intros _; split; [reflexivity|]; now rewrite Hsecond|].
        split; [discriminate|]. discriminate.
  - assert (~ urgent urgency) as Hnot by (rewrite <- Hspec; discriminate).
    cbn [fst snd saved entered executed].
    split; [assumption|]. split; [assumption|].
    split; [split; [|tauto]; rewrite list_elem_of_singleton; discriminate|].
    split; [|tauto]. intros _. split; [assumption|]. split; [assumption | reflexivity].
Qed.

(** Three runs: an urgent answer, from scratch; an answer with a level
    outside the set; and a retry that finds the urgency checkpointed. *)
Example urgent_run_notifies :
  let r := run Json.parse (fun _ => tt)
             (chat_env (Ok (Some fenced_answer)) (Some "https://hooks.example/T"))
             sample_event (started ∅) in
  fst r = Ok {| success := true; Workflow.urgency := Some (JString "CRITICAL");
                notified := true |}
  /\ entered (snd r) = ["analyze-urgency"; "send-slack-notification"]
  /\ executed (snd r) = ["analyze-urgency"; "send-slack-notification"].
Proof. vm_compute. repeat split; reflexivity. Qed.

Example unlisted_level_is_not_notified :
  let r := run Json.parse (fun _ => tt)
             (chat_env (Ok (Some unchecked_answer)) (Some "https://hooks.example/T"))
             sample_event (started ∅) in
  fst r = Ok {| success := true; Workflow.urgency := Some (JString "URGENT");
                notified := false |}
  /\ entered (snd r) = ["analyze-urgency"].
Proof. vm_compute. repeat split; reflexivity. Qed.

Example retry_reuses_checkpoint :
  let r := run Json.parse (fun _ => tt)
             (chat_env (Ok (Some unchecked_answer)) None)
             sample_event
             (started {[ "analyze-urgency" := UrgencyOutput (fallback "negative") ]}) in
  fst r = Ok {| success := true; Workflow.urgency := Some (JString "HIGH");
                notified := true |}
  /\ entered (snd r) = ["analyze-urgency"; "send-slack-notification"]
  /\ executed (snd r) = ["send-slack-notification"].
Proof. vm_compute. repeat split; reflexivity. Qed.

(** * Retries and failures of the workflow *)

Lemma started_lookup_first JSON_parse payload (formatSlackMessage : slack_data -> payload)
    (env : Workflow.Env payload) ev checkpoints :
  let st := snd (run JSON_parse formatSlackMessage env ev (started checkpoints)) in
  let u := default (UrgencyOutput (analyzeUrgency JSON_parse env (message ev) (sentiment ev)))
             (checkpoints !! "analyze-urgency") in
  saved st !! "analyze-urgency" = Some u.
Proof.
  intros st u. subst st. rewrite run_from_checkpoints. fold u.
  assert (match checkpoints !! "analyze-urgency" with
          | Some _ => checkpoints
          | None => <["analyze-urgency" := u]> checkpoints
          end !! "analyze-urgency" = Some u) as Hu.
  { subst u. destruct (checkpoints !! "analyze-urgency") eqn:H; simpl;
      [assumption | apply lookup_insert_eq]. }
  destruct (is_string (level_of u) "CRITICAL" || is_string (level_of u) "HIGH");
    [|exact Hu].
  destruct (checkpoints !! "send-slack-notification"); [exact Hu|].
  destruct (sendSlackNotification _ _ _); simpl; [|exact Hu].
  now rewrite lookup_insert_ne.
Qed.




(** X3. After a failed run the urgency is checkpointed and the
    notification is not; a retry from these checkpoints, whatever the model
    answers by then, does not run the analysis again, keeps the same
    urgency and runs the notification step again. *)
Theorem retry_keeps_urgency JSON_parse payload
    (formatSlackMessage : slack_data -> payload) (env : Workflow.Env payload)
    ev checkpoints e st :
  run JSON_parse formatSlackMessage env ev (started checkpoints) = (Throw e, st) ->
  exists u,
    saved st !! "analyze-urgency" = Some u
    /\ urgent u
    /\ saved st !! "send-slack-notification" = None
    /\ forall JSON_parse' payload' (formatSlackMessage' : slack_data -> payload')
              (env' : Workflow.Env payload'),
         let st' := snd (run JSON_parse' formatSlackMessage' env' ev (started (saved st))) in
         executed st' = ["send-slack-notification"]
         /\ saved st' !! "analyze-urgency" = Some u.
Proof.
  intros Hrun.
  pose proof (started_lookup_first JSON_parse payload formatSlackMessage env ev checkpoints)
    as Hfirst. simpl in Hfirst. rewrite Hrun in Hfirst. simpl in Hfirst.
  set (u := default _ (checkpoints !! "analyze-urgency")) in Hfirst.
  exists u. split; [assumption|].
  assert (urgent u /\ saved st !! "send-slack-notification" = None) as [Hu Hnot].
  { revert Hrun. rewrite run_from_checkpoints. fold u.
    pose proof (urgent_spec u) as Hspec.
    destruct (is_string (level_of u) "CRITICAL" || is_string (level_of u) "HIGH");
      [|discriminate].
    destruct (checkpoints !! "send-slack-notification") eqn:Hslack; [discriminate|].
    destruct (sendSlackNotification _ _ _); [discriminate|].
    intros [= _ <-]. simpl. split; [now apply Hspec|].
    destruct (checkpoints !! "analyze-urgency"); [assumption|].
    now rewrite lookup_insert_ne. }
  split; [assumption|]. split; [assumption|].
  intros JSON_parse' payload' formatSlackMessage' env' st'.
  subst st'. rewrite run_from_checkpoints. rewrite Hfirst. simpl default.
  apply urgent_spec in Hu. rewrite Hu, Hnot.
  destruct (sendSlackNotification _ _ _); simpl; split; try reflexivity;
    try assumption.
  now rewrite lookup_insert_ne.
Qed.

Lemma retry_keeps_urgency_witness :
  exists u, saved (snd (run Json.parse (fun _ => tt)
                          (hook_env (Ok (Some fenced_answer))
                                    (Ok {| ok := false; http_status := 503 |}))
                          sample_event (started ∅)))
              !! "analyze-urgency" = Some u
            /\ urgent u.
Proof.
  assert (run Json.parse (fun _ => tt)
            (hook_env (Ok (Some fenced_answer)) (Ok {| ok := false; http_status := 503 |}))
            sample_event (started ∅)
          = (Throw "Slack API error: 503",
             snd (run Json.parse (fun _ => tt)
                    (hook_env (Ok (Some fenced_answer))
                              (Ok {| ok := false; http_status := 503 |}))
                    sample_event (started ∅)))) as Hrun
    by (vm_compute; reflexivity).
  destruct (retry_keeps_urgency Json.parse unit (fun _ => tt)
              (hook_env (Ok (Some fenced_answer)) (Ok {| ok := false; http_status := 503 |}))
              sample_event ∅ "Slack API error: 503" _ Hrun)
    as (u & Hu & Hurgent & _).
  exists u. split; assumption.
Defined.

(** X4. Replaying a completed run from the checkpoints it left runs no
    callback, whatever the environment, and resolves to the same result. *)
Theorem replay_of_completed_run JSON_parse payload
    (formatSlackMessage : slack_data -> payload) (env : Workflow.Env payload)
    ev checkpoints r st :
  run JSON_parse formatSlackMessage env ev (started checkpoints) = (Ok r, st) ->
  forall JSON_parse' payload' (formatSlackMessage' : slack_data -> payload')
         (env' : Workflow.Env payload'),
    run JSON_parse' formatSlackMessage' env' ev (started (saved st))
    = (Ok r, {| saved := saved st; entered := entered st; executed := [] |}).
Proof.
  intros Hrun JSON_parse' payload' formatSlackMessage' env'.
  pose proof (started_lookup_first JSON_parse payload formatSlackMessage env ev checkpoints)
    as Hfirst. simpl in Hfirst. rewrite Hrun in Hfirst. simpl in Hfirst.
  set (u := default _ (checkpoints !! "analyze-urgency")) in Hfirst.
  rewrite run_from_checkpoints. rewrite Hfirst. simpl default.
  revert Hrun. rewrite run_from_checkpoints. fold u.
  destruct (is_string (level_of u) "CRITICAL" || is_string (level_of u) "HIGH").
  - destruct (checkpoints !! "send-slack-notification") eqn:Hslack.
    + intros [= <- <-]. simpl.
      assert (match checkpoints !! "analyze-urgency" with
              | Some _ => checkpoints
              | None => <["analyze-urgency" := u]> checkpoints
              end !! "send-slack-notification" = Some s) as ->; [|reflexivity].
      destruct (checkpoints !! "analyze-urgency"); [assumption|].
      now rewrite lookup_insert_ne.
    + destruct (sendSlackNotification _ _ _); [|discriminate].
      intros [= <- <-]. simpl. now rewrite lookup_insert_eq.
  - intros [= <- <-]. reflexivity.
Qed.

Lemma replay_of_completed_run_witness :
  exists r st,
    run Json.parse (fun _ => tt) (chat_env (Ok (Some fenced_answer)) None)
      sample_event (started ∅) = (Ok r, st)
    /\ fst (run Json.parse (fun _ => tt) (chat_env (Throw "model down") None)
              sample_event (started (saved st))) = Ok r.
Proof.
  assert (run Json.parse (fun _ => tt) (chat_env (Ok (Some fenced_answer)) None)
            sample_event (started ∅)
          = (Ok {| success := true; Workflow.urgency := Some (JString "CRITICAL");
                   notified := true |},
             snd (run Json.parse (fun _ => tt) (chat_env (Ok (Some fenced_answer)) None)
                    sample_event (started ∅)))) as Hrun
    by (vm_compute; reflexivity).
  eexists _, _. split; [exact Hrun|].
  now rewrite (replay_of_completed_run Json.parse unit (fun _ => tt)
                 (chat_env (Ok (Some fenced_answer)) None) sample_event ∅ _ _ Hrun).
Defined.

(** X5. When the model's answer is absent or blank, the text parsed is
    [{}] and the assessment is the default one, level [NORMAL] with
    confidence 0.5, whatever the sentiment: the fallback to [HIGH] for a
    negative sentiment applies to failures only. *)
Theorem blank_answer_is_normal JSON_parse payload (env : Workflow.Env payload)
    message sentiment response :
  JSON_parse "{}" = Ok (JObject []) ->
  AI_run env "@cf/meta/llama-3-8b-instruct" (urgency_messages message sentiment)
    = Ok response ->
  match response with
  | Some text => trim text = EmptyString
  | None => True
  end ->
  analyzeUrgency JSON_parse env message sentiment = default_assessment.
Proof.
  intros Hparse Hai Hblank.
  assert (cleaned response = "{}") as Hclean.
  { unfold cleaned. destruct response as [text|]; simpl; [|reflexivity].
    rewrite Hblank. reflexivity. }
  unfold analyzeUrgency, classify. rewrite Hai. simpl.
  rewrite Hclean, Hparse. reflexivity.
Qed.

Lemma blank_answer_is_normal_witness :
  level (analyzeUrgency Json.parse (chat_env (Ok (Some "
  ")) None) "Checkout charges my card twice" "negative") = JString "NORMAL".
Proof.
  now rewrite (blank_answer_is_normal Json.parse unit (chat_env (Ok (Some "
  ")) None) "Checkout charges my card twice" "negative" (Some "
  ") eq_refl eq_refl eq_refl).
Defined.

(** * Properties of the sentiment classifier *)

Import Intake.

Lemma prefix_cons a n c s :
  String.prefix (String a n) (String c s)
  = bool_decide (a = c) && String.prefix n s.
Proof.
  simpl. destruct (ascii_dec a c) as [->|Hne].
  - now rewrite bool_decide_eq_true_2.
  - now rewrite bool_decide_eq_false_2.
Qed.

Lemma prefix_trim_end n s :
  all_chars (fun c => negb (is_space c)) n = true ->
  String.prefix n (trim_end s) = String.prefix n s.
Proof.
  revert s. induction n as [|a n IH]; intros s Hn.
  - now destruct (trim_end s), s.
  - simpl in Hn. apply andb_true_iff in Hn. destruct Hn as [Ha Hn].
    destruct s as [|c s]; [reflexivity|].
    cbn [trim_end]. destruct (is_space c && bool_decide (trim_end s = EmptyString)) eqn:Hc.
    + apply andb_true_iff in Hc. destruct Hc as [Hc _].
      rewrite prefix_cons. rewrite bool_decide_eq_false_2; [reflexivity|].
      intros ->. rewrite Hc in Ha. discriminate.
    + rewrite !prefix_cons, IH by assumption. reflexivity.
Qed.

Lemma includes_nil n : n <> EmptyString -> includes n EmptyString = false.
Proof. destruct n; [congruence | reflexivity]. Qed.

(** Trimming neither adds nor removes an occurrence of a word without
    white space. *)
Lemma includes_trim n s :
  n <> EmptyString ->
  all_chars (fun c => negb (is_space c)) n = true ->
  includes n (trim s) = includes n s.
Proof.
  intros Hne Hn. unfold trim.
  assert (forall c t, is_space c = true -> String.prefix n (String c t) = false) as Hsp.
  { intros c t Hc. destruct n as [|a n]; [congruence|].
    rewrite prefix_cons. rewrite bool_decide_eq_false_2; [reflexivity|].
    intros ->. simpl in Hn. rewrite Hc in Hn. discriminate. }
  assert (forall t, includes n (trim_end t) = includes n t) as Hend.
  { induction t as [|c t IH]; [reflexivity|].
    cbn [trim_end]. destruct (is_space c && bool_decide (trim_end t = EmptyString)) eqn:Hc.
    - apply andb_true_iff in Hc. destruct Hc as [Hc Ht].
      apply bool_decide_eq_true in Ht. rewrite Ht in IH.
      change (includes n (String c t))
        with (String.prefix n (String c t) || includes n t).
      rewrite Hsp by assumption. exact IH.
    - change (includes n (String c (trim_end t)))
        with (String.prefix n (String c (trim_end t)) || includes n (trim_end t)).
      change (includes n (String c t))
        with (String.prefix n (String c t) || includes n t).
      rewrite IH.
      pose proof (prefix_trim_end n (String c t) Hn) as Hp.
      cbn [trim_end] in Hp. rewrite Hc in Hp. now rewrite Hp. }
  rewrite Hend.
  induction s as [|c s IH]; [reflexivity|].
  cbn [trim_start]. destruct (is_space c) eqn:Hc; [|reflexivity].
  rewrite IH.
  change (includes n (String c s))
    with (String.prefix n (String c s) || includes n s).
  now rewrite Hsp.
Qed.

(** X6. The sentiment is one of the three labels; it is [positive]
    exactly when the model's answer holds the word, in any case and at any
    place, and [negative] exactly when the answer holds that word and not
    the word [positive]. An error, an absent answer or any other text give
    [neutral]. *)
Theorem sentiment_by_keyword (AI_run : chat) message :
  let s := analyzeSentiment AI_run message in
  let answer := AI_run "@cf/meta/llama-3-8b-instruct" (sentiment_messages message) in
  (s = "positive" \/ s = "negative" \/ s = "neutral")
  /\ (s = "positive" <->
      exists text, answer = Ok (Some text)
                   /\ includes "positive" (toLowerCase text) = true)
  /\ (s = "negative" <->
      exists text, answer = Ok (Some text)
                   /\ includes "positive" (toLowerCase text) = false
                   /\ includes "negative" (toLowerCase text) = true).
Proof.
  intros s answer. subst s. unfold analyzeSentiment. fold answer.
  destruct answer as [[text|]|e].
  2,3: (split; [auto|]); split; (split; [discriminate|]);
       intros (t & H & _); discriminate.
  simpl.
  assert (forall w, w = "positive" \/ w = "negative" ->
            includes w (if bool_decide (trim (toLowerCase text) = EmptyString)
                        then "neutral" else trim (toLowerCase text))
            = includes w (toLowerCase text)) as Hsame.
  { intros w Hw.
    assert (includes w (trim (toLowerCase text)) = includes w (toLowerCase text)) as Ht
      by (destruct Hw as [->| ->]; now apply includes_trim).
    destruct (bool_decide (trim (toLowerCase text) = EmptyString)) eqn:Hempty;
      [|assumption].
    apply bool_decide_eq_true in Hempty. rewrite Hempty in Ht. rewrite <- Ht.
    destruct Hw as [->| ->]; reflexivity. }
  rewrite !Hsame by auto.
  destruct (includes "positive" (toLowerCase text)) eqn:Hp.
  - split; [auto|]. split.
    + split; [eauto|reflexivity].
    + split; [discriminate|]. intros (t & [= <-] & H & _). congruence.
  - destruct (includes "negative" (toLowerCase text)) eqn:Hn.
    + split; [auto|]. split.
      * split; [discriminate|]. intros (t & [= <-] & H). congruence.
      * split; [eauto|reflexivity].
    + split; [auto|]. split; (split; [discriminate|]).
      * intros (t & [= <-] & H). congruence.
      * intros (t & [= <-] & _ & H). congruence.
Qed.

(** * Properties of the keyword extraction *)

Section Keywords.

Local Abbreviation tally := (fold_left (fun keywords word => bump word keywords)).

Lemma count_word_filter words keywords :
  fold_left count_word words keywords
  = tally (List.filter (fun word => negb (is_common word)) words) keywords.
Proof.
  revert keywords. induction words as [|w words IH]; intros keywords; [reflexivity|].
  simpl. unfold count_word at 2. fold (is_common w).
  destruct (is_common w); simpl; apply IH.
Qed.

Lemma count_words_tally feedbackList :
  count_words feedbackList = tally (counted feedbackList) [].
Proof.
  unfold count_words, counted, matched. generalize (@nil (string * mentions)).
  induction feedbackList as [|fb l IH]; intros keywords; [reflexivity|].
  simpl. rewrite IH, count_word_filter, List.filter_app, fold_left_app. reflexivity.
Qed.

Lemma held_bump_same word keywords :
  held word (bump word keywords)
  = Some match held word keywords with
         | Some c => increment c
         | None => match inherited word with
                   | Some text => MText (text ++ "1")
                   | None => MNumber 1
                   end
         end.
Proof.
  induction keywords as [|[k c] rest IH]; simpl.
  - now rewrite bool_decide_eq_true_2.
  - destruct (bool_decide (k = word)) eqn:Hk; simpl; rewrite Hk; [reflexivity | exact IH].
Qed.

Lemma held_bump_other word other keywords :
  other <> word -> held other (bump word keywords) = held other keywords.
Proof.
  intros Hne. induction keywords as [|[k c] rest IH]; simpl.
  - rewrite bool_decide_eq_false_2 by congruence. reflexivity.
  - destruct (bool_decide (k = word)) eqn:Hk; simpl.
    + apply bool_decide_eq_true in Hk. subst k.
      rewrite bool_decide_eq_false_2 by congruence. reflexivity.
    + destruct (bool_decide (k = other)); [reflexivity | exact IH].
Qed.

Lemma keys_bump word keywords :
  map fst (bump word keywords)
  = map fst keywords ++ (if bool_decide (word ∈ map fst keywords) then [] else [word]).
Proof.
  induction keywords as [|[k c] rest IH].
  - reflexivity.
  - cbn [bump map fst]. destruct (bool_decide (k = word)) eqn:Hk.
    + apply bool_decide_eq_true in Hk. subst k. cbn [map fst].
      rewrite bool_decide_eq_true_2 by left. now rewrite app_nil_r.
    + apply bool_decide_eq_false in Hk. cbn [map fst]. rewrite IH.
      rewrite <- app_comm_cons. f_equal. f_equal.
      rewrite (bool_decide_ext (word ∈ map fst rest) (word ∈ k :: map fst rest));
        [reflexivity|].
      rewrite elem_of_cons. split; [auto|].
      intros [->|H]; [congruence | assumption].
Qed.

Lemma keys_tally words keywords :
  NoDup (map fst keywords) ->
  NoDup (map fst (tally words keywords))
  /\ forall w, w ∈ map fst (tally words keywords) <-> w ∈ map fst keywords \/ w ∈ words.
Proof.
  revert keywords. induction words as [|word words IH]; intros keywords Hnd; simpl.
  - split; [assumption|]. intros w. rewrite elem_of_nil. tauto.
  - assert (NoDup (map fst (bump word keywords))) as Hnd'.
    { rewrite keys_bump. destruct (bool_decide (word ∈ map fst keywords)) eqn:Hin.
      - now rewrite app_nil_r.
      - apply bool_decide_eq_false in Hin. apply NoDup_app. split; [assumption|].
        split; [|apply NoDup_singleton].
        intros x Hx Hx'. apply list_elem_of_singleton in Hx'. congruence. }
    destruct (IH _ Hnd') as [H1 H2]. split; [assumption|].
    intros w. rewrite H2, keys_bump, elem_of_app, elem_of_cons.
    destruct (bool_decide (word ∈ map fst keywords)) eqn:Hin.
    + apply bool_decide_eq_true in Hin. rewrite elem_of_nil.
      split; [tauto|]. intros [H|[->|H]]; tauto.
    + rewrite list_elem_of_singleton. tauto.
Qed.

(** The count held for a word other than [constructor] is the number of
    times it was counted. *)
Lemma held_tally word words keywords n :
  word <> "constructor" ->
  held word keywords = (match n with 0 => None | S _ => Some (MNumber n) end) ->
  held word (tally words keywords)
  = match n + length (List.filter (fun w => bool_decide (w = word)) words) with
    | 0 => None
    | S m => Some (MNumber (S m))
    end.
Proof.
  intros Hword. revert keywords n.
  induction words as [|w words IH]; intros keywords n Hheld; simpl.
  - rewrite Nat.add_0_r, Hheld. now destruct n.
  - destruct (bool_decide (w = word)) eqn:Hw; simpl.
    + apply bool_decide_eq_true in Hw. subst w.
      rewrite (IH _ (S n)).
      * now rewrite Nat.add_succ_r.
      * rewrite held_bump_same, Hheld. unfold inherited.
        rewrite bool_decide_eq_false_2 by assumption.
        destruct n; simpl; [reflexivity|]. now rewrite Nat.add_1_r.
    + apply bool_decide_eq_false in Hw.
      apply IH. rewrite held_bump_other by congruence. assumption.
Qed.

(** The count held for [constructor] is a text. *)
Lemma held_tally_constructor words keywords :
  (forall c, held "constructor" keywords = Some c -> exists s, c = MText s) ->
  forall c, held "constructor" (tally words keywords) = Some c -> exists s, c = MText s.
Proof.
  revert keywords. induction words as [|w words IH]; intros keywords Hk; [exact Hk|].
  simpl. apply IH. intros c.
  destruct (bool_decide (w = "constructor")) eqn:Hw.
  - apply bool_decide_eq_true in Hw. subst w. rewrite held_bump_same.
    destruct (held "constructor" keywords) as [c0|] eqn:Hc0.
    + destruct (Hk c0 eq_refl) as [s ->]. intros [= <-]. simpl. eauto.
    + intros [= <-]. simpl. eauto.
  - apply bool_decide_eq_false in Hw. rewrite held_bump_other by congruence. apply Hk.
Qed.

Lemma held_elem word c keywords :
  NoDup (map fst keywords) ->
  (word, c) ∈ keywords <-> held word keywords = Some c.
Proof.
  induction keywords as [|[k c0] rest IH]; simpl; intros Hnd.
  - rewrite elem_of_nil. split; [tauto | discriminate].
  - apply NoDup_cons in Hnd. destruct Hnd as [Hk Hnd].
    rewrite elem_of_cons. destruct (bool_decide (k = word)) eqn:Hkw.
    + apply bool_decide_eq_true in Hkw. subst k. split.
      * intros [[= ->]|Hin]; [reflexivity|].
        exfalso. apply Hk. apply list_elem_of_fmap. exists (word, c). auto.
      * intros [= ->]. now left.
    + apply bool_decide_eq_false in Hkw. rewrite <- IH by assumption.
      split; [intros [[= ? ?]|H]; [congruence | assumption] | auto].
Qed.

Lemma place_permutation a l : place a l ≡ₚ a :: l.
Proof.
  induction l as [|b l IH]; simpl; [reflexivity|].
  destruct (ranks_above b a); [|reflexivity].
  rewrite IH. apply Permutation_swap.
Qed.

Lemma sort_entries_permutation l : sort_entries l ≡ₚ l.
Proof.
  induction l as [|a l IH]; simpl; [reflexivity|].
  now rewrite place_permutation, IH.
Qed.

(** [a] holds a number at least the number held by [b]. *)
Let no_less (a b : string * mentions) : Prop :=
  exists m n, snd a = MNumber m /\ snd b = MNumber n /\ n <= m.

Let numeric (e : string * mentions) : Prop := exists n, snd e = MNumber n.

Lemma place_sorted a l :
  numeric a -> Forall numeric l ->
  StronglySorted no_less l -> StronglySorted no_less (place a l).
Proof.
  intros [n Ha]. induction l as [|b l IH]; intros Hnum Hl; simpl.
  - repeat constructor.
  - apply Forall_cons in Hnum. destruct Hnum as [[m Hm] Hnum].
    apply StronglySorted_inv in Hl. destruct Hl as [Hl Hb].
    unfold ranks_above. rewrite Ha, Hm.
    destruct (n <? m)%nat eqn:Hrank.
    + apply Nat.ltb_lt in Hrank. constructor; [auto|].
      rewrite Forall_forall in Hb |- *. intros x Hx.
      rewrite place_permutation in Hx. apply elem_of_cons in Hx.
      destruct Hx as [->|Hx]; [|auto].
      exists m, n. repeat split; [assumption.. | lia].
    + apply Nat.ltb_ge in Hrank.
      constructor; [now constructor|].
      constructor; [exists n, m; auto|].
      rewrite Forall_forall in Hb |- *. intros x Hx.
      destruct (Hb x Hx) as (m' & k & Hm' & Hk & Hle).
      exists n, k. repeat split; [assumption.. |].
      rewrite Hm in Hm'. injection Hm' as <-. lia.
Qed.

Lemma sort_entries_sorted l :
  Forall numeric l -> StronglySorted no_less (sort_entries l).
Proof.
  induction l as [|a l IH]; intros Hnum; simpl; [constructor|].
  apply Forall_cons in Hnum. destruct Hnum as [Ha Hnum].
  apply place_sorted; [assumption| |auto].
  rewrite Forall_forall in Hnum |- *. intros x Hx.
  rewrite sort_entries_permutation in Hx. auto.
Qed.

(** What the keywords object holds once all the feedback is counted: one
    entry per counted word, and for a word other than [constructor] the
    number of times it is matched. *)
Lemma count_words_entries feedbackList :
  NoDup (map fst (count_words feedbackList))
  /\ (forall w, w ∈ map fst (count_words feedbackList) <-> w ∈ counted feedbackList)
  /\ (forall e, e ∈ count_words feedbackList -> fst e <> "constructor" ->
        snd e = MNumber (occurrences (fst e) feedbackList)
        /\ 1 <= occurrences (fst e) feedbackList)
  /\ (forall e, e ∈ count_words feedbackList -> fst e = "constructor" ->
        exists s, snd e = MText s).
Proof.
  rewrite count_words_tally.
  destruct (keys_tally (counted feedbackList) [] (NoDup_nil_2)) as [Hnd Hkeys'].
  assert (forall w, w ∈ map fst (fold_left (fun keywords word => bump word keywords)
                                   (counted feedbackList) [])
                    <-> w ∈ counted feedbackList) as Hkeys.
  { intros w. rewrite Hkeys'. simpl. rewrite elem_of_nil. tauto. }
  clear Hkeys'.
  split; [assumption|]. split; [exact Hkeys|].
  split.
  - intros [w c] He Hw. simpl in *.
    assert (w ∈ counted feedbackList) as Hin.
    { apply Hkeys. apply list_elem_of_fmap. exists (w, c). auto. }
    apply held_elem in He; [|assumption].
    rewrite (held_tally w _ [] 0 Hw eq_refl) in He. simpl in He.
    assert (length (List.filter (fun w0 => bool_decide (w0 = w)) (counted feedbackList))
            = occurrences w feedbackList) as Hocc.
    { unfold occurrences, counted.
      apply list_elem_of_In, filter_In in Hin. destruct Hin as [_ Hcommon].
      induction (matched feedbackList) as [|x xs IHx]; [reflexivity|]. simpl.
      destruct (bool_decide (x = w)) eqn:Hx.
      - apply bool_decide_eq_true in Hx. subst x. rewrite Hcommon. simpl.
        rewrite bool_decide_eq_true_2 by reflexivity. simpl. now rewrite IHx.
      - destruct (negb (is_common x)); simpl; [rewrite Hx|]; exact IHx. }
    rewrite Hocc in He.
    destruct (occurrences w feedbackList); [discriminate|].
    injection He as <-. split; [reflexivity | lia].
  - intros [w c] He Hw. simpl in *. subst w.
    apply held_elem in He; [|assumption].
    eapply held_tally_constructor; [|exact He]. discriminate.
Qed.

Lemma counted_word w feedbackList :
  w ∈ counted feedbackList ->
  is_common w = false
  /\ 3 <= String.length w
  /\ all_chars is_lower_letter w = true
  /\ exists feedback, feedback ∈ feedbackList /\ w ∈ match_words (toLowerCase feedback).
Proof.
  unfold counted, matched. intros Hw.
  apply list_elem_of_In, filter_In in Hw. destruct Hw as [Hw Hcommon].
  apply negb_true_iff in Hcommon. split; [assumption|].
  apply in_concat in Hw. destruct Hw as (ws & Hws & Hw).
  apply in_map_iff in Hws. destruct Hws as (feedback & <- & Hfb).
  pose proof Hw as Hmatch. unfold match_words in Hw.
  apply filter_In in Hw. destruct Hw as [_ Hw].
  apply andb_true_iff in Hw. destruct Hw as [Hlen Hletters].
  apply Nat.leb_le in Hlen. repeat split; try assumption.
  exists feedback. split; now apply list_elem_of_In.
Qed.

(** The features are built from the first three sorted entries. *)
Lemma keyword_features feedbackList sentimentType f :
  f ∈ extractKeywords feedbackList sentimentType <->
  exists e, e ∈ take 3 (sort_entries (count_words feedbackList))
            /\ f = {| feature_name := fst e; feature_mentions := snd e |}.
Proof.
  unfold extractKeywords, slice. simpl. rewrite list_elem_of_fmap.
  split; intros (e & H1 & H2); exists e; auto.
Qed.

Lemma taken_entry feedbackList e :
  e ∈ take 3 (sort_entries (count_words feedbackList)) -> e ∈ count_words feedbackList.
Proof.
  intros He. apply (fun H => elem_of_sublist _ _ _ H (sublist_take _ _)) in He.
  now rewrite sort_entries_permutation in He.
Qed.

(** X7. The keyword fallback returns at most three features, with
    pairwise different names; each name is a word of at least three letters
    [a]-[z] matched in the lower-cased text of some feedback, and is not a
    stop word. *)
Theorem keywords_are_counted_words feedbackList sentimentType :
  let features := extractKeywords feedbackList sentimentType in
  length features <= 3
  /\ NoDup (map feature_name features)
  /\ forall f, f ∈ features ->
       3 <= String.length (feature_name f)
       /\ all_chars is_lower_letter (feature_name f) = true
       /\ (feature_name f ∉ commonWords)
       /\ exists feedback, feedback ∈ feedbackList
                           /\ feature_name f ∈ match_words (toLowerCase feedback).
Proof.
  intros features. subst features.
  destruct (count_words_entries feedbackList) as (Hnd & Hkeys & _ & _).
  split; [|split].
  - unfold extractKeywords, slice. rewrite length_map, length_take.
    apply (Nat.le_min_l 3).
  - unfold extractKeywords, slice. simpl. rewrite map_map. simpl.
    change (map (fun x : string * mentions => fst x)) with (map (@fst string mentions)).
    eapply sublist_NoDup; [|apply (fmap_sublist fst), sublist_take].
    eapply NoDup_Permutation_proper; [|exact Hnd].
    apply fmap_Permutation, sort_entries_permutation.
  - intros f Hf. apply keyword_features in Hf. destruct Hf as (e & He & ->). simpl.
    apply taken_entry in He.
    assert (fst e ∈ counted feedbackList) as Hin
      by (apply Hkeys, list_elem_of_fmap; eauto).
    apply counted_word in Hin. destruct Hin as (Hcommon & Hlen & Hletters & Hfb).
    repeat split; try assumption.
    intros Hstop. unfold is_common in Hcommon.
    assert (existsb (fun w => bool_decide (w = fst e)) commonWords = true) as Hyes.
    { apply existsb_exists. exists (fst e). split; [now apply list_elem_of_In|].
      now apply bool_decide_eq_true. }
    congruence.
Qed.

(** X8. The [mentions] of a returned feature other than [constructor] is
    the number of times the word is matched in the lower-cased feedback
    texts, and is at least 1. *)
Theorem keyword_mentions_count_matches feedbackList sentimentType f :
  f ∈ extractKeywords feedbackList sentimentType ->
  feature_name f <> "constructor" ->
  feature_mentions f = MNumber (occurrences (feature_name f) feedbackList)
  /\ 1 <= occurrences (feature_name f) feedbackList.
Proof.
  intros Hf Hname. apply keyword_features in Hf. destruct Hf as (e & He & ->).
  simpl in *. apply taken_entry in He.
  destruct (count_words_entries feedbackList) as (_ & _ & Hcount & _). auto.
Qed.

(** X9. Unless the word [constructor] is counted, the features come in
    non-increasing order of mentions, and a counted word that is left out
    is matched no more often than any returned one; a word is left out only
    when three are returned. *)
Theorem keywords_are_the_top_three feedbackList sentimentType :
  "constructor" ∉ counted feedbackList ->
  let features := extractKeywords feedbackList sentimentType in
  StronglySorted
    (fun f g => occurrences (feature_name g) feedbackList
                <= occurrences (feature_name f) feedbackList) features
  /\ forall w, w ∈ counted feedbackList -> w ∉ map feature_name features ->
       length features = 3
       /\ forall f, f ∈ features ->
            occurrences w feedbackList <= occurrences (feature_name f) feedbackList.
Proof.
  intros Hnone features. subst features.
  destruct (count_words_entries feedbackList) as (Hnd & Hkeys & Hcount & _).
  assert (forall e, e ∈ count_words feedbackList ->
                    snd e = MNumber (occurrences (fst e) feedbackList)) as Hnum.
  { intros e He. apply Hcount; [assumption|]. intros Hc. apply Hnone.
    rewrite <- Hc. apply Hkeys, list_elem_of_fmap. eauto. }
  assert (StronglySorted no_less (sort_entries (count_words feedbackList))) as Hsorted.
  { apply sort_entries_sorted, Forall_forall. intros e He. eexists. now apply Hnum. }
  assert (forall e, e ∈ sort_entries (count_words feedbackList) ->
                    snd e = MNumber (occurrences (fst e) feedbackList)) as Hnum'.
  { intros e He. apply Hnum. now rewrite sort_entries_permutation in He. }
  assert (forall a b, a ∈ sort_entries (count_words feedbackList) ->
                      b ∈ sort_entries (count_words feedbackList) ->
                      no_less a b ->
                      occurrences (fst b) feedbackList <= occurrences (fst a) feedbackList)
    as Hle.
  { intros a b Ha Hb (m & n & Hm & Hn & Hmn).
    rewrite (Hnum' a Ha) in Hm. rewrite (Hnum' b Hb) in Hn.
    injection Hm as <-. injection Hn as <-. exact Hmn. }
  set (sorted := sort_entries (count_words feedbackList)) in *.
  rewrite <- (take_drop 3 sorted) in Hsorted.
  unfold extractKeywords, slice. fold sorted. rewrite drop_0.
  change (3 - 0) with 3. split.
  - apply StronglySorted_app_1_l in Hsorted.
    assert (forall e, e ∈ take 3 sorted -> e ∈ sorted) as Hsub
      by (intros e He; eapply elem_of_sublist; [exact He | apply sublist_take]).
    revert Hsorted Hsub. generalize (take 3 sorted) as l.
    induction l as [|a l IH]; intros Hl Hsub; simpl; [constructor|].
    apply StronglySorted_inv in Hl. destruct Hl as [Hl Ha].
    constructor.
    + apply IH; [assumption|]. intros e He. apply Hsub. now right.
    + pose proof (proj1 (Forall_forall _ _) Ha) as Ha'.
      apply Forall_forall. intros g Hg.
      apply list_elem_of_fmap in Hg. destruct Hg as (b & -> & Hb). simpl.
      apply Hle; [apply Hsub; left | apply Hsub; now right | auto].
  - intros w Hw Hout.
    apply Hkeys, list_elem_of_fmap in Hw. destruct Hw as (e & -> & He).
    assert (e ∈ sorted) as Hes by (subst sorted; now rewrite sort_entries_permutation).
    rewrite <- (take_drop 3 sorted) in Hes. apply elem_of_app in Hes.
    destruct Hes as [Hes|Hes].
    { exfalso. apply Hout. rewrite map_map. simpl.
      apply list_elem_of_fmap. eauto. }
    split.
    + rewrite length_map, length_take.
      assert (3 < length sorted \/ length sorted <= 3) as [Hlong|Hshort] by lia; [lia|].
      rewrite drop_ge in Hes by assumption. inversion Hes.
    + intros f Hf. apply list_elem_of_fmap in Hf. destruct Hf as (a & -> & Ha). simpl.
      apply Hle.
      * eapply elem_of_sublist; [exact Ha | apply sublist_take].
      * eapply elem_of_sublist; [exact Hes | apply sublist_drop].
      * eapply StronglySorted_app_1_elem_of; eassumption.
Qed.

(** X10. When the word [constructor] is returned, its [mentions] is a text
    and not a number: the count starts from the property that the
    [keywords] object inherits under that name. *)
Theorem constructor_mentions_is_text feedbackList sentimentType f :
  f ∈ extractKeywords feedbackList sentimentType ->
  feature_name f = "constructor" ->
  exists s, feature_mentions f = MText s.
Proof.
  intros Hf Hname. apply keyword_features in Hf. destruct Hf as (e & He & ->).
  simpl in *. apply taken_entry in He.
  destruct (count_words_entries feedbackList) as (_ & _ & _ & Htext). auto.
Qed.

End Keywords.

Lemma keyword_mentions_count_matches_witness :
  MNumber 3 = MNumber (occurrences "app" sample_feedback)
  /\ 1 <= occurrences "app" sample_feedback.
Proof.
  refine (keyword_mentions_count_matches sample_feedback "negative"
            {| feature_name := "app"; feature_mentions := MNumber 3 |} _ _).
  - apply list_elem_of_In. vm_compute. left. reflexivity.
  - discriminate.
Defined.

Lemma keywords_are_the_top_three_witness :
  StronglySorted
    (fun f g => occurrences (feature_name g) sample_feedback
                <= occurrences (feature_name f) sample_feedback)
    (extractKeywords sample_feedback "negative").
Proof.
  refine (proj1 (keywords_are_the_top_three sample_feedback "negative" _)).
  intros H. apply list_elem_of_In in H. vm_compute in H. intuition discriminate.
Defined.

Lemma constructor_mentions_is_text_witness :
  exists s, MText "function Object() { [native code] }11" = MText s.
Proof.
  refine (constructor_mentions_is_text ["constructor crashes constructor"] "negative"
            {| feature_name := "constructor";
               feature_mentions := MText "function Object() { [native code] }11" |}
            _ eq_refl).
  apply list_elem_of_In. vm_compute. left. reflexivity.
Defined.

(** * Properties of the feature extraction *)

Lemma parse_features_eq JSON_parse response :
  parse_features JSON_parse response
  = await parsed := JSON_parse (cleaned_array response) in
    await kept := filter_features (match parsed with JArray items => items | _ => [] end) in
    Ok (slice 0 3 (map to_feature kept)).
Proof. reflexivity. Qed.

(** The filter throws on a [null] element and otherwise keeps, in order,
    the elements with a non-empty string as [feature]. *)
Lemma filter_features_spec items :
  match filter_features items with
  | Ok kept => (JNull ∉ items) /\ kept = List.filter keeps items
  | Throw _ => JNull ∈ items
  end.
Proof.
  induction items as [|f items IH]; simpl.
  - split; [apply not_elem_of_nil | reflexivity].
  - destruct (member f "feature") as [v|e] eqn:Hv; simpl.
    + assert (f <> JNull) as Hf by (intros ->; discriminate).
      destruct (filter_features items) as [kept|e]; simpl.
      * destruct IH as [Hnone ->]. split.
        -- intros Hin. apply elem_of_cons in Hin. destruct Hin; congruence.
        -- unfold keeps. rewrite Hv.
           destruct v as [[| | |s| |]|]; try reflexivity.
           now destruct (bool_decide (s = EmptyString)).
      * now right.
    + destruct f; try discriminate. left.
Qed.

Lemma kept_feature_name f :
  keeps f = true -> feature_name (to_feature f) <> EmptyString.
Proof.
  unfold keeps, to_feature. simpl.
  destruct (member f "feature") as [[[| | |s| |]|]|]; try discriminate.
  intros H. apply negb_true_iff, bool_decide_eq_false in H. exact H.
Qed.

(** The bounds hold on each of the paths of [extractFeatures]. *)
Lemma extracted_features_bounds JSON_parse (AI_run : chat) feedbackList sentimentType :
  let features := extractFeatures JSON_parse AI_run feedbackList sentimentType in
  length features <= 3
  /\ forall f, f ∈ features -> feature_name f <> EmptyString.
Proof.
  intros features. subst features. unfold extractFeatures.
  destruct (length feedbackList =? 0)%nat; [split; [simpl; lia | intros f Hf; inversion Hf]|].
  destruct (AI_run _ _) as [response|e]; [|split; [simpl; lia | intros f Hf; inversion Hf]].
  rewrite parse_features_eq.
  destruct (JSON_parse (cleaned_array response)) as [parsed|e]; simpl.
  - pose proof (filter_features_spec
                  match parsed with JArray items => items | _ => [] end) as Hspec.
    destruct (filter_features _) as [kept|e]; simpl.
    + destruct Hspec as [_ ->]. split.
      * unfold slice. rewrite length_take. apply (Nat.le_min_l 3).
      * intros f Hf. unfold slice in Hf. rewrite drop_0 in Hf.
        apply (fun H => elem_of_sublist _ _ _ H (sublist_take _ _)) in Hf.
        apply list_elem_of_fmap in Hf. destruct Hf as (x & -> & Hx).
        apply list_elem_of_In, filter_In in Hx. now apply kept_feature_name.
    + split.
      * unfold extractKeywords, slice. rewrite length_map, length_take.
        apply (Nat.le_min_l 3).
      * intros f Hf. apply keyword_features in Hf. destruct Hf as (x & Hx & ->).
        simpl. apply taken_entry in Hx.
        destruct (count_words_entries feedbackList) as (_ & Hkeys & _).
        assert (fst x ∈ counted feedbackList) as Hin
          by (apply Hkeys, list_elem_of_fmap; eauto).
        apply counted_word in Hin. destruct Hin as (_ & Hlen & _).
        intros Hempty. rewrite Hempty in Hlen. simpl in Hlen. lia.
  - split.
    + unfold extractKeywords, slice. rewrite length_map, length_take.
      apply (Nat.le_min_l 3).
    + intros f Hf. apply keyword_features in Hf. destruct Hf as (x & Hx & ->).
      simpl. apply taken_entry in Hx.
      destruct (count_words_entries feedbackList) as (_ & Hkeys & _).
      assert (fst x ∈ counted feedbackList) as Hin
        by (apply Hkeys, list_elem_of_fmap; eauto).
      apply counted_word in Hin. destruct Hin as (_ & Hlen & _).
      intros Hempty. rewrite Hempty in Hlen. simpl in Hlen. lia.
Qed.

(** X11. Whatever the model answers and however the parse goes,
    [extractFeatures] returns at most three features and each has a
    non-empty name. *)
Theorem features_are_few_and_named JSON_parse (AI_run : chat) feedbackList sentimentType :
  let features := extractFeatures JSON_parse AI_run feedbackList sentimentType in
  length features <= 3
  /\ forall f, f ∈ features -> feature_name f <> EmptyString.
Proof. apply extracted_features_bounds. Qed.

(** X12. When the model has answered and its text does not parse, or parses
    to an array with a [null] element, the features are those of the
    keyword fallback; when it parses to an array without [null], they are
    the first three elements with a non-empty string as [feature], in the
    order of the array. *)
Theorem features_fall_back_to_keywords JSON_parse (AI_run : chat) feedbackList
    sentimentType response :
  feedbackList <> [] ->
  AI_run "@cf/meta/llama-3-8b-instruct" (feature_messages feedbackList sentimentType)
    = Ok response ->
  let features := extractFeatures JSON_parse AI_run feedbackList sentimentType in
  ((exists e, JSON_parse (cleaned_array response) = Throw e) ->
   features = extractKeywords feedbackList sentimentType)
  /\ (forall items, JSON_parse (cleaned_array response) = Ok (JArray items) ->
      (JNull ∈ items -> features = extractKeywords feedbackList sentimentType)
      /\ (JNull ∉ items ->
          features = map to_feature (take 3 (List.filter keeps items)))).
Proof.
  intros Hlist Hai features. subst features. unfold extractFeatures.
  destruct feedbackList as [|fb l]; [congruence|]. cbn [length Nat.eqb].
  rewrite Hai, parse_features_eq. split.
  - intros [e ->]. reflexivity.
  - intros items ->. simpl.
    pose proof (filter_features_spec items) as Hspec.
    destruct (filter_features items) as [kept|e]; simpl.
    + destruct Hspec as [Hnone ->]. split; [tauto|]. intros _.
      unfold slice. rewrite drop_0. change (3 - 0) with 3.
      symmetry. apply fmap_take.
    + split; [reflexivity | tauto].
Qed.

Lemma features_fall_back_to_keywords_witness :
  extractFeatures Json.parse (fun _ _ => Ok (Some "[null]")) sample_feedback "negative"
  = extractKeywords sample_feedback "negative".
Proof.
  refine (proj1 (proj2 (features_fall_back_to_keywords Json.parse
                          (fun _ _ => Ok (Some "[null]")) sample_feedback "negative"
                          (Some "[null]") _ eq_refl) [JNull] eq_refl) _).
  - discriminate.
  - left.
Defined.

(** X13. No feature is returned for an empty list of feedback, when the
    call to the model throws, and when the model's text parses to something
    else than an array: the keyword fallback is not used in these cases. *)
Theorem features_are_empty JSON_parse (AI_run : chat) feedbackList sentimentType :
  feedbackList = []
  \/ (exists e, AI_run "@cf/meta/llama-3-8b-instruct"
                  (feature_messages feedbackList sentimentType) = Throw e)
  \/ (exists response parsed,
        AI_run "@cf/meta/llama-3-8b-instruct"
          (feature_messages feedbackList sentimentType) = Ok response
        /\ JSON_parse (cleaned_array response) = Ok parsed
        /\ forall items, parsed <> JArray items) ->
  extractFeatures JSON_parse AI_run feedbackList sentimentType = [].
Proof.
  unfold extractFeatures. intros [->|Hcase]; [reflexivity|].
  destruct (length feedbackList =? 0)%nat; [reflexivity|].
  destruct Hcase as [[e ->]|(response & parsed & -> & Hparse & Hshape)]; [reflexivity|].
  rewrite parse_features_eq, Hparse. simpl.
  destruct parsed; try reflexivity. now destruct (Hshape items).
Qed.

Lemma features_are_empty_witness :
  extractFeatures Json.parse (fun _ _ => Ok (Some "{}")) sample_feedback "negative" = [].
Proof.
  apply features_are_empty. right. right.
  exists (Some "{}"), (JObject []). repeat split; try reflexivity. discriminate.
Defined.

(** An answer with a usable entry, an entry without name, a number and an
    entry without count: two features are kept, the second with the
    default count. *)
Example features_of_mixed_answer :
  extractFeatures Json.parse (fun _ _ => Ok (Some feature_answer)) sample_feedback
    "positive"
  = [{| feature_name := "Dashboard"; feature_mentions := MFloat 4 |};
     {| feature_name := "Speed"; feature_mentions := MNumber 1 |}].
Proof. vm_compute. reflexivity. Qed.

(** * Properties of the feature analysis *)

Lemma exclusive_filters_length {A} (p q : A -> bool) (l : list A) :
  (forall x, p x = true -> q x = false) ->
  length (List.filter p l) + length (List.filter q l) <= length l.
Proof.
  intros Hpq. induction l as [|x l IH]; simpl; [lia|].
  destruct (p x) eqn:Hp; [rewrite (Hpq x Hp)|destruct (q x)]; simpl; lia.
Qed.

(** X14. [GET /api/analyze-features] answers with status 200. On an empty
    table the body carries a message and no counter. Otherwise
    [analyzedCount] is the number of rows, [positiveCount] and
    [negativeCount] count the rows of each label and together do not exceed
    it (rows of another label or without one are analysed in neither list),
    each list has at most three features, and a list is empty when no row
    has its label. *)
Theorem feature_analysis_counts JSON_parse (AI_run : chat) db corsHeaders :
  let response := handleFeatureAnalysis JSON_parse AI_run db corsHeaders in
  let o := analysis_body response in
  analysis_status response = 200
  /\ (table db = [] ->
      analysis_get "message" o = Some (AString "No feedback available for analysis")
      /\ analysis_get "bestFeatures" o = Some (AFeatures [])
      /\ analysis_get "worstFeatures" o = Some (AFeatures [])
      /\ analysis_get "analyzedCount" o = None)
  /\ (table db <> [] ->
      exists best worst p n,
        analysis_get "bestFeatures" o = Some (AFeatures best)
        /\ analysis_get "worstFeatures" o = Some (AFeatures worst)
        /\ analysis_get "analyzedCount" o = Some (ANumber (length (table db)))
        /\ analysis_get "positiveCount" o = Some (ANumber p)
        /\ analysis_get "negativeCount" o = Some (ANumber n)
        /\ analysis_get "message" o = None
        /\ p = length (List.filter
                         (fun f => bool_decide (row_sentiment f = Some "positive"))
                         (table db))
        /\ n = length (List.filter
                         (fun f => bool_decide (row_sentiment f = Some "negative"))
                         (table db))
        /\ p + n <= length (table db)
        /\ length best <= 3 /\ length worst <= 3
        /\ (p = 0 -> best = []) /\ (n = 0 -> worst = [])).
Proof.
  intros response o. subst o response. unfold handleFeatureAnalysis.
  destruct (table db) as [|r l] eqn:Htable.
  - simpl. split; [reflexivity|]. split; [intros _; repeat split|congruence].
  - cbn [length Nat.eqb]. cbv zeta. split; [reflexivity|]. split; [discriminate|].
    intros _. do 4 eexists.
    repeat (split; [reflexivity|]).
    rewrite !length_map.
    split; [reflexivity|]. split; [reflexivity|].
    split.
    { apply (exclusive_filters_length
               (fun f => bool_decide (row_sentiment f = Some "positive"))
               (fun f => bool_decide (row_sentiment f = Some "negative"))).
      intros x Hx. apply bool_decide_eq_true in Hx. rewrite Hx. reflexivity. }
    split; [apply extracted_features_bounds|].
    split; [apply extracted_features_bounds|].
    split; intros Hzero; apply length_zero_iff_nil in Hzero;
      unfold extractFeatures; rewrite Hzero; reflexivity.
Qed.

(** * Properties of the submission *)

Lemma analyzeSentiment_label (AI_run : chat) message :
  analyzeSentiment AI_run message ∈ ["positive"; "negative"; "neutral"].
Proof.
  unfold analyzeSentiment. destruct (AI_run _ _) as [response|e].
  - cbv zeta. destruct (includes "positive" _); [left|].
    destruct (includes "negative" _); [right; left | right; right; left].
  - right; right; left.
Qed.

Lemma toString_nonempty n : toString n <> EmptyString.
Proof.
  unfold toString, NilZero.string_of_int.
  destruct (Z.to_int n) as [d|d]; [|discriminate].
  destruct d; discriminate.
Qed.

(** A field that is truthy and has a text is a non-empty string. *)
Lemma text_of_truthy v t :
  falsy v = false -> text v = Some t ->
  exists s, v = Some (JString s) /\ s <> EmptyString /\ t = Some s.
Proof.
  destruct v as [x|]; [|discriminate]. unfold falsy. intros Hx.
  apply negb_false_iff in Hx.
  destruct x as [|b|x|s|items|members]; cbn [text];
    try (rewrite Hx; discriminate).
  simpl in Hx. apply negb_true_iff, bool_decide_eq_false in Hx.
  rewrite bool_decide_eq_false_2 by assumption. intros [= <-]. eauto.
Qed.

Lemma text_of_falsy v t : falsy v = true -> text v = Some t -> t = None.
Proof.
  destruct v as [x|]; unfold falsy; [|intros _ [= <-]; reflexivity].
  intros Hx. apply negb_true_iff in Hx.
  destruct x as [|b|x|s|items|members]; cbn [text];
    try (rewrite Hx; intros [= <-]; reflexivity).
  simpl in Hx. apply negb_false_iff, bool_decide_eq_true in Hx. subst s.
  intros [= <-]. reflexivity.
Qed.

Lemma null_or_not (v : jsval) : v = JNull \/ v <> JNull.
Proof. destruct v; [now left | right; discriminate..]. Qed.

(** The answer of the handler, by cases. *)
Lemma submission_cases request_json services corsHeaders st response st' :
  handlePostFeedback request_json services corsHeaders st = Some (response, st') ->
  (status response = 500 /\ st' = st
   /\ ((exists e, request_json = Throw e) \/ request_json = Ok JNull))
  \/ (exists submitted,
        request_json = Ok submitted /\ submitted <> JNull
        /\ (falsy (property submitted "source") = true
            \/ falsy (property submitted "message") = true)
        /\ status response = 400 /\ st' = st)
  \/ (exists submitted source message category author,
        request_json = Ok submitted /\ submitted <> JNull
        /\ property submitted "source" = Some (JString source) /\ source <> EmptyString
        /\ property submitted "message" = Some (JString message)
        /\ message <> EmptyString
        /\ text (property submitted "category") = Some category
        /\ text (property submitted "author") = Some author
        /\ let label := analyzeSentiment (AI_run_chat services) message in
           let values := {| ins_source := source; ins_message := message;
                            ins_sentiment := label; ins_category := category;
                            ins_author := author |} in
           match DB_insert services (DB (bindings st)) values with
           | Throw e =>
               response = json_response corsHeaders 500
                            [("error", FString "Failed to create feedback");
                             ("details", FString e)]
               /\ st' = st
           | Ok (db, k) =>
               response = json_response corsHeaders 201
                            [("success", FBool true); ("id", FNumber k);
                             ("sentiment", FString label)]
               /\ st' = {| bindings := with_db (bindings st) db;
                           vectors := store_embedding (with_db (bindings st) db) k
                                        source message label (vectors st);
                           instances :=
                             trigger_workflow services
                               {| feedbackId := k;
                                  Workflow.message := message;
                                  source := source;
                                  author := Some (or_text author "Anonymous");
                                  sentiment := label |}
                               (instances st) |}
           end).
Proof.
  unfold handlePostFeedback.
  destruct request_json as [submitted|e].
  2:{ intros [= <- <-]. left. eauto. }
  destruct (null_or_not submitted) as [->|Hnull].
  { intros [= <- <-]. left. eauto. }
  assert (forall A (x y : A),
            match submitted with JNull => x | _ => y end = y) as Hskip
    by (intros; destruct submitted; congruence).
  rewrite Hskip. clear Hskip.
  destruct (falsy (property submitted "source")) eqn:Hs.
  { intros [= <- <-]. right. left. exists submitted. auto 10. }
  destruct (falsy (property submitted "message")) eqn:Hm.
  { intros [= <- <-]. right. left. exists submitted. auto 10. }
  cbn [orb].
  destruct (text (property submitted "source")) as [[source|]|] eqn:Hsource;
    try discriminate.
  destruct (text (property submitted "message")) as [[message|]|] eqn:Hmessage;
    try discriminate.
  destruct (text (property submitted "category")) as [category|] eqn:Hcategory;
    try discriminate.
  destruct (text (property submitted "author")) as [author|] eqn:Hauthor;
    try discriminate.
  destruct (text_of_truthy _ _ Hs Hsource) as (s1 & Hs1 & Hne1 & [= ->]).
  destruct (text_of_truthy _ _ Hm Hmessage) as (s2 & Hs2 & Hne2 & [= ->]).
  intros Hrun. right. right.
  exists submitted, s1, s2, category, author.
  repeat (split; [assumption || reflexivity|]).
  cbv zeta.
  destruct (DB_insert services _ _) as [[db k]|e]; injection Hrun as <- <-; auto.
Qed.

(** X15. [POST /api/feedback] answers 500 and changes nothing when
    reading the body throws and when the body is [null]; it answers 400
    and changes nothing when the body is another value whose [source] or
    [message] is absent or falsy, whatever the other fields are. Every
    answer has status 201, 400 or 500; a 400 is given for a missing
    [source] or [message] only, a 201 only to a body with both; and with
    any status other than 201 the table, the vector index and the workflow
    instances are as before. *)
Theorem rejected_submission_changes_nothing request_json services corsHeaders st :
  let outcome := handlePostFeedback request_json services corsHeaders st in
  (forall e, request_json = Throw e ->
     outcome = Some (json_response corsHeaders 500
                       [("error", FString "Failed to create feedback");
                        ("details", FString e)], st))
  /\ (request_json = Ok JNull ->
      exists response, outcome = Some (response, st) /\ status response = 500)
  /\ (forall submitted,
        request_json = Ok submitted -> submitted <> JNull ->
        falsy (property submitted "source") = true
        \/ falsy (property submitted "message") = true ->
        outcome = Some (json_response corsHeaders 400
                          [("error", FString "source and message are required")], st))
  /\ (forall response st',
        outcome = Some (response, st') ->
        (status response = 201 \/ status response = 400 \/ status response = 500)
        /\ (status response = 400 ->
            exists submitted,
              request_json = Ok submitted /\ submitted <> JNull
              /\ (falsy (property submitted "source") = true
                  \/ falsy (property submitted "message") = true))
        /\ (status response = 201 ->
            exists submitted,
              request_json = Ok submitted /\ submitted <> JNull
              /\ falsy (property submitted "source") = false
              /\ falsy (property submitted "message") = false)
        /\ (status response <> 201 -> st' = st)).
Proof.
  intros outcome. subst outcome. split; [|split; [|split]].
  - intros e ->. reflexivity.
  - intros ->. eexists. split; reflexivity.
  - intros submitted -> Hnull Hfalsy. unfold handlePostFeedback.
    assert (falsy (property submitted "source")
            || falsy (property submitted "message") = true) as ->
      by (apply orb_true_iff; exact Hfalsy).
    destruct submitted; congruence.
  - intros response st' Hrun.
    destruct (submission_cases _ _ _ _ _ _ Hrun)
      as [(H500 & Hst & _)
         |[(submitted & Hrq & Hnull & Hfalsy & H400 & Hst)
          |(submitted & source & message & category & author & Hrq & Hnull & Hs & Hsne
            & Hm & Hmne & _ & _ & Hins)]].
    + rewrite H500. split; [auto|]. split; [discriminate|]. split; [discriminate|auto].
    + rewrite H400. split; [auto|]. split; [eauto|]. split; [discriminate|auto].
    + cbv zeta in Hins.
      assert (falsy (property submitted "source") = false
              /\ falsy (property submitted "message") = false) as Htruthy.
      { rewrite Hs, Hm. simpl. split; apply negb_false_iff, negb_true_iff;
          now apply bool_decide_eq_false. }
      destruct (DB_insert services _ _) as [[db k]|e]; destruct Hins as [-> ->]; simpl.
      * split; [auto|]. split; [discriminate|]. split; [eauto 6|]. congruence.
      * split; [auto|]. split; [discriminate|]. split; [discriminate|auto].
Qed.

(** X16. For a body with a non-empty string as [source] and as [message]
    and with texts or falsy values as [category] and [author], the handler
    runs one [INSERT] on the store it finds, with the submitted source and
    message, the sentiment that [analyzeSentiment] gives for the message,
    which is one of the three labels, and a category and an author that are
    null when absent or falsy. When the engine accepts it the answer is a
    201 with the id the engine reports and that sentiment, and the store is
    the one the engine leaves, whether or not the embedding, the insertion
    of the vector or the creation of the workflow instance fail; when the
    engine throws, the answer is a 500 with the message thrown and nothing
    has changed. *)
Theorem accepted_submission_is_stored submitted services corsHeaders st
    source message category author :
  property submitted "source" = Some (JString source) -> source <> EmptyString ->
  property submitted "message" = Some (JString message) -> message <> EmptyString ->
  text (property submitted "category") = Some category ->
  text (property submitted "author") = Some author ->
  let outcome := handlePostFeedback (Ok submitted) services corsHeaders st in
  let label := analyzeSentiment (AI_run_chat services) message in
  let values := {| ins_source := source; ins_message := message;
                   ins_sentiment := label; ins_category := category;
                   ins_author := author |} in
  label ∈ ["positive"; "negative"; "neutral"]
  /\ (falsy (property submitted "category") = true -> category = None)
  /\ (falsy (property submitted "author") = true -> author = None)
  /\ match DB_insert services (DB (bindings st)) values with
     | Ok (db, k) =>
         exists st',
           outcome = Some (json_response corsHeaders 201
                             [("success", FBool true); ("id", FNumber k);
                              ("sentiment", FString label)], st')
           /\ DB (bindings st') = db
     | Throw e =>
         outcome = Some (json_response corsHeaders 500
                           [("error", FString "Failed to create feedback");
                            ("details", FString e)], st)
     end.
Proof.
  intros Hs Hsne Hm Hmne Hc Ha outcome label values. subst outcome.
  split; [apply analyzeSentiment_label|].
  split; [intros H; exact (text_of_falsy _ _ H Hc)|].
  split; [intros H; exact (text_of_falsy _ _ H Ha)|].
  unfold handlePostFeedback.
  assert (submitted <> JNull) as Hnull by (intros ->; discriminate).
  assert (forall A (x y : A),
            match submitted with JNull => x | _ => y end = y) as Hskip
    by (intros; destruct submitted; congruence).
  rewrite Hskip. clear Hskip.
  rewrite Hc, Ha, Hs, Hm. cbn [falsy truthy text].
  rewrite !bool_decide_eq_false_2 by assumption. cbn [negb orb].
  fold label. fold values.
  destruct (DB_insert services (DB (bindings st)) values) as [[db k]|e];
    [|reflexivity].
  eexists. split; reflexivity.
Qed.

Lemma accepted_submission_is_stored_witness :
  exists st',
    handlePostFeedback (Ok sample_body) sample_services [] sample_state
    = Some (json_response [] 201
              [("success", FBool true); ("id", FNumber 6); ("sentiment", FString "negative")],
            st')
    /\ length (table (DB (bindings st'))) = 5.
Proof.
  destruct (accepted_submission_is_stored sample_body sample_services [] sample_state
              "Email" "Checkout fails" None None eq_refl ltac:(discriminate)
              eq_refl ltac:(discriminate) eq_refl eq_refl)
    as (_ & _ & _ & st' & Hrun & Hdb).
  exists st'. split; [exact Hrun|]. now rewrite Hdb.
Defined.

(** X17. The answer of [POST /api/feedback] and the store it leaves
    depend on the body, the chat model and the store only: two runs that
    differ in the embedding model, the vector index, the workflow binding
    or the clock give the same response and the same store, so that a
    failure of one of these is never reported. *)
Theorem answer_ignores_embedding_and_workflow request_json services services'
    corsHeaders st st' :
  AI_run_chat services = AI_run_chat services' ->
  DB_insert services = DB_insert services' ->
  DB (bindings st) = DB (bindings st') ->
  (forall response st1,
     handlePostFeedback request_json services corsHeaders st = Some (response, st1) ->
     exists st2,
       handlePostFeedback request_json services' corsHeaders st' = Some (response, st2)
       /\ DB (bindings st2) = DB (bindings st1))
  /\ (handlePostFeedback request_json services corsHeaders st = None ->
      handlePostFeedback request_json services' corsHeaders st' = None).
Proof.
  intros Hchat Hinsert Hdb. unfold handlePostFeedback.
  rewrite <- Hchat, <- Hinsert, <- Hdb.
  destruct request_json as [submitted|e].
  2:{ split; [|discriminate]. intros response st1 [= <- <-]. eauto. }
  destruct (null_or_not submitted) as [->|Hnull].
  { split; [|discriminate]. intros response st1 [= <- <-]. eauto. }
  assert (forall A (x y : A),
            match submitted with JNull => x | _ => y end = y) as Hskip
    by (intros; destruct submitted; congruence).
  rewrite !Hskip. clear Hskip.
  destruct (falsy (property submitted "source") || falsy (property submitted "message")).
  { split; [|discriminate]. intros response st1 [= <- <-]. eauto. }
  destruct (text (property submitted "source")) as [[source|]|];
    try (split; [discriminate | reflexivity]).
  destruct (text (property submitted "message")) as [[message|]|];
    try (split; [discriminate | reflexivity]).
  destruct (text (property submitted "category")) as [category|];
    try (split; [discriminate | reflexivity]).
  destruct (text (property submitted "author")) as [author|];
    try (split; [discriminate | reflexivity]).
  destruct (DB_insert services _ _) as [[db k]|e];
    (split; [|discriminate]); intros response st1 [= <- <-]; eauto.
Qed.

Lemma answer_ignores_embedding_and_workflow_witness :
  visible (handlePostFeedback (Ok sample_body) working_services [] deaf_state)
  = visible (handlePostFeedback (Ok sample_body) sample_services [] sample_state).
Proof.
  destruct (answer_ignores_embedding_and_workflow (Ok sample_body) sample_services
              working_services [] sample_state deaf_state eq_refl eq_refl eq_refl)
    as [Hsame _].
  destruct (handlePostFeedback (Ok sample_body) sample_services [] sample_state)
    as [[response st1]|] eqn:Hrun; [|discriminate Hrun].
  destruct (Hsame response st1 eq_refl) as (st2 & -> & Hdb).
  unfold visible. simpl. now rewrite Hdb.
Defined.

(** With unique keys, a text that converts to the key of a row selects that
    row alone. *)
Lemma select_unique_row db key r :
  NoDup (map row_id (table db)) ->
  r ∈ table db ->
  integer_of_text db key = Some (row_id r) ->
  select_where_id db key = [r].
Proof.
  unfold select_where_id, id_equals. intros Hnd Hr Hkey. rewrite Hkey. clear Hkey.
  induction (table db) as [|x l IH]; [inversion Hr|].
  simpl in Hnd. apply NoDup_cons in Hnd. destruct Hnd as [Hx Hnd].
  assert (forall l', (forall y, y ∈ l' -> row_id y <> row_id r) ->
            List.filter (fun y => bool_decide (Some (row_id r) = Some (row_id y))) l' = [])
    as Hnone.
  { intros l' Hl'. apply elem_of_nil_inv. intros y Hy.
    apply list_elem_of_In, filter_In in Hy. destruct Hy as [Hy Heq].
    apply bool_decide_eq_true in Heq. apply list_elem_of_In in Hy.
    apply (Hl' y Hy). congruence. }
  apply elem_of_cons in Hr. destruct Hr as [->|Hr]; simpl.
  - rewrite bool_decide_eq_true_2 by reflexivity. f_equal. apply Hnone.
    intros y Hy Heq. apply Hx. rewrite <- Heq. apply list_elem_of_fmap. eauto.
  - rewrite bool_decide_eq_false_2; [now apply IH|].
    intros [= Heq]. apply Hx. rewrite <- Heq. apply list_elem_of_fmap. eauto.
Qed.

(** Once the row is found, the lookup answers 200 with it, or 500 when the
    embedding or the query throws. *)
Lemma similar_of_found_row env corsHeaders feedbackId original others :
  feedbackId <> EmptyString ->
  select_where_id (DB env) feedbackId = original :: others ->
  let response := handleSimilarFeedback (request feedbackId) env corsHeaders in
  (status response = 500 /\ exists e, search env original = Throw e)
  \/ (status response = 200
      /\ get "original" (body response) = Some (FRow original)
      /\ exists matches, search env original = Ok matches).
Proof.
  intros Hne Hrow. unfold handleSimilarFeedback, request, search.
  cbn [searchParams searchParams_get].
  rewrite bool_decide_eq_true_2 by reflexivity.
  cbn [falsy_string default]. rewrite bool_decide_eq_false_2 by assumption.
  unfold id. rewrite Hrow. fold query6.
  destruct (generateEmbedding (row_message original) env) as [emb|e]; simpl;
    [|left; eauto].
  destruct (VECTORIZE_query env emb query6) as [matches|e]; simpl; [|left; eauto].
  destruct (length _ =? 0)%nat; right; (split; [reflexivity|]); eauto.
Qed.

(** X18. The id of a 201 answer can be looked up: when the store left by
    the submission has unique keys, holds a row under the id of the answer
    and converts the decimal text of that id to it, then
    [GET /api/similar-feedback?id=<id>] on the state left answers neither
    400 nor 404; it answers 500 exactly when the embedding of that row's
    message or the query of the index throws, and 200 with that row as
    [original] otherwise. *)
Theorem posted_feedback_is_found request_json services corsHeaders st response st' k r :
  handlePostFeedback request_json services corsHeaders st = Some (response, st') ->
  get "id" (body response) = Some (FNumber k) ->
  NoDup (map row_id (table (DB (bindings st')))) ->
  r ∈ table (DB (bindings st')) ->
  row_id r = k ->
  integer_of_text (DB (bindings st')) (toString k) = Some k ->
  let lookup := handleSimilarFeedback (request (toString k)) (bindings st') corsHeaders in
  status response = 201
  /\ (status lookup = 200 \/ status lookup = 500)
  /\ (status lookup = 500 <-> exists e, search (bindings st') r = Throw e)
  /\ (status lookup = 200 -> get "original" (body lookup) = Some (FRow r)).
Proof.
  intros Hrun Hid Hnd Hr Hk Hconv lookup. subst lookup. split.
  - destruct (submission_cases _ _ _ _ _ _ Hrun)
      as [(H500 & _ & [[e ->]| ->])
         |[(submitted & -> & Hnull & Hfalsy & _)
          |(submitted & source & message & category & author & -> & _ & _ & _
            & _ & _ & _ & _ & Hins)]].
    + injection Hrun as <- _. discriminate Hid.
    + injection Hrun as <- _. discriminate Hid.
    + exfalso. unfold handlePostFeedback in Hrun.
      assert (falsy (property submitted "source")
              || falsy (property submitted "message") = true) as Hor
        by (apply orb_true_iff; exact Hfalsy).
      rewrite Hor in Hrun.
      destruct submitted; try congruence; injection Hrun as <- _; discriminate Hid.
    + cbv zeta in Hins.
      destruct (DB_insert services _ _) as [[db k']|e]; destruct Hins as [-> _];
        [reflexivity | discriminate Hid].
  - assert (select_where_id (DB (bindings st')) (toString k) = [r]) as Hrow
      by (apply select_unique_row; [assumption.. | now rewrite Hk]).
    destruct (similar_of_found_row (bindings st') corsHeaders (toString k) r []
                (toString_nonempty k) Hrow)
      as [[H500 Hthrow]|(H200 & Horiginal & matches & Hok)].
    + rewrite H500. split; [now right|]. split; [tauto|]. discriminate.
    + rewrite H200. split; [now left|].
      split; [|auto]. split; [discriminate|].
      intros [e He]. rewrite Hok in He. discriminate.
Qed.

Lemma posted_feedback_is_found_witness :
  status (handleSimilarFeedback (request "6") (bindings posted_state) []) = 200
  /\ get "original" (body (handleSimilarFeedback (request "6") (bindings posted_state) []))
     = Some (FRow posted_row).
Proof.
  assert (handlePostFeedback (Ok sample_body) sample_services [] sample_state
          = Some (json_response [] 201
                    [("success", FBool true); ("id", FNumber 6);
                     ("sentiment", FString "negative")], posted_state)) as Hrun
    by (vm_compute; reflexivity).
  assert (NoDup (map row_id (table (DB (bindings posted_state))))) as Hkeys.
  { vm_compute. repeat constructor; intros H; apply list_elem_of_In in H;
      simpl in H; intuition discriminate. }
  assert (posted_row ∈ table (DB (bindings posted_state))) as Hrow
    by (vm_compute; do 4 right; left).
  destruct (posted_feedback_is_found (Ok sample_body) sample_services [] sample_state
              _ posted_state 6%Z posted_row Hrun eq_refl Hkeys Hrow eq_refl eq_refl)
    as (_ & _ & _ & Hfound).
  assert (status (handleSimilarFeedback (request "6") (bindings posted_state) []) = 200)
    as H200 by (vm_compute; reflexivity).
  split; [exact H200 | exact (Hfound H200)].
Defined.



(** * The index left by the backfill *)

Lemma backfill_fold_index env l st :
  let st' := fold_left (backfill_item env) l st in
  exists done new,
    done `sublist_of` l
    /\ index st' = index st ++ new
    /\ Forall2 vector_of new done
    /\ processed st' = processed st + length new.
Proof.
  revert st. induction l as [|fb l IH]; intros st; simpl.
  - exists [], []. rewrite app_nil_r.
    split; [constructor|]. split; [reflexivity|]. split; [constructor|simpl; lia].
  - destruct (IH (backfill_item env st fb)) as (done & new & Hsub & Hix & Hall & Hp).
    unfold backfill_item, embed_and_insert in *.
    destruct (generateEmbedding (row_message fb) env) as [emb|e]; cbn [Js.bind] in *.
    + destruct (VECTORIZE_insert env (index st) _) as [[]|e]; cbn [Js.bind] in *.
      * simpl in Hix, Hp. eexists (fb :: done), (_ :: new).
        split; [now constructor|]. rewrite Hix, <- app_assoc.
        split; [reflexivity|]. split; [constructor; [repeat split|assumption]|].
        simpl. lia.
      * simpl in Hix, Hp. exists done, new.
        split; [now constructor|]. auto.
    + simpl in Hix, Hp. exists done, new. split; [now constructor|]. auto.
Qed.

(** X20. For ids that JavaScript numbers hold exactly, the backfill only
    appends to the vector index: the vectors it found stay in place, and
    each new one was made from a row of the table, different rows for
    different vectors, with the decimal text of the row's id as id and the
    row's source and sentiment as metadata; their number is the [processed]
    counter of the answer. Nothing is said of the order in which the new
    vectors reach the index. *)
Theorem backfill_appends_row_vectors env ix corsHeaders :
  Forall (fun r => safe_integer (row_id r)) (table (DB env)) ->
  let outcome := handleBackfillEmbeddings env ix corsHeaders in
  exists done new,
    done ⊆+ table (DB env)
    /\ snd outcome = ix ++ new
    /\ Forall2 vector_of new done
    /\ get "processed" (body (fst outcome)) = Some (FNumber (Z.of_nat (length new))).
Proof.
  intros _ outcome. subst outcome. unfold handleBackfillEmbeddings.
  destruct (length (select_order_by_id (DB env)) =? 0)%nat eqn:Hlen.
  - exists [], []. rewrite app_nil_r.
    split; [apply submseteq_nil_l|]. split; [reflexivity|].
    split; [constructor|reflexivity].
  - rewrite backfill_loop_fold, drop_0.
    destruct (backfill_fold_index env (select_order_by_id (DB env)) (start ix))
      as (done & new & Hsub & Hix & Hall & Hp).
    exists done, new. cbn [snd fst body json_response].
    split.
    { etransitivity; [apply sublist_submseteq, Hsub|].
      unfold select_order_by_id. now rewrite merge_sort_Permutation. }
    split; [exact Hix|]. split; [assumption|].
    simpl. rewrite Hp. reflexivity.
Qed.

Lemma backfill_appends_row_vectors_witness :
  exists done new,
    done ⊆+ table Sample.long_store
    /\ snd (handleBackfillEmbeddings (Sample.env_with Sample.long_store []) stale_index [])
       = stale_index ++ new
    /\ Forall2 vector_of new done
    /\ get "processed"
         (body (fst (handleBackfillEmbeddings (Sample.env_with Sample.long_store [])
                       stale_index [])))
       = Some (FNumber (Z.of_nat (length new))).
Proof.
  apply (backfill_appends_row_vectors (Sample.env_with Sample.long_store [])
           stale_index []).
  repeat constructor; unfold safe_integer; simpl; lia.
Defined.

(** * Error answers of the lookup *)

(** X21. [GET /api/similar-feedback] answers with one of four statuses:
    400 exactly when the [id] parameter is absent or empty; 404 exactly
    when it is given and selects no row; 500 exactly when a row is
    selected and the embedding of its message or the query of the index
    throws, and then [details] is the message thrown; 200 otherwise. *)
Theorem similar_lookup_status url env corsHeaders :
  let response := handleSimilarFeedback url env corsHeaders in
  let param := searchParams_get (searchParams url) "id" in
  let found := select_where_id (DB env) (default EmptyString param) in
  let search original :=
    await embedding := generateEmbedding (row_message original) env in
    VECTORIZE_query env embedding query6 in
  (status response = 200 \/ status response = 400
   \/ status response = 404 \/ status response = 500)
  /\ (status response = 400 <-> falsy_string param = true)
  /\ (status response = 404 <-> falsy_string param = false /\ found = [])
  /\ (status response = 500 <->
      falsy_string param = false
      /\ exists original e, head found = Some original /\ search original = Throw e)
  /\ (forall original e,
        falsy_string param = false -> head found = Some original ->
        search original = Throw e ->
        get "details" (body response) = Some (FString e)).
Proof.
  intros response param found search. subst response found search.
  unfold handleSimilarFeedback. fold param. fold query6.
  destruct (falsy_string param) eqn:Hparam.
  { simpl. split; [auto|]. split; [tauto|].
    split; [split; [discriminate|intros [H _]; discriminate]|].
    split; [split; [discriminate|intros [H _]; discriminate]|].
    intros ? ? H; discriminate. }
  cbv zeta.
  destruct (select_where_id (DB env) (default EmptyString param))
    as [|original others] eqn:Hrow.
  { simpl. split; [auto|]. split; [split; discriminate|].
    split; [tauto|].
    split; [split; [discriminate|intros (_ & o & e & H & _); discriminate]|].
    intros ? ? _ H; discriminate. }
  cbn [head].
  destruct (generateEmbedding (row_message original) env) as [emb|e1] eqn:Hemb;
    cbn [Js.bind].
  2:{ simpl. split; [auto|]. split; [split; discriminate|].
      split; [split; [discriminate|intros [_ H]; discriminate]|].
      split.
      - split; [|reflexivity]. intros _. split; [reflexivity|].
        exists original, e1. split; [reflexivity|]. now rewrite Hemb.
      - intros o e _ [= <-] H. rewrite Hemb in H. simpl in H. congruence. }
  destruct (VECTORIZE_query env emb query6) as [matches|e2] eqn:Hquery; cbn [Js.bind].
  2:{ simpl. split; [auto|]. split; [split; discriminate|].
      split; [split; [discriminate|intros [_ H]; discriminate]|].
      split.
      - split; [|reflexivity]. intros _. split; [reflexivity|].
        exists original, e2. split; [reflexivity|]. rewrite Hemb. exact Hquery.
      - intros o e _ [= <-] H. rewrite Hemb in H. simpl in H. congruence. }
  destruct (length _ =? 0)%nat; simpl;
    (split; [auto|]); (split; [split; discriminate|]);
    (split; [split; [discriminate|intros [_ H]; discriminate]|]);
    (split; [split; [discriminate|
                     intros (_ & o & e & [= <-] & H); rewrite Hemb in H; simpl in H;
                     congruence]|]);
    intros o e _ [= <-] H; rewrite Hemb in H; simpl in H; congruence.
Qed.

(** * Self-exclusion with canonical ids *)

(** X22. When the [id] parameter is the decimal text of the key it
    converts to, and so is the id of every match the index returns, the
    row of [original] is not among the rows of [similar]. *)
Theorem canonical_ids_exclude_original url env corsHeaders feedbackId original similar :
  searchParams_get (searchParams url) "id" = Some feedbackId ->
  canonical (DB env) feedbackId ->
  (forall emb matches m,
     VECTORIZE_query env emb query6 = Ok matches -> m ∈ matches ->
     canonical (DB env) (match_id m)) ->
  let response := handleSimilarFeedback url env corsHeaders in
  get "original" (body response) = Some (FRow original) ->
  get "similar" (body response) = Some (FRows similar) ->
  forall r, r ∈ similar -> row_id r <> row_id original.
Proof.
  intros Hid (k0 & Htext0 & Hkey0) Hindex response Ho Hs r Hr Heq. subst response.
  destruct (similar_answer env corsHeaders url)
    as [(fid & orig & others & emb & matches & Hid' & _ & Hrow & _ & Hq & _ & Hbody)
       |(_ & Hnone & _ & _)]; [|congruence].
  assert (fid = feedbackId) as -> by congruence.
  rewrite Hbody in Ho, Hs.
  assert (orig = original) as ->
    by (destruct (top_matches feedbackId matches); simpl in Ho; congruence).
  assert (original ∈ select_where_id (DB env) feedbackId) as Hin
    by (rewrite Hrow; left).
  apply selected_row in Hin. destruct Hin as [_ Horig].
  destruct (top_matches feedbackId matches) as [|m0 ms] eqn:Htop.
  { simpl in Hs. injection Hs as <-. inversion Hr. }
  unfold found_body in Hs. simpl in Hs. injection Hs as <-.
  rewrite Htop in Hr. rewrite <- Htop in Hr.
  apply hydrated_row in Hr. destruct Hr as [_ (text & Ht & Hk)].
  apply list_elem_of_fmap in Ht. destruct Ht as (m & -> & Hm).
  apply top_matches_surfaced in Hm. destruct Hm as (Hm & Hne & _).
  destruct (Hindex emb matches m Hq Hm) as (k & Htext & Hkey).
  apply Hne. rewrite Htext, Htext0. f_equal. congruence.
Qed.

Lemma canonical_ids_exclude_original_witness :
  Forall (fun r => row_id r <> 1%Z)
    [Sample.row 2 "App freezes on startup"; Sample.row 3 "Crash when saving"].
Proof.
  apply Forall_forall.
  refine (canonical_ids_exclude_original (request "1")
            (Sample.env_with Sample.store ranked) [] "1"
            (Sample.row 1 "The app keeps crashing")
            [Sample.row 2 "App freezes on startup"; Sample.row 3 "Crash when saving"]
            eq_refl _ _ _ _).
  - exists 1%Z. split; reflexivity.
  - intros emb matches m [= <-] Hm. unfold ranked in Hm.
    repeat (apply elem_of_cons in Hm; destruct Hm as [->|Hm]);
      [exists 1%Z | exists 3%Z | exists 2%Z | exists 9%Z | exists 5%Z | inversion Hm];
      split; reflexivity.
  - vm_compute. reflexivity.
  - vm_compute. reflexivity.
Defined.

(** * Ties among keywords *)

Lemma keys_of_tally words keywords :
  map fst (fold_left (fun keywords word => bump word keywords) words keywords)
  = fold_left (fun seen w => if bool_decide (w ∈ seen) then seen else seen ++ [w])
      words (map fst keywords).
Proof.
  revert keywords. induction words as [|w words IH]; intros keywords; [reflexivity|].
  simpl. rewrite IH, keys_bump.
  destruct (bool_decide (w ∈ map fst keywords)); [now rewrite app_nil_r | reflexivity].
Qed.

(** Placing an entry keeps the order of the entries with a given count:
    the sort is stable. *)
Lemma place_keeps_ties n a l :
  let p := fun e : string * mentions => mentioned n {| feature_name := fst e;
                                                       feature_mentions := snd e |} in
  List.filter p (place a l) = List.filter p (a :: l).
Proof.
  intros p. induction l as [|b l IH]; [reflexivity|].
  cbn [place]. destruct (ranks_above b a) eqn:Hrank; [|reflexivity].
  cbn [List.filter] in *. rewrite IH.
  destruct (p a) eqn:Ha; destruct (p b) eqn:Hb; try reflexivity.
  exfalso. subst p. unfold mentioned, ranks_above in *. simpl in *.
  destruct (snd a) as [x| |]; try discriminate.
  destruct (snd b) as [y| |]; try discriminate.
  apply Nat.eqb_eq in Ha, Hb. apply Nat.ltb_lt in Hrank. lia.
Qed.

Lemma sort_keeps_ties n l :
  let p := fun e : string * mentions => mentioned n {| feature_name := fst e;
                                                       feature_mentions := snd e |} in
  List.filter p (sort_entries l) = List.filter p l.
Proof.
  intros p. induction l as [|a l IH]; [reflexivity|].
  cbn [sort_entries]. subst p. rewrite place_keeps_ties.
  cbn [List.filter]. now rewrite IH.
Qed.

Lemma filter_map_commute {A B} (f : A -> B) (p : B -> bool) (l : list A) :
  List.filter p (map f l) = map f (List.filter (fun x => p (f x)) l).
Proof.
  induction l as [|x l IH]; [reflexivity|].
  simpl. destruct (p (f x)); simpl; now rewrite IH.
Qed.

Lemma filter_agree {A} (p q : A -> bool) (l : list A) :
  (forall x, x ∈ l -> p x = q x) -> List.filter p l = List.filter q l.
Proof.
  induction l as [|x l IH]; intros H; [reflexivity|].
  simpl. rewrite (H x) by left. rewrite IH; [reflexivity|].
  intros y Hy. apply H. now right.
Qed.

(** X23. Unless the word [constructor] is counted, the keywords with a
    given number of mentions come in the order in which the words were
    first met in the feedback: among words mentioned equally often, the
    fallback keeps those met first. *)
Theorem keyword_ties_keep_first_mention feedbackList sentimentType n :
  "constructor" ∉ counted feedbackList ->
  map feature_name (List.filter (mentioned n) (extractKeywords feedbackList sentimentType))
  `prefix_of`
  List.filter (fun w => (occurrences w feedbackList =? n)%nat)
    (first_mentions (counted feedbackList)).
Proof.
  intros Hctor. unfold extractKeywords, slice. rewrite drop_0. change (3 - 0) with 3.
  rewrite filter_map_commute, map_map. cbn [feature_name].
  set (p := fun e : string * mentions =>
              mentioned n {| feature_name := fst e; feature_mentions := snd e |}).
  set (sorted := sort_entries (count_words feedbackList)).
  assert (first_mentions (counted feedbackList) = map fst (count_words feedbackList)) as ->
    by (rewrite count_words_tally, keys_of_tally; reflexivity).
  rewrite filter_map_commute.
  rewrite (filter_agree (fun e => (occurrences (fst e) feedbackList =? n)%nat) p).
  - pose proof (sort_keeps_ties n (count_words feedbackList)) as Hsort.
    cbv zeta in Hsort. fold p sorted in Hsort. rewrite <- Hsort.
    rewrite <- (take_drop 3 sorted) at 2.
    rewrite List.filter_app, map_app. now eexists.
  - intros e He.
    destruct (count_words_entries feedbackList) as (_ & Hkeys & Hcount & _).
    assert (fst e <> "constructor") as Hne.
    { intros Heq. apply Hctor. rewrite <- Heq. apply Hkeys.
      apply list_elem_of_fmap. eauto. }
    destruct (Hcount e He Hne) as [Hsnd _].
    subst p. unfold mentioned. simpl. now rewrite Hsnd.
Qed.

Lemma keyword_ties_keep_first_mention_witness :
  map feature_name (List.filter (mentioned 3) (extractKeywords sample_feedback "negative"))
  `prefix_of`
  List.filter (fun w => (occurrences w sample_feedback =? 3)%nat)
    (first_mentions (counted sample_feedback)).
Proof.
  apply (keyword_ties_keep_first_mention sample_feedback "negative" 3).
  intros H. apply list_elem_of_In in H. vm_compute in H. intuition discriminate.
Defined.

(** * The router *)

(** X24. A handler that writes to the table or to the index is reached
    only by [POST], and only on its own path; [OPTIONS] gets the preflight
    answer on every path; the path [/] serves the dashboard for every
    other method; and the 404 answer is given exactly to the remaining
    requests, among them those whose method is not in upper case. *)
Theorem writers_need_post method pathname :
  (Router.writes (Router.fetch method pathname) = true -> method = "POST")
  /\ (Router.fetch method pathname = Router.PostFeedback <->
      method = "POST" /\ pathname = "/api/feedback")
  /\ (Router.fetch method pathname = Router.BackfillEmbeddings <->
      method = "POST" /\ pathname = "/api/backfill-embeddings")
  /\ (Router.fetch method pathname = Router.Preflight <-> method = "OPTIONS")
  /\ (Router.fetch method pathname = Router.Dashboard <-> method <> "OPTIONS" /\ pathname = "/")
  /\ (Router.fetch method pathname = Router.NotFound <->
      method <> "OPTIONS" /\ pathname <> "/"
      /\ ~ (method = "POST" /\ pathname ∈ ["/api/feedback"; "/api/backfill-embeddings"])
      /\ ~ (method = "GET"
            /\ pathname ∈ ["/api/feedback"; "/api/analyze-features";
                           "/api/similar-feedback"])).
Proof.
  unfold Router.fetch.
  repeat match goal with
         | |- context [bool_decide (?x = ?y)] =>
             lazymatch x with
             | String _ _ => fail
             | _ => destruct (bool_decide (x = y)) eqn:?H
             end
         end;
    repeat match goal with
           | H : bool_decide _ = true |- _ => apply bool_decide_eq_true in H
           | H : bool_decide _ = false |- _ => apply bool_decide_eq_false in H
           end;
    subst; simpl; try discriminate;
    repeat split; try discriminate; try congruence;
    rewrite ?elem_of_cons, ?elem_of_nil; try tauto;
    try (intros; intuition congruence).
Qed.
